(** * fastf1_util_functions: lap/stint reconciliation and the lap-time
    distribution plot, embedded shallowly.

    Source files: [fastf1_race_util.py] ([prepare_driver_laps],
    [plot_lap_time_distributions]).

    The Python code works on pandas frames that are mutable objects passed by
    reference.  Frames therefore live in a heap, and every function of the
    source is a computation in a state-and-exception monad over that heap:
    an exception leaves the heap as it was when it was raised. *)

From Stdlib Require Import ZArith String List Lia.
From stdpp Require Import gmap strings list fin_maps.
From stdpp Require Import pretty.

Local Open Scope string_scope.
Local Open Scope list_scope.
Local Open Scope Z_scope.

(** ** Values held by a frame *)

(** A cell of a frame.  Numbers are the integers of the timing data (lap
    numbers, stint lengths, positions; pandas may store them as floats with an
    integral value).  [Timedelta ns] is a duration of [ns] nanoseconds and
    [Seconds ns] is the float that pandas' [total_seconds] yields for such a
    duration.  A null cell (NaN, NaT, None) is the absence of a cell. *)
Inductive cell : Type :=
| Int (z : Z)
| Str (s : string)
| Timedelta (ns : Z)
| Seconds (ns : Z).

#[global] Instance cell_eq_dec : EqDecision cell.
Proof. solve_decision. Defined.

(** A row maps the column labels to the row's non-null cells. *)
Abbreviation row := (gmap string cell).

(** A Series: one optional cell per row, [None] for a null. *)
Abbreviation series := (list (option cell)).

(** A Python number: an integer, or [None] for the float NaN. *)
Abbreviation num := (option Z).

Record DataFrame : Type := Frame {
  columns : list string;
  rows : list row
}.

(** ** Exceptions *)

Inductive exn : Type :=
| KeyError (key : string)
| TypeError
| AttributeError
| ValueError (msg : string)
| Unmodelled (why : string).
(** [Unmodelled] is no Python exception: it marks a state that lies outside
    the model (arithmetic on a fractional float, a reference that was never
    allocated). *)

Inductive result (A : Type) : Type :=
| Ok (a : A)
| Raise (e : exn).
Arguments Ok {A} a.
Arguments Raise {A} e.

#[global] Instance result_ret : MRet result := @Ok.
#[global] Instance result_bind : MBind result := λ A B f r,
  match r with
  | Ok a => f a
  | Raise e => Raise e
  end.

(** ** pandas on frame values *)

Definition has_column (df : DataFrame) (c : string) : bool :=
  bool_decide (c ∈ columns df).

(** [df[c]] *)
Definition column (df : DataFrame) (c : string) : result series :=
  if has_column df c then Ok ((λ r : row, r !! c) <$> rows df)
  else Raise (KeyError c).

Definition add_label (c : string) (cols : list string) : list string :=
  if bool_decide (c ∈ cols) then cols else cols ++ [c].

(** [df[c] = v] for a scalar [v]: the column is overwritten, or appended. *)
Definition set_column (df : DataFrame) (c : string) (v : cell) : DataFrame :=
  {| columns := add_label c (columns df);
     rows := (λ r : row, <[c:=v]> r) <$> rows df |}.

Definition set_cell (c : string) (v : option cell) (r : row) : row :=
  match v with
  | Some x => <[c:=x]> r
  | None => delete c r
  end.

(** [df[c] = s] for a Series [s] taken from a frame of the same index. *)
Definition set_series (df : DataFrame) (c : string) (s : series)
  : result DataFrame :=
  if bool_decide (length s = length (rows df)) then
    Ok {| columns := add_label c (columns df);
          rows := zip_with (set_cell c) s (rows df) |}
  else Raise (ValueError "Length of values does not match length of index").

(** [df.loc[mask, c] = v] for a scalar [v].  An existing column is written
    where the mask holds.  A missing column is first created null and then
    written; pandas refuses that on a frame without rows. *)
Definition set_where (df : DataFrame) (mask : list bool) (c : string) (v : cell)
  : result DataFrame :=
  if has_column df c then
    Ok {| columns := columns df;
          rows := zip_with (λ (m : bool) (r : row), if m then <[c:=v]> r else r)
                    mask (rows df) |}
  else if bool_decide (rows df = []) then
    Raise (ValueError "cannot set a frame with no defined index and a scalar")
  else
    Ok {| columns := columns df ++ [c];
          rows := zip_with (λ (m : bool) (r : row),
                              if m then <[c:=v]> r else delete c r)
                    mask (rows df) |}.

(** [df.loc[mask]]: the rows where the mask holds, as a new frame. *)
Definition select_rows (df : DataFrame) (mask : list bool) : DataFrame :=
  {| columns := columns df;
     rows := snd <$> filter (λ mr : bool * row, mr.1 = true) (zip mask (rows df)) |}.

(** [s == v] *)
Definition series_eq (s : series) (v : cell) : list bool :=
  (λ c : option cell, bool_decide (c = Some v)) <$> s.

(** The number a cell stands for in arithmetic and in an order comparison. *)
Definition number (c : option cell) : result num :=
  match c with
  | None => Ok None
  | Some (Int z) => Ok (Some z)
  | Some (Str _) | Some (Timedelta _) => Raise TypeError
  | Some (Seconds _) => Raise (Unmodelled "fractional float")
  end.

Definition num_add (a b : num) : num :=
  match a, b with
  | Some x, Some y => Some (x + y)
  | _, _ => None
  end.

Definition num_sub (a b : num) : num :=
  match a, b with
  | Some x, Some y => Some (x - y)
  | _, _ => None
  end.

(** Comparisons with NaN are false. *)
Definition num_le (a b : num) : bool :=
  match a, b with
  | Some x, Some y => x <=? y
  | _, _ => false
  end.

(** [s >= x] and [s <= x], element by element. *)
Definition series_ge (s : series) (x : num) : result (list bool) :=
  mapM (λ c, n ← number c; mret (num_le x n)) s.

Definition series_le (s : series) (x : num) : result (list bool) :=
  mapM (λ c, n ← number c; mret (num_le n x)) s.

(** [m1 & m2] *)
Definition mask_and (m1 m2 : list bool) : list bool := zip_with andb m1 m2.

(** [pd.concat(frames, ignore_index=True)]: the rows of the frames one after
    the other, under the union of their columns in order of first appearance.
    pandas raises on an empty list of frames. *)
Definition concat (frames : list DataFrame) : result DataFrame :=
  match frames with
  | [] => Raise (ValueError "No objects to concatenate")
  | _ =>
      Ok {| columns := foldl (λ cols df, foldl (λ cs c, add_label c cs) cols (columns df))
                         [] frames;
            rows := frames ≫= rows |}
  end.

(** The seconds of one cell of a Series of durations. *)
Definition cell_seconds (c : option cell) : result (option cell) :=
  match c with
  | None => Ok None
  | Some (Timedelta ns) => Ok (Some (Seconds ns))
  | Some _ => Raise AttributeError
  end.

(** [s.dt.total_seconds()].  The accessor [.dt] goes by the dtype of the
    Series, not by its cells one at a time: a Series that holds a value which
    is no duration is not timedelta64 and [.dt] raises AttributeError, a
    Series of durations and nulls is timedelta64 and gives the seconds, null
    for null.  A Series without any value (no rows, or nulls only) does not
    show its dtype in its cells: as float64 or object it raises
    AttributeError, as timedelta64 it gives nulls.  Such a Series is left
    outside the model. *)
Definition total_seconds (s : series) : result series :=
  secs ← mapM cell_seconds s;
  if forallb (λ c : option cell, bool_decide (c = None)) s
  then Raise (Unmodelled "dtype of a Series without a value")
  else Ok secs.

(** ** The world: frames by reference, and what has been drawn *)

(** A reference to a frame object. *)
Abbreviation loc := nat.

(** A call into the charting libraries.  A frame handed over as [data] is
    recorded as it was when the call was made. *)
Inductive draw : Type :=
| Subplots (figsize : Z * Z)
| Violinplot (data : DataFrame) (x y hue : string) (order : list string)
    (palette : gmap string string)
| Swarmplot (data : DataFrame) (x y : string) (order : list string) (hue : string)
    (palette : gmap string string) (hue_order : list string) (size : Z)
| SetXLabel (label : string)
| SetYLabel (label : string)
| Suptitle (title : string)
| Despine
| TightLayout
| ShowFigure.

Record world : Type := World {
  heap : list DataFrame;
  canvas : list draw
}.

(** Computations: they run in a world, end in a value or an exception, and
    leave a world behind in both cases. *)
Definition py (A : Type) : Type := world → result A * world.

#[global] Instance py_ret : MRet py := λ A a w, (Ok a, w).
#[global] Instance py_bind : MBind py := λ A B k m w,
  match m w with
  | (Ok a, w') => k a w'
  | (Raise e, w') => (Raise e, w')
  end.

Definition lift {A : Type} (r : result A) : py A := λ w, (r, w).

(** Creating a frame object gives the next free reference. *)
Definition alloc (df : DataFrame) : py loc := λ w,
  (Ok (length (heap w)), {| heap := heap w ++ [df]; canvas := canvas w |}).

Definition load (l : loc) : py DataFrame := λ w,
  match heap w !! l with
  | Some df => (Ok df, w)
  | None => (Raise (Unmodelled "dangling reference"), w)
  end.

Definition store (l : loc) (df : DataFrame) : py unit := λ w,
  (Ok (), {| heap := <[l:=df]> (heap w); canvas := canvas w |}).

(** [l[c]] reads, the assignments write through the reference. *)
Definition getitem (l : loc) (c : string) : py series :=
  df ← load l; lift (column df c).

Definition setitem (l : loc) (c : string) (v : cell) : py unit :=
  df ← load l; store l (set_column df c v).

Definition setitem_series (l : loc) (c : string) (s : series) : py unit :=
  df ← load l; df' ← lift (set_series df c s); store l df'.

Definition loc_setitem (l : loc) (mask : list bool) (c : string) (v : cell)
  : py unit :=
  df ← load l; df' ← lift (set_where df mask c v); store l df'.

(** ** The lap source *)

(** A loaded session, seen through the one chain of calls the code makes on
    it: [pick_quicklaps session driver] is the frame that
    [session.laps.pick_drivers(driver).pick_quicklaps().reset_index(drop=True)]
    builds (a new frame on every call; empty for a driver without laps). *)
Record Session : Type := { pick_quicklaps : string → DataFrame }.

(** ** prepare_driver_laps *)

(** The loop [for stint_number, stint_length in enumerate(stint_lengths, start=1)],
    entered with the current [stint_number] and [start_lap]. *)
Fixpoint assign_stints (driver_laps : loc) (stint_number : Z) (start_lap : num)
    (stint_lengths : series) : py unit :=
  match stint_lengths with
  | [] => mret ()
  | stint_length :: rest =>
      L ← lift (number stint_length);
      let end_lap := num_sub (num_add start_lap L) (Some 1) in
      lap ← getitem driver_laps "LapNumber";
      ge ← lift (series_ge lap start_lap);
      lap' ← getitem driver_laps "LapNumber";
      le ← lift (series_le lap' end_lap);
      loc_setitem driver_laps (mask_and ge le) "Stint" (Int stint_number);;
      let start_lap := num_add end_lap (Some 1) in
      assign_stints driver_laps (stint_number + 1) start_lap rest
  end.

(** [stints.loc[stints["Driver"] == driver]["StintLength"].tolist()]: the
    stint lengths of one driver, in stored order.  The stints frame is only
    read. *)
Definition driver_stint_lengths (stints : DataFrame) (driver : string)
  : result series :=
  by_driver ← column stints "Driver";
  let driver_stints := select_rows stints (series_eq by_driver (Str driver)) in
  column driver_stints "StintLength".

(** One turn of [for driver in drivers], up to the frame that is appended. *)
Definition driver_block (session : Session) (stints : loc) (driver : string)
  : py loc :=
  driver_laps ← alloc (pick_quicklaps session driver);
  setitem driver_laps "Driver" (Str driver);;
  stints_df ← load stints;
  stint_lengths ← lift (driver_stint_lengths stints_df driver);
  let start_lap := Some 1 in
  assign_stints driver_laps 1 start_lap stint_lengths;;
  mret driver_laps.

Fixpoint for_drivers (session : Session) (stints : loc) (drivers : list string)
    (driver_laps_list : list loc) : py (list loc) :=
  match drivers with
  | [] => mret driver_laps_list
  | driver :: rest =>
      driver_laps ← driver_block session stints driver;
      for_drivers session stints rest (driver_laps_list ++ [driver_laps])
  end.

Definition prepare_driver_laps (session : Session) (drivers : list string)
    (stints : loc) : py loc :=
  driver_laps_list ← for_drivers session stints drivers [];
  frames ← mapM load driver_laps_list;
  combined ← lift (concat frames);
  alloc combined.

(** ** plot_lap_time_distributions *)

Section Plotting.

(** The charting libraries are outside the repository: a call either is
    accepted or raises.  They read the frames they are given. *)
Variable backend : draw → option exn.

Definition emit (d : draw) : py unit := λ w,
  match backend d with
  | Some e => (Raise e, w)
  | None => (Ok (), {| heap := heap w; canvas := canvas w ++ [d] |})
  end.

(** The truth value of a string: the empty string is false. *)
Definition truthy (s : string) : bool := negb (bool_decide (s = "")).

Definition plot_lap_time_distributions (driver_laps : loc)
    (finishing_order : list string) (driver_colors compound_colors : gmap string string)
    (title : option string) (marker_size : Z) (figsize : Z * Z) : py unit :=
  df ← load driver_laps;
  (if negb (has_column df "LapTime (s)") then
     lap_time ← getitem driver_laps "LapTime";
     secs ← lift (total_seconds lap_time);
     setitem_series driver_laps "LapTime (s)" secs
   else mret ());;
  emit (Subplots figsize);;
  data ← load driver_laps;
  emit (Violinplot data "Driver" "LapTime (s)" "Driver" finishing_order driver_colors);;
  data ← load driver_laps;
  emit (Swarmplot data "Driver" "LapTime (s)" finishing_order "Compound"
          compound_colors ["SOFT"; "MEDIUM"; "HARD"] marker_size);;
  emit (SetXLabel "Driver");;
  emit (SetYLabel "Lap Time (s)");;
  match title with
  | Some t => if truthy t then emit (Suptitle t) else mret ()
  | None => mret ()
  end;;
  emit Despine;;
  emit TightLayout;;
  emit ShowFigure.

End Plotting.

(** ** Vocabulary of the statements *)

(** The sum of a driver's stint lengths. *)
Definition total (stint_lengths : list Z) : Z := foldr Z.add 0 stint_lengths.

(** The [(start_lap, end_lap)] pairs of the stint loop, entered at
    [start_lap], for integer stint lengths. *)
Fixpoint stint_ranges (start_lap : Z) (stint_lengths : list Z) : list (Z * Z) :=
  match stint_lengths with
  | [] => []
  | stint_length :: rest =>
      let end_lap := start_lap + stint_length - 1 in
      (start_lap, end_lap) :: stint_ranges (end_lap + 1) rest
  end.

(** The body of the stint loop for one stint, given its range. *)
Definition stint_pass (driver_laps : loc) (stint_number : Z) (range : Z * Z)
  : py unit :=
  lap ← getitem driver_laps "LapNumber";
  ge ← lift (series_ge lap (Some range.1));
  lap' ← getitem driver_laps "LapNumber";
  le ← lift (series_le lap' (Some range.2));
  loc_setitem driver_laps (mask_and ge le) "Stint" (Int stint_number).

Fixpoint stint_passes (driver_laps : loc) (stint_number : Z)
    (ranges : list (Z * Z)) : py unit :=
  match ranges with
  | [] => mret ()
  | range :: rest =>
      stint_pass driver_laps stint_number range;;
      stint_passes driver_laps (stint_number + 1) rest
  end.

(** A Series of integers. *)
Definition int_series (zs : list Z) : series := (λ z, Some (Int z)) <$> zs.

Definition int_cells (s : series) : option (list Z) :=
  mapM (λ c : option cell, match c with Some (Int z) => Some z | _ => None end) s.

(** The stint lengths of a driver when all of them are integers. *)
Definition stint_lengths_of (stints : DataFrame) (driver : string)
  : option (list Z) :=
  match driver_stint_lengths stints driver with
  | Ok s => int_cells s
  | Raise _ => None
  end.

Definition is_number (c : option cell) : bool :=
  match c with
  | None | Some (Int _) => true
  | Some _ => false
  end.

(** A laps frame the stint loop runs on without an exception: a column of
    lap numbers, and a stint column, or else at least one row and no stray
    stint cell. *)
Definition laps_ok (df : DataFrame) : bool :=
  has_column df "LapNumber"
  && forallb (λ r : row, is_number (r !! "LapNumber")) (rows df)
  && (has_column df "Stint"
      || (negb (bool_decide (rows df = []))
          && forallb (λ r : row, bool_decide (r !! "Stint" = None)) (rows df))).

(** Well-formed input for one driver: integer stint lengths, and laps the
    loop can run on as soon as there is a stint. *)
Definition driver_ok (session : Session) (stints : DataFrame) (driver : string)
  : bool :=
  match stint_lengths_of stints driver with
  | Some [] => true
  | Some (_ :: _) => laps_ok (pick_quicklaps session driver)
  | None => false
  end.

Definition input_ok (session : Session) (drivers : list string)
    (stints : DataFrame) : bool :=
  forallb (driver_ok session stints) drivers.

(** The laps the lap source yields, driver after driver in the order of
    [drivers], each with the driver it was asked for. *)
Definition source_laps (session : Session) (drivers : list string)
  : list (string * row) :=
  drivers ≫= λ driver, (λ r : row, (driver, r)) <$> rows (pick_quicklaps session driver).

(** [r'] is the lap [r] of [driver] in the output: tagged with the driver and
    equal to [r] in every column but the driver and the stint. *)
Definition same_lap (driver : string) (r r' : row) : Prop :=
  r' !! "Driver" = Some (Str driver)
  ∧ ∀ c : string, c ≠ "Driver" → c ≠ "Stint" → r' !! c = r !! c.

(** The first [n] frames of the heap are what they were, and still there. *)
Definition kept (n : nat) (w w' : world) : Prop :=
  (n ≤ length (heap w'))%nat ∧ take n (heap w') = take n (heap w).

(** A computation that leaves the frames allocated before reference [n]
    alone, whatever its outcome, and whose value satisfies [Q]. *)
Definition keeps {A : Type} (n : nat) (m : py A) (Q : A → Prop) : Prop :=
  ∀ w, (n ≤ length (heap w))%nat →
    kept n w (m w).2 ∧ ∀ a, (m w).1 = Ok a → Q a.

(** ** The frames a run computes *)

(** The stint loop as a function of the frame behind [driver_laps]: the frame
    after the loop, or the exception that ends it. *)
Fixpoint assign_frame (stint_number : Z) (start_lap : num) (stint_lengths : series)
    (df : DataFrame) : result DataFrame :=
  match stint_lengths with
  | [] => Ok df
  | stint_length :: rest =>
      L ← number stint_length;
      let end_lap := num_sub (num_add start_lap L) (Some 1) in
      lap ← column df "LapNumber";
      ge ← series_ge lap start_lap;
      lap' ← column df "LapNumber";
      le ← series_le lap' end_lap;
      df' ← set_where df (mask_and ge le) "Stint" (Int stint_number);
      assign_frame (stint_number + 1) (num_add end_lap (Some 1)) rest df'
  end.

(** The frame one driver contributes. *)
Definition block_frame (session : Session) (stints : DataFrame) (driver : string)
  : result DataFrame :=
  stint_lengths ← driver_stint_lengths stints driver;
  assign_frame 1 (Some 1) stint_lengths
    (set_column (pick_quicklaps session driver) "Driver" (Str driver)).

(** The frame a call returns. *)
Definition combined_frame (session : Session) (drivers : list string)
    (stints : DataFrame) : result DataFrame :=
  blocks ← mapM (block_frame session stints) drivers;
  concat blocks.

(** What the stint loop does to one row, for integer stint lengths. *)
Definition lap_number (r : row) : num :=
  match r !! "LapNumber" with
  | Some (Int n) => Some n
  | _ => None
  end.

Definition in_stint (start_lap end_lap : Z) (r : row) : bool :=
  num_le (Some start_lap) (lap_number r) && num_le (lap_number r) (Some end_lap).

Fixpoint assign_row (stint_number start_lap : Z) (stint_lengths : list Z) (r : row)
  : row :=
  match stint_lengths with
  | [] => r
  | stint_length :: rest =>
      let end_lap := start_lap + stint_length - 1 in
      assign_row (stint_number + 1) (end_lap + 1) rest
        (if in_stint start_lap end_lap r then <["Stint":=Int stint_number]> r else r)
  end.

(** The stint written last to a lap of a given number, if any. *)
Fixpoint stint_at (stint_number start_lap : Z) (stint_lengths : list Z) (lap : Z)
  : option Z :=
  match stint_lengths with
  | [] => None
  | stint_length :: rest =>
      let end_lap := start_lap + stint_length - 1 in
      match stint_at (stint_number + 1) (end_lap + 1) rest lap with
      | Some k => Some k
      | None => if (start_lap <=? lap) && (lap <=? end_lap) then Some stint_number else None
      end
  end.

(** Two rows that agree in every column but [c]. *)
Definition agree_off (c : string) (r r' : row) : Prop :=
  ∀ c' : string, c' ≠ c → r' !! c' = r !! c'.

(** The output row of a source lap on well-formed input. *)
Definition annotated (stints : DataFrame) (driver : string) (r : row) : row :=
  assign_row 1 1 (default [] (stint_lengths_of stints driver))
    (<["Driver":=Str driver]> r).

(** ** A small race, for the concrete scenario *)

(** A lap with its number and a duration. *)
Definition lap (duration : Z → Z) (n : Z) : row :=
  {[ "LapNumber" := Int n; "LapTime" := Timedelta (duration n) ]}.

Definition laps (duration : Z → Z) (numbers : list Z) : DataFrame :=
  {| columns := ["LapNumber"; "LapTime"]; rows := lap duration <$> numbers |}.

(** Driver A drove laps 1 to 5, driver B laps 1 to 3. *)
Definition scenario_session (duration : Z → Z) : Session :=
  {| pick_quicklaps := λ driver,
       if bool_decide (driver = "A") then laps duration [1; 2; 3; 4; 5]
       else if bool_decide (driver = "B") then laps duration [1; 2; 3]
       else laps duration [] |}.

Definition stint (driver : string) (stint_length : Z) : row :=
  {[ "Driver" := Str driver; "StintLength" := Int stint_length ]}.

(** A has stints of 3 and 2 laps, B one stint of 3 laps. *)
Definition scenario_stints : DataFrame :=
  {| columns := ["Driver"; "StintLength"];
     rows := [stint "A" 3; stint "A" 2; stint "B" 3] |}.

(** Stint data that stops short: one stint of 3 laps for A, none for B. *)
Definition short_stints : DataFrame :=
  {| columns := ["Driver"; "StintLength"]; rows := [stint "A" 3] |}.

(** The driver, lap number and stint of the rows of a frame. *)
Definition summary (df : DataFrame) : list (option cell * option cell * option cell) :=
  (λ r : row, (r !! "Driver", r !! "LapNumber", r !! "Stint")) <$> rows df.

(** Lap durations of the small race, in nanoseconds. *)
Definition durations (n : Z) : Z := 90000000000 + 1000000 * n.

Definition scenario_world : world := {| heap := [scenario_stints]; canvas := [] |}.

Definition short_world : world := {| heap := [short_stints]; canvas := [] |}.

(** A charting backend that accepts every call. *)
Definition accepting : draw → option exn := λ _, None.

(** The small race from a lap source whose laps come with a stint column of
    their own, as the laps of fastf1 do: here every lap carries stint 7. *)
Definition stinted_lap (n : Z) : row := <["Stint" := Int 7]> (lap durations n).

Definition stinted_laps (numbers : list Z) : DataFrame :=
  {| columns := ["LapNumber"; "LapTime"; "Stint"]; rows := stinted_lap <$> numbers |}.

Definition stinted_session : Session :=
  {| pick_quicklaps := λ driver,
       if bool_decide (driver = "A") then stinted_laps [1; 2; 3; 4; 5]
       else if bool_decide (driver = "B") then stinted_laps [1; 2; 3]
       else stinted_laps [] |}.

(** ** The other charts: what is drawn, and where *)

(** A decimal literal of the source: [mantissa / 10 ^ places]. *)
Record decimal : Type := Decimal { mantissa : Z; places : nat }.

(** A call into the charting libraries made by the functions below.  An axes
    object is named by its position in the figure; constant styling keywords
    of the source (box, whisker and edge colours, [fill=True]) are not
    repeated. *)
Inductive chart : Type :=
| NewFigure (nrows ncols : nat) (figsize : decimal * decimal) (sharex : bool)
| BoxPlot (data : DataFrame) (x y hue : string) (order : list string)
    (palette : gmap string string)
| PlotLine (axis : nat) (xs ys : series) (label : option cell) (color : string)
| BarH (y : string) (width : option cell) (left : num) (color : string)
| LinePlot (data : DataFrame) (x y hue style palette : string) (linewidth : Z)
| AddLegend (axis : nat) (labels : option (list string)) (title loc : option string)
    (anchor : option (decimal * decimal))
| SetLabel (axis : nat) (what : string) (text : option string)
| SetYLim (bottom top : decimal)
| SetYTicks (ticks : list Z)
| SetGrid (axis : nat) (which : string) (visible : option bool)
| InvertY
| HideSpine (side : string)
| Tighten
| Display.

(** The frames, and the calls made so far. *)
Record studio : Type := Studio {
  stage : world;
  charts : list chart
}.

Definition plt (A : Type) : Type := studio → result A * studio.

#[global] Instance plt_ret : MRet plt := λ A a s, (Ok a, s).
#[global] Instance plt_bind : MBind plt := λ A B k m s,
  match m s with
  | (Ok a, s') => k a s'
  | (Raise e, s') => (Raise e, s')
  end.

(** A computation on the frames alone. *)
Definition on_stage {A : Type} (m : py A) : plt A := λ s,
  let (r, w) := m (stage s) in (r, {| stage := w; charts := charts s |}).

Definition value {A : Type} (r : result A) : plt A := λ s, (r, s).

(** [d.get(key, default)] and [d[key]] for a dict with string keys: a key that
    is no string is not in it. *)
Definition dict_get (d : gmap string string) (key : option cell) (default : string)
  : string :=
  match key with
  | Some (Str k) => match d !! k with Some v => v | None => default end
  | _ => default
  end.

Definition dict_item (d : gmap string string) (key : string) : result string :=
  match d !! key with
  | Some v => Ok v
  | None => Raise (KeyError key)
  end.

(** [row[c]] for a row of [df.iterrows()]. *)
Definition item (df : DataFrame) (r : row) (c : string) : result (option cell) :=
  if has_column df c then Ok (r !! c) else Raise (KeyError c).

(** [s.unique()]: the values in order of first appearance, a null once. *)
Fixpoint unique_from (seen : list (option cell)) (s : series) : series :=
  match s with
  | [] => []
  | v :: rest =>
      if bool_decide (v ∈ seen) then unique_from seen rest
      else v :: unique_from (v :: seen) rest
  end.

Definition unique (s : series) : series := unique_from [] s.

(** [s == v] for a value taken from the frame: nothing equals a null. *)
Definition series_is (s : series) (v : option cell) : list bool :=
  match v with
  | Some c => series_eq s c
  | None => (λ _, false) <$> s
  end.

(** [df.empty] *)
Definition empty (df : DataFrame) : bool :=
  bool_decide (rows df = []) || bool_decide (columns df = []).

Section Charts.

(** The charting libraries: a call either is accepted or raises, and
    [legend_entries] is what [ax.get_legend_handles_labels()] reports for the
    calls made so far. *)
Variable renderer : chart → option exn.
Variable legend_entries : list chart → list string.

Definition call (c : chart) : plt unit := λ s,
  match renderer c with
  | Some e => (Raise e, s)
  | None => (Ok (), {| stage := stage s; charts := charts s ++ [c] |})
  end.

Definition get_legend_labels : plt (list string) := λ s,
  (Ok (legend_entries (charts s)), s).

(** *** plot_laptimes_boxplot *)

Definition plot_laptimes_boxplot (data : loc) (x y hue : string) (order : list string)
    (palette : gmap string string) (figsize : decimal * decimal)
    (xlabel title : option string) : plt unit :=
  call (NewFigure 1 1 figsize false);;
  df ← on_stage (load data);
  call (BoxPlot df x y hue order palette);;
  call (SetGrid 0 "both" (Some false));;
  match xlabel with
  | Some l => if truthy l then call (SetLabel 0 "xlabel" (Some l))
              else call (SetLabel 0 "xlabel" None)
  | None => call (SetLabel 0 "xlabel" None)
  end;;
  match title with
  | Some t => if truthy t then call (SetLabel 0 "title" (Some t)) else mret ()
  | None => mret ()
  end;;
  call Tighten;;
  call Display.

(** *** plot_driver_positions *)

(** The loop [for driver in drivers]. *)
Fixpoint position_lines (lap_data : loc) (driver_colors : gmap string string)
    (drivers : series) : plt unit :=
  match drivers with
  | [] => mret ()
  | driver :: rest =>
      by_driver ← on_stage (getitem lap_data "Driver");
      df ← on_stage (load lap_data);
      let drv_laps := select_rows df (series_is by_driver driver) in
      (if empty drv_laps then mret ()
       else
         let color := dict_get driver_colors driver "black" in
         xs ← value (column drv_laps "LapNumber");
         ys ← value (column drv_laps "Position");
         call (PlotLine 0 xs ys driver color));;
      position_lines lap_data driver_colors rest
  end.

Definition plot_driver_positions (lap_data : loc) (driver_colors : gmap string string)
    (title : string) (figsize : decimal * decimal) : plt unit :=
  call (NewFigure 1 1 figsize false);;
  by_driver ← on_stage (getitem lap_data "Driver");
  let drivers := unique by_driver in
  position_lines lap_data driver_colors drivers;;
  call (SetYLim (Decimal 205 1) (Decimal 5 1));;
  call (SetYTicks [1; 5; 10; 15; 20]);;
  call (SetLabel 0 "xlabel" (Some "Lap"));;
  call (SetLabel 0 "ylabel" (Some "Position"));;
  labels ← get_legend_labels;
  (if bool_decide (labels = []) then mret ()
   else call (AddLegend 0 (Some labels) None (Some "upper left")
                (Some (Decimal 105 2, Decimal 1 0))));;
  call (SetLabel 0 "title" (Some title));;
  call Tighten;;
  call Display.

(** *** plot_tyre_strategy *)

(** The loop [for idx, row in driver_stints.iterrows()], entered with the
    current [previous_stint_end]. *)
Fixpoint stint_bars (driver : string) (compound_colors : gmap string string)
    (driver_stints : DataFrame) (previous_stint_end : num) (todo : list row)
  : plt unit :=
  match todo with
  | [] => mret ()
  | r :: rest =>
      width ← value (item driver_stints r "StintLength");
      compound ← value (item driver_stints r "Compound");
      call (BarH driver width previous_stint_end
              (dict_get compound_colors compound "gray"));;
      stint_length ← value (item driver_stints r "StintLength");
      L ← value (number stint_length);
      stint_bars driver compound_colors driver_stints
        (num_add previous_stint_end L) rest
  end.

(** The loop [for driver in drivers]. *)
Fixpoint strategy_bars (stints : loc) (compound_colors : gmap string string)
    (drivers : list string) : plt unit :=
  match drivers with
  | [] => mret ()
  | driver :: rest =>
      by_driver ← on_stage (getitem stints "Driver");
      df ← on_stage (load stints);
      let driver_stints := select_rows df (series_eq by_driver (Str driver)) in
      let previous_stint_end := Some 0 in
      stint_bars driver compound_colors driver_stints previous_stint_end
        (rows driver_stints);;
      strategy_bars stints compound_colors rest
  end.

Definition plot_tyre_strategy (drivers : list string) (stints : loc)
    (driver_colors compound_colors : gmap string string) (title : string)
    (figsize : decimal * decimal) : plt unit :=
  call (NewFigure 1 1 figsize false);;
  strategy_bars stints compound_colors drivers;;
  call (SetLabel 0 "title" (Some title));;
  call (SetLabel 0 "xlabel" (Some "Lap Number"));;
  call (SetGrid 0 "x" (Some true));;
  call (SetGrid 0 "y" (Some false));;
  call InvertY;;
  call (HideSpine "top");;
  call (HideSpine "right");;
  call (HideSpine "left");;
  call Tighten;;
  call Display.

(** *** plot_driver_laps *)

Definition plot_driver_laps (session : Session) (drivers : list string) (stints : loc)
    (title : string) : plt unit :=
  all_driver_laps ← on_stage (prepare_driver_laps session drivers stints);
  call (NewFigure 1 1 (Decimal 14 0, Decimal 10 0) false);;
  data ← on_stage (load all_driver_laps);
  call (LinePlot data "LapNumber" "LapTime" "Driver" "Stint" "tab10" 2);;
  call (SetLabel 0 "title" (Some title));;
  call (SetLabel 0 "ylabel" (Some "Lap Time (s)"));;
  call InvertY;;
  labels ← get_legend_labels;
  call (AddLegend 0 (Some labels) (Some "Driver and Stint") (Some "upper right") None);;
  call Display.

End Charts.

(** ** plot_telemetry *)

(** A loaded qualifying session: [fastest_lap_telemetry session driver] is
    what [session.laps.pick_drivers(driver).pick_fastest().get_telemetry()]
    gives, a frame or the exception of the chain, and the event's name and
    year are those of [session.event]. *)
Record QualifyingSession : Type := {
  fastest_lap_telemetry : string → result DataFrame;
  event_name : string;
  event_year : Z
}.

Definition default_colors : list string :=
  ["orange"; "red"; "blue"; "green"; "purple"; "brown"].

(** [{d: default_colors[i % len(default_colors)] for i, d in enumerate(driver_abbrs)}],
    entered at index [i]: a later entry for the same driver replaces an
    earlier one.  The index into [default_colors] is always in range. *)
Fixpoint color_dict (i : nat) (driver_abbrs : list string)
    (driver_colors : gmap string string) : gmap string string :=
  match driver_abbrs with
  | [] => driver_colors
  | d :: rest =>
      color_dict (S i) rest
        (<[d := default_colors !!! (i `mod` length default_colors)%nat]> driver_colors)
  end.

(** The six channels of a telemetry frame, with the axes they go to and the
    text of their labels. *)
Definition channels : list (nat * string * string * string) :=
  [ (0%nat, "Speed", " Speed (km/h)", "Speed (km/h)");
    (1%nat, "Throttle", " Throttle (%)", "Throttle (%)");
    (2%nat, "Brake", " Brake", "Brake");
    (3%nat, "nGear", " Gear", "Gear");
    (4%nat, "RPM", " RPM", "RPM");
    (5%nat, "DRS", " DRS (1=Active, 0=Off)", "DRS") ].

Section Telemetry.

Variable renderer : chart → option exn.

(** The first loop: the telemetry of every driver is fetched, in order. *)
Fixpoint fetch_telemetry (session : QualifyingSession) (driver_abbrs : list string)
    (telemetry : list DataFrame) : result (list DataFrame) :=
  match driver_abbrs with
  | [] => Ok telemetry
  | driver :: rest =>
      lap_telemetry ← fastest_lap_telemetry session driver;
      fetch_telemetry session rest (telemetry ++ [lap_telemetry])
  end.

(** One [axes[k].plot(...)] line of the second loop. *)
Definition trace (driver_data : DataFrame) (driver_name : string)
    (driver_colors : gmap string string) (channel : nat * string * string * string)
  : plt unit :=
  let '(axis, column_name, suffix, _) := channel in
  xs ← value (column driver_data "Distance");
  ys ← value (column driver_data column_name);
  color ← value (dict_item driver_colors driver_name);
  call renderer (PlotLine axis xs ys (Some (Str (driver_name +:+ suffix))) color).

(** The second loop, over [zip(telemetry, driver_abbrs)]. *)
Fixpoint traces (driver_colors : gmap string string)
    (pairs : list (DataFrame * string)) : plt unit :=
  match pairs with
  | [] => mret ()
  | (driver_data, driver_name) :: rest =>
      mapM (trace driver_data driver_name driver_colors) channels;;
      traces driver_colors rest
  end.

Definition plot_telemetry (session : QualifyingSession) (driver_abbrs : list string)
  : plt unit :=
  telemetry ← value (fetch_telemetry session driver_abbrs []);
  call renderer (NewFigure 6 1 (Decimal 12 0, Decimal 12 0) true);;
  let driver_colors := color_dict 0 driver_abbrs ∅ in
  traces driver_colors (zip telemetry driver_abbrs);;
  mapM (λ channel : nat * string * string * string,
          call renderer (AddLegend channel.1.1.1 None None None None);;
          call renderer (SetGrid channel.1.1.1 "both" None)) channels;;
  mapM (λ channel : nat * string * string * string,
          call renderer (SetLabel channel.1.1.1 "ylabel" (Some channel.2))) channels;;
  call renderer (SetLabel 5 "xlabel" (Some "Distance (m)"));;
  call renderer
    (SetLabel 0 "suptitle"
       (Some ("Q3 Top Drivers Fastest Lap Telemetry Data (" +:+ event_name session
              +:+ " " +:+ pretty (event_year session) +:+ ")")));;
  call renderer Display.

End Telemetry.

(** ** Vocabulary of the further statements *)

(** A computation on the charts that leaves the frames alone, whatever its
    outcome. *)
Definition quiet {A : Type} (m : plt A) : Prop := ∀ s, stage (m s).2 = stage s.

(** The rows of a frame that belong to one driver. *)
Definition driver_rows (df : DataFrame) (driver : cell) : list row :=
  filter (λ r : row, r !! "Driver" = Some driver) (rows df).

(** The frame behind the argument of plot_lap_time_distributions once the
    call is over: with the seconds column, when it was missing and could be
    computed. *)
Definition with_seconds (df : DataFrame) : DataFrame :=
  if has_column df "LapTime (s)" then df
  else
    match column df "LapTime" ≫= total_seconds with
    | Ok secs =>
        {| columns := columns df ++ ["LapTime (s)"];
           rows := zip_with (set_cell "LapTime (s)") secs (rows df) |}
    | Raise _ => df
    end.

(** The call that sets the title of plot_lap_time_distributions, if any. *)
Definition title_calls (title : option string) : list draw :=
  match title with
  | Some t => if truthy t then [Suptitle t] else []
  | None => []
  end.

(** The bars plot_tyre_strategy draws for one driver, read off the stint
    ranges of the stint loop: the bar of the range of laps [a..b] starts at
    [a - 1] and is [b - a + 1] wide. *)
Definition tyre_bars (stints : DataFrame) (compound_colors : gmap string string)
    (driver : string) : list chart :=
  zip_with
    (λ (range : Z * Z) (r : row),
       BarH driver (Some (Int (range.2 - range.1 + 1))) (Some (range.1 - 1))
         (dict_get compound_colors (r !! "Compound") "gray"))
    (stint_ranges 1 (default [] (stint_lengths_of stints driver)))
    (driver_rows stints (Str driver)).

(** The calls that finish the tyre strategy chart. *)
Definition tyre_finish (title : string) : list chart :=
  [SetLabel 0 "title" (Some title); SetLabel 0 "xlabel" (Some "Lap Number");
   SetGrid 0 "x" (Some true); SetGrid 0 "y" (Some false); InvertY;
   HideSpine "top"; HideSpine "right"; HideSpine "left"; Tighten; Display].

(** The drivers named in a frame, each once, in order of first appearance. *)
Definition named_drivers (df : DataFrame) : list cell :=
  omap id (unique ((λ r : row, r !! "Driver") <$> rows df)).

(** The line plot_driver_positions draws for one driver. *)
Definition position_line (df : DataFrame) (driver_colors : gmap string string)
    (driver : cell) : chart :=
  PlotLine 0 ((λ r : row, r !! "LapNumber") <$> driver_rows df driver)
    ((λ r : row, r !! "Position") <$> driver_rows df driver)
    (Some driver) (dict_get driver_colors (Some driver) "black").

(** The calls that finish the position chart, after the calls [drawn]: the
    legend is added when the axes report a label. *)
Definition positions_finish (legend_entries : list chart → list string)
    (title : string) (drawn : list chart) : list chart :=
  let decorated :=
    drawn ++ [SetYLim (Decimal 205 1) (Decimal 5 1); SetYTicks [1; 5; 10; 15; 20];
              SetLabel 0 "xlabel" (Some "Lap"); SetLabel 0 "ylabel" (Some "Position")] in
  decorated
  ++ (if bool_decide (legend_entries decorated = []) then []
      else [AddLegend 0 (Some (legend_entries decorated)) None (Some "upper left")
              (Some (Decimal 105 2, Decimal 1 0))])
  ++ [SetLabel 0 "title" (Some title); Tighten; Display].

(** The number of points of a line. *)
Definition points (c : chart) : nat :=
  match c with
  | PlotLine _ xs _ _ _ => length xs
  | _ => 0%nat
  end.

(** The columns plot_telemetry reads from a telemetry frame. *)
Definition telemetry_columns : list string :=
  ["Distance"; "Speed"; "Throttle"; "Brake"; "nGear"; "RPM"; "DRS"].

(** The colour plot_telemetry has for a driver of its list. *)
Definition telemetry_color (driver_abbrs : list string) (driver : string) : string :=
  default "" (color_dict 0 driver_abbrs ∅ !! driver).

(** The six lines plot_telemetry draws for one driver, one per channel,
    against the distance. *)
Definition telemetry_lines (driver_data : DataFrame) (driver_name color : string)
  : list chart :=
  (λ channel : nat * string * string * string,
     PlotLine channel.1.1.1 ((λ r : row, r !! "Distance") <$> rows driver_data)
       ((λ r : row, r !! channel.1.1.2) <$> rows driver_data)
       (Some (Str (driver_name +:+ channel.1.2))) color) <$> channels.

(** The calls that finish the telemetry chart. *)
Definition telemetry_finish (session : QualifyingSession) : list chart :=
  (channels ≫= λ channel : nat * string * string * string,
     [AddLegend channel.1.1.1 None None None None; SetGrid channel.1.1.1 "both" None])
  ++ ((λ channel : nat * string * string * string,
         SetLabel channel.1.1.1 "ylabel" (Some channel.2)) <$> channels)
  ++ [SetLabel 5 "xlabel" (Some "Distance (m)");
      SetLabel 0 "suptitle"
        (Some ("Q3 Top Drivers Fastest Lap Telemetry Data (" +:+ event_name session
               +:+ " " +:+ pretty (event_year session) +:+ ")"));
      Display].

(** ** Data of the further runs *)

(** Charting libraries that accept every call; the axes report the labels of
    the lines drawn so far. *)
Definition approving : chart → option exn := λ _, None.

Definition line_labels (cs : list chart) : list string :=
  omap (λ c, match c with
             | PlotLine _ _ _ (Some (Str l)) _ => Some l
             | _ => None
             end) cs.

(** The stints of the small race with their compounds. *)
Definition compound_stint (driver : string) (stint_length : Z) (compound : string)
  : row :=
  <["Compound" := Str compound]> (stint driver stint_length).

Definition compound_stints : DataFrame :=
  {| columns := ["Driver"; "StintLength"; "Compound"];
     rows := [compound_stint "A" 3 "SOFT"; compound_stint "A" 2 "HARD";
              compound_stint "B" 3 "MEDIUM"] |}.

(** Stint data whose second length is text. *)
Definition text_stints : DataFrame :=
  {| columns := ["Driver"; "StintLength"];
     rows := [stint "A" 3; {[ "Driver" := Str "A"; "StintLength" := Str "2" ]}] |}.

(** Laps of A of which the second has lost its lap number. *)
Definition patchy_session : Session :=
  {| pick_quicklaps := λ driver,
       if bool_decide (driver = "A")
       then {| columns := ["LapNumber"; "LapTime"; "Stint"];
               rows := [stinted_lap 1; delete "LapNumber" (stinted_lap 2);
                        stinted_lap 3] |}
       else stinted_laps [] |}.

(** Two laps of two drivers who swap places, and a row without a driver. *)
Definition position (driver : string) (n p : Z) : row :=
  {[ "Driver" := Str driver; "LapNumber" := Int n; "Position" := Int p ]}.

Definition race_positions : DataFrame :=
  {| columns := ["Driver"; "LapNumber"; "Position"];
     rows := [position "A" 1 1; position "B" 1 2; position "A" 2 2; position "B" 2 1;
              {[ "LapNumber" := Int 3; "Position" := Int 3 ]}] |}.

(** A qualifying session with telemetry for NOR and PIA only. *)
Definition sample (distance speed : Z) : row :=
  {[ "Distance" := Int distance; "Speed" := Int speed; "Throttle" := Int 100;
     "Brake" := Int 0; "nGear" := Int 7; "RPM" := Int 11000; "DRS" := Int 0 ]}.

Definition telemetry_of (speed : Z) : DataFrame :=
  {| columns := telemetry_columns; rows := [sample 0 speed; sample 10 (speed + 1)] |}.

Definition qualifying : QualifyingSession :=
  {| fastest_lap_telemetry := λ driver,
       if bool_decide (driver = "NOR") then Ok (telemetry_of 300)
       else if bool_decide (driver = "PIA") then Ok (telemetry_of 299)
       else Raise AttributeError;
     event_name := "Sample Grand Prix";
     event_year := 2025 |}.

(** * Proofs *)

(** ** The frame rule: which references a computation writes to *)

Section Frame.

Context {A B : Type}.
Implicit Types (n : nat) (w : world).

Lemma kept_refl n w : (n ≤ length (heap w))%nat → kept n w w.
Proof. by split. Qed.

Lemma kept_trans n w1 w2 w3 : kept n w1 w2 → kept n w2 w3 → kept n w1 w3.
Proof. intros [? E1] [? E2]. split; [done | by rewrite E2]. Qed.

Lemma keeps_ret n (a : A) (Q : A → Prop) : Q a → keeps n (mret a) Q.
Proof. intros HQ w Hn. split; [by apply kept_refl | by intros ? [= <-]]. Qed.

Lemma keeps_lift n (r : result A) : keeps n (lift r) (λ _, True).
Proof. intros w Hn. split; [by apply kept_refl | done]. Qed.

Lemma keeps_bind n (m : py A) (k : A → py B) (Q : A → Prop) (R : B → Prop) :
  keeps n m Q → (∀ a, Q a → keeps n (k a) R) → keeps n (m ≫= k) R.
Proof.
  intros Hm Hk w Hn. destruct (Hm w Hn) as [Hkept HQ].
  unfold mbind, py_bind. destruct (m w) as [[a | e] w1]; simpl in *.
  - destruct (Hk a (HQ a eq_refl) w1 (proj1 Hkept)) as [Hkept' HR].
    split; [by eapply kept_trans | done].
  - split; [done | by intros ? [=]].
Qed.

End Frame.

Lemma keeps_load n l : keeps n (load l) (λ _, True).
Proof.
  intros w Hn. unfold load. destruct (heap w !! l); (split; [by apply kept_refl | done]).
Qed.

Lemma keeps_alloc n df : keeps n (alloc df) (λ l, (n ≤ l)%nat).
Proof.
  intros w Hn. unfold alloc, kept; simpl. split; [split |].
  - rewrite length_app. lia.
  - by rewrite take_app_le.
  - by intros ? [= <-].
Qed.

Lemma keeps_store n l df : (n ≤ l)%nat → keeps n (store l df) (λ _, True).
Proof.
  intros Hl w Hn. unfold store, kept; simpl. split; [split |]; [| | done].
  - by rewrite length_insert.
  - by rewrite take_insert_ge.
Qed.

Lemma keeps_emit backend n d : keeps n (emit backend d) (λ _, True).
Proof.
  intros w Hn. unfold emit. destruct (backend d); simpl.
  - split; [by apply kept_refl | done].
  - split; [by split | done].
Qed.

Lemma keeps_getitem n l c : keeps n (getitem l c) (λ _, True).
Proof.
  eapply keeps_bind; [apply keeps_load |]. intros; apply keeps_lift.
Qed.

Lemma keeps_setitem n l c v : (n ≤ l)%nat → keeps n (setitem l c v) (λ _, True).
Proof.
  intros Hl. eapply keeps_bind; [apply keeps_load |]. intros; by apply keeps_store.
Qed.

Lemma keeps_loc_setitem n l mask c v :
  (n ≤ l)%nat → keeps n (loc_setitem l mask c v) (λ _, True).
Proof.
  intros Hl. eapply keeps_bind; [apply keeps_load |]. intros df _.
  eapply keeps_bind; [apply keeps_lift |]. intros; by apply keeps_store.
Qed.

Lemma keeps_assign_stints n driver_laps stint_lengths :
  (n ≤ driver_laps)%nat →
  ∀ stint_number start_lap,
    keeps n (assign_stints driver_laps stint_number start_lap stint_lengths) (λ _, True).
Proof.
  intros Hl. induction stint_lengths as [| L rest IH]; intros i s; simpl.
  - by apply keeps_ret.
  - eapply keeps_bind; [apply keeps_lift |]. intros ? _.
    eapply keeps_bind; [apply keeps_getitem |]. intros ? _.
    eapply keeps_bind; [apply keeps_lift |]. intros ? _.
    eapply keeps_bind; [apply keeps_getitem |]. intros ? _.
    eapply keeps_bind; [apply keeps_lift |]. intros ? _.
    eapply keeps_bind; [by apply keeps_loc_setitem |]. intros ? _.
    apply IH.
Qed.

Lemma keeps_driver_block n session stints driver :
  keeps n (driver_block session stints driver) (λ l, (n ≤ l)%nat).
Proof.
  eapply keeps_bind; [apply keeps_alloc |]. intros l Hl.
  eapply keeps_bind; [by apply keeps_setitem |]. intros ? _.
  eapply keeps_bind; [apply keeps_load |]. intros ? _.
  eapply keeps_bind; [apply keeps_lift |]. intros ? _.
  eapply keeps_bind; [by apply keeps_assign_stints |]. intros ? _.
  by apply keeps_ret.
Qed.

Lemma keeps_for_drivers n session stints drivers :
  ∀ driver_laps_list,
    keeps n (for_drivers session stints drivers driver_laps_list) (λ _, True).
Proof.
  induction drivers as [| d rest IH]; intros acc; simpl.
  - by apply keeps_ret.
  - eapply keeps_bind; [apply keeps_driver_block |]. intros ? _. apply IH.
Qed.

Lemma keeps_mapM_load n ls : keeps n (mapM load ls) (λ _, True).
Proof.
  induction ls as [| l ls IH]; simpl.
  - by apply keeps_ret.
  - eapply keeps_bind; [apply keeps_load |]. intros ? _.
    eapply keeps_bind; [apply IH |]. intros ? _. by apply keeps_ret.
Qed.

Lemma keeps_prepare_driver_laps n session drivers stints :
  keeps n (prepare_driver_laps session drivers stints) (λ l, (n ≤ l)%nat).
Proof.
  eapply keeps_bind; [apply keeps_for_drivers |]. intros ? _.
  eapply keeps_bind; [apply keeps_mapM_load |]. intros ? _.
  eapply keeps_bind; [apply keeps_lift |]. intros ? _.
  apply keeps_alloc.
Qed.

(** ** Running the monad *)

Lemma run_bind {A B : Type} (m : py A) (k : A → py B) w :
  (m ≫= k) w = match m w with
               | (Ok a, w') => k a w'
               | (Raise e, w') => (Raise e, w')
               end.
Proof. reflexivity. Qed.

Lemma run_lift {A B : Type} (r : result A) (k : A → py B) w :
  (lift r ≫= k) w = match r with
                    | Ok a => k a w
                    | Raise e => (Raise e, w)
                    end.
Proof. rewrite run_bind. unfold lift. by destruct r. Qed.

Lemma run_load {B : Type} l (k : DataFrame → py B) w df :
  heap w !! l = Some df → (load l ≫= k) w = k df w.
Proof. intros H. rewrite run_bind. unfold load. by rewrite H. Qed.

Lemma run_getitem {B : Type} l c (k : series → py B) w df :
  heap w !! l = Some df →
  (getitem l c ≫= k) w = match column df c with
                         | Ok s => k s w
                         | Raise e => (Raise e, w)
                         end.
Proof.
  intros H. rewrite run_bind. unfold getitem. rewrite (run_load _ _ _ _ H).
  unfold lift. by destruct (column df c).
Qed.

Lemma run_loc_setitem {B : Type} l mask c v (k : unit → py B) w df :
  heap w !! l = Some df →
  (loc_setitem l mask c v ≫= k) w =
    match set_where df mask c v with
    | Ok df' => k () (store l df' w).2
    | Raise e => (Raise e, w)
    end.
Proof.
  intros H. rewrite run_bind. unfold loc_setitem. rewrite (run_load _ _ _ _ H), run_lift.
  by destruct (set_where df mask c v).
Qed.

Lemma store_lookup l df df0 w :
  heap w !! l = Some df0 → heap (store l df w).2 !! l = Some df.
Proof.
  intros H. simpl. apply list_lookup_insert_eq. by eapply lookup_lt_Some.
Qed.

Lemma store_store l df df' w : (store l df' (store l df w).2).2 = (store l df' w).2.
Proof. simpl. by rewrite list_insert_insert_eq. Qed.

(** The stint loop runs as [assign_frame] says, on the frame behind its
    reference. *)
Lemma assign_stints_run driver_laps stint_lengths :
  ∀ stint_number start_lap w df,
    heap w !! driver_laps = Some df →
    match assign_frame stint_number start_lap stint_lengths df with
    | Ok df' =>
        assign_stints driver_laps stint_number start_lap stint_lengths w
        = (Ok (), (store driver_laps df' w).2)
    | Raise e =>
        ∃ w', assign_stints driver_laps stint_number start_lap stint_lengths w
              = (Raise e, w')
    end.
Proof.
  induction stint_lengths as [| L rest IH]; intros i s w df Hdf; simpl.
  - unfold mret, py_ret. destruct w as [h cv]; simpl in *. by rewrite list_insert_id.
  - rewrite run_lift. unfold mbind at 1, result_bind at 1.
    destruct (number L) as [x | e]; [| by eexists].
    rewrite (run_getitem _ _ _ _ _ Hdf). unfold mbind at 1, result_bind at 1.
    destruct (column df "LapNumber") as [lap | e] eqn:Hlap; [| by eexists].
    rewrite run_lift. unfold mbind at 1, result_bind at 1.
    destruct (series_ge lap s) as [ge | e]; [| by eexists].
    rewrite (run_getitem _ _ _ _ _ Hdf), Hlap. unfold mbind at 1, result_bind at 1.
    rewrite run_lift. unfold mbind at 1, result_bind at 1.
    destruct (series_le lap _) as [le | e]; [| by eexists].
    rewrite (run_loc_setitem _ _ _ _ _ _ _ Hdf). unfold mbind at 1, result_bind at 1.
    destruct (set_where df _ _ _) as [df1 | e]; [| by eexists].
    specialize (IH (i + 1) (num_add (num_sub (num_add s x) (Some 1)) (Some 1))
                  _ df1 (store_lookup _ df1 _ _ Hdf)).
    destruct (assign_frame _ _ rest df1) as [df' | e].
    + by rewrite IH, store_store.
    + done.
Qed.

Lemma run_setitem {B : Type} l c v (k : unit → py B) w df :
  heap w !! l = Some df →
  (setitem l c v ≫= k) w = k () (store l (set_column df c v) w).2.
Proof. intros H. rewrite run_bind. unfold setitem. by rewrite (run_load _ _ _ _ H). Qed.

Lemma insert_snoc {A : Type} (h : list A) (x y : A) :
  <[length h:=y]> (h ++ [x]) = h ++ [y].
Proof. rewrite insert_app_r_alt by lia. by rewrite Nat.sub_diag. Qed.

Lemma mapM_result_length {A B : Type} (f : A → result B) (l : list A) (k : list B) :
  mapM f l = Ok k → length k = length l.
Proof.
  revert k. induction l as [| x l IH]; intros k; simpl.
  - by intros [= <-].
  - unfold mbind, result_bind. destruct (f x); [| done].
    destruct (mapM f l); [| done]. intros [= <-]. simpl. by rewrite (IH _ eq_refl).
Qed.

(** One turn of the driver loop allocates the driver's frame and leaves
    [block_frame] behind it. *)
Lemma driver_block_run session stints driver w sdf :
  heap w !! stints = Some sdf →
  match block_frame session sdf driver with
  | Ok df' =>
      driver_block session stints driver w
      = (Ok (length (heap w)), {| heap := heap w ++ [df']; canvas := canvas w |})
  | Raise e => ∃ w', driver_block session stints driver w = (Raise e, w')
  end.
Proof.
  intros Hs. pose proof (lookup_lt_Some _ _ _ Hs) as Hlt.
  unfold driver_block, block_frame. rewrite run_bind. unfold alloc.
  set (src := pick_quicklaps session driver).
  set (w1 := {| heap := heap w ++ [src]; canvas := canvas w |}).
  assert (H1 : heap w1 !! length (heap w) = Some src) by apply list_lookup_middle, eq_refl.
  rewrite (run_setitem _ _ _ _ _ _ H1).
  set (df1 := set_column src "Driver" (Str driver)).
  assert (H2 : heap (store (length (heap w)) df1 w1).2 !! stints = Some sdf).
  { simpl. rewrite list_lookup_insert_ne by lia. by rewrite lookup_app_l. }
  rewrite (run_load _ _ _ _ H2), run_lift. unfold mbind at 1, result_bind at 1.
  destruct (driver_stint_lengths sdf driver) as [ls | e]; [| by eexists].
  rewrite run_bind.
  pose proof (assign_stints_run (length (heap w)) ls 1 (Some 1) _ df1
                (store_lookup _ df1 _ _ H1)) as Hrun.
  destruct (assign_frame 1 (Some 1) ls df1) as [df' | e].
  - rewrite Hrun, store_store. simpl. by rewrite insert_snoc.
  - destruct Hrun as [w' ->]. by eexists.
Qed.

Lemma for_drivers_run session stints drivers :
  ∀ driver_laps_list w sdf,
    heap w !! stints = Some sdf →
    match mapM (block_frame session sdf) drivers with
    | Ok blocks =>
        for_drivers session stints drivers driver_laps_list w
        = (Ok (driver_laps_list ++ seq (length (heap w)) (length drivers)),
           {| heap := heap w ++ blocks; canvas := canvas w |})
    | Raise e =>
        ∃ w', for_drivers session stints drivers driver_laps_list w = (Raise e, w')
    end.
Proof.
  induction drivers as [| d rest IH]; intros acc w sdf Hs; simpl.
  - unfold mret, py_ret, result_ret. rewrite !app_nil_r. by destruct w.
  - rewrite run_bind. pose proof (driver_block_run session stints d w sdf Hs) as Hd.
    unfold mbind at 1, result_bind at 1.
    destruct (block_frame session sdf d) as [df' | e].
    + rewrite Hd.
      set (w1 := {| heap := heap w ++ [df']; canvas := canvas w |}).
      assert (H1 : heap w1 !! stints = Some sdf).
      { simpl. rewrite lookup_app_l; [done | by eapply lookup_lt_Some]. }
      specialize (IH (acc ++ [length (heap w)]) w1 sdf H1).
      unfold mbind at 1, result_bind at 1.
      destruct (mapM (block_frame session sdf) rest) as [blocks | e].
      * rewrite IH. simpl. rewrite length_app, Nat.add_1_r, <- !app_assoc. done.
      * done.
    + destruct Hd as [w' ->]. by eexists.
Qed.

Lemma mapM_load_run blocks :
  ∀ h cv,
    mapM load (seq (length h) (length blocks)) {| heap := h ++ blocks; canvas := cv |}
    = (Ok blocks, {| heap := h ++ blocks; canvas := cv |}).
Proof.
  induction blocks as [| b blocks IH]; intros h cv; simpl; [done |].
  rewrite run_bind. unfold load at 1. simpl.
  rewrite list_lookup_middle by done. rewrite run_bind.
  specialize (IH (h ++ [b]) cv). rewrite length_app, Nat.add_1_r, <- app_assoc in IH.
  simpl in IH. by rewrite IH.
Qed.

(** A call returns [combined_frame] behind a new reference, or raises what
    [combined_frame] raises. *)
Lemma prepare_driver_laps_run session drivers stints w sdf :
  heap w !! stints = Some sdf →
  match combined_frame session drivers sdf with
  | Ok df =>
      ∃ l w', prepare_driver_laps session drivers stints w = (Ok l, w')
              ∧ heap w' !! l = Some df
  | Raise e => ∃ w', prepare_driver_laps session drivers stints w = (Raise e, w')
  end.
Proof.
  intros Hs. unfold prepare_driver_laps, combined_frame. rewrite run_bind.
  pose proof (for_drivers_run session stints drivers [] w sdf Hs) as Hfor.
  unfold mbind at 1, result_bind at 1.
  destruct (mapM (block_frame session sdf) drivers) as [blocks | e] eqn:Hblocks.
  - rewrite Hfor. simpl. rewrite run_bind.
    rewrite <- (mapM_result_length _ _ _ Hblocks), mapM_load_run, run_lift.
    destruct (concat blocks) as [df | e]; [| by eexists].
    eexists _, _. split; [reflexivity |]. simpl. by apply list_lookup_middle.
  - destruct Hfor as [w' ->]. by eexists.
Qed.

(** A call that returns, returns [combined_frame]. *)
Lemma prepare_driver_laps_inv session drivers stints w sdf l w' :
  heap w !! stints = Some sdf →
  prepare_driver_laps session drivers stints w = (Ok l, w') →
  ∃ df, combined_frame session drivers sdf = Ok df ∧ heap w' !! l = Some df.
Proof.
  intros Hs Hrun. pose proof (prepare_driver_laps_run session drivers stints w sdf Hs) as H.
  destruct (combined_frame session drivers sdf) as [df | e].
  - destruct H as (l0 & w0 & Hrun0 & Hdf). rewrite Hrun in Hrun0.
    injection Hrun0 as -> ->. by exists df.
  - destruct H as [w0 Hrun0]. by rewrite Hrun in Hrun0.
Qed.

(** ** The shape of the result: no row is lost, moved or changed outside the
    driver and stint columns *)

Ltac result_inv H :=
  repeat match type of H with
    | context [mbind _ ?r] =>
        let E := fresh "E" in
        destruct r eqn:E; unfold mbind at 1, result_bind at 1 in H; [| discriminate H]
    end.

Lemma column_length df c s : column df c = Ok s → length s = length (rows df).
Proof.
  unfold column. destruct (has_column df c); [| done]. intros [= <-]. apply length_fmap.
Qed.

Lemma series_ge_length s x m : series_ge s x = Ok m → length m = length s.
Proof. apply mapM_result_length. Qed.

Lemma series_le_length s x m : series_le s x = Ok m → length m = length s.
Proof. apply mapM_result_length. Qed.

Lemma zip_with_Forall2 {A : Type} (P : row → row → Prop) (f : A → row → row)
    (xs : list A) (rs : list row) :
  length xs = length rs → (∀ x r, P r (f x r)) → Forall2 P rs (zip_with f xs rs).
Proof.
  intros Hlen HP. apply Forall2_same_length_lookup_2.
  - rewrite length_zip_with. lia.
  - intros i r r' Hr [x [r0 (-> & Hx & Hr0)]]%lookup_zip_with_Some.
    rewrite Hr in Hr0. injection Hr0 as <-. apply HP.
Qed.

Lemma agree_off_insert c v r : agree_off c r (<[c:=v]> r).
Proof. intros c' Hc. by rewrite lookup_insert_ne. Qed.

Lemma agree_off_delete c r : agree_off c r (delete c r).
Proof. intros c' Hc. by rewrite lookup_delete_ne. Qed.

Lemma agree_off_refl c r : agree_off c r r.
Proof. by intros c' Hc. Qed.

Lemma agree_off_trans c r1 r2 r3 :
  agree_off c r1 r2 → agree_off c r2 r3 → agree_off c r1 r3.
Proof. intros H12 H23 c' Hc. by rewrite H23, H12. Qed.

Lemma set_where_shape df mask c v df' :
  length mask = length (rows df) →
  set_where df mask c v = Ok df' →
  Forall2 (agree_off c) (rows df) (rows df').
Proof.
  intros Hlen. unfold set_where. destruct (has_column df c).
  - intros [= <-]. simpl. apply zip_with_Forall2; [done |].
    intros [] r; [apply agree_off_insert | apply agree_off_refl].
  - case_bool_decide; [done |]. intros [= <-]. simpl. apply zip_with_Forall2; [done |].
    intros [] r; [apply agree_off_insert | apply agree_off_delete].
Qed.

Lemma assign_frame_shape stint_lengths :
  ∀ stint_number start_lap df df',
    assign_frame stint_number start_lap stint_lengths df = Ok df' →
    Forall2 (agree_off "Stint") (rows df) (rows df').
Proof.
  induction stint_lengths as [| L rest IH]; intros i s df df' H; simpl in H.
  - injection H as <-. induction (rows df); constructor; [apply agree_off_refl | done].
  - result_inv H.
    eapply Forall2_trans; [apply agree_off_trans | | by eapply IH].
    eapply set_where_shape; [| done]. unfold mask_and. rewrite length_zip_with.
    simplify_eq.
    repeat match goal with
      | E : series_ge _ _ = Ok _ |- _ => apply series_ge_length in E
      | E : series_le _ _ = Ok _ |- _ => apply series_le_length in E
      | E : column _ _ = Ok _ |- _ => apply column_length in E
      end.
    lia.
Qed.

Lemma block_frame_shape session stints driver df' :
  block_frame session stints driver = Ok df' →
  Forall2 (same_lap driver) (rows (pick_quicklaps session driver)) (rows df').
Proof.
  unfold block_frame. intros H. result_inv H. apply assign_frame_shape in H.
  simpl in H. rewrite Forall2_fmap_l in H. eapply Forall2_impl; [done |].
  intros r r' Hoff. simpl in Hoff. split.
  - rewrite Hoff by done. apply lookup_insert_eq.
  - intros c Hd Hs. rewrite Hoff by done. by rewrite lookup_insert_ne.
Qed.

Lemma blocks_shape session stints drivers :
  ∀ blocks,
    mapM (block_frame session stints) drivers = Ok blocks →
    Forall2 (λ driver block,
               Forall2 (same_lap driver) (rows (pick_quicklaps session driver))
                 (rows block)) drivers blocks.
Proof.
  induction drivers as [| d rest IH]; intros blocks H; simpl in H.
  - injection H as <-. constructor.
  - result_inv H. injection H as <-.
    constructor; [by eapply block_frame_shape | by apply IH].
Qed.

Lemma concat_rows frames df : concat frames = Ok df → rows df = frames ≫= rows.
Proof. destruct frames; [done |]. by intros [= <-]. Qed.

Lemma combined_frame_shape session drivers stints df :
  combined_frame session drivers stints = Ok df →
  Forall2 (λ (lap : string * row) r', same_lap lap.1 lap.2 r')
    (source_laps session drivers) (rows df).
Proof.
  unfold combined_frame. intros H. result_inv H.
  rewrite (concat_rows _ _ H). unfold source_laps.
  apply Forall2_bind. eapply Forall2_impl; [by eapply blocks_shape |].
  intros d b Hb. by apply Forall2_fmap_l.
Qed.

(** ** The stint loop on well-formed laps, row by row *)

Lemma int_cells_Some s : ∀ zs, int_cells s = Some zs → s = int_series zs.
Proof.
  unfold int_cells, int_series. induction s as [| c s IH]; intros zs; simpl.
  - by intros [= <-].
  - destruct c as [[] |]; simpl; try done.
    destruct (mapM _ s) as [zs' |] eqn:E; simpl; [| done].
    intros [= <-]. simpl. by rewrite (IH zs').
Qed.

Lemma number_lap (r : row) :
  is_number (r !! "LapNumber") = true → number (r !! "LapNumber") = Ok (lap_number r).
Proof. unfold lap_number. by destruct (r !! "LapNumber") as [[] |]. Qed.

Lemma series_ge_laps (rs : list row) x :
  Forall (λ r : row, is_number (r !! "LapNumber") = true) rs →
  series_ge ((λ r : row, r !! "LapNumber") <$> rs) x
  = Ok ((λ r, num_le x (lap_number r)) <$> rs).
Proof.
  unfold series_ge. induction 1 as [| r rs Hr _ IH]; [done |].
  rewrite fmap_cons.
  change (mapM ?f (?a :: ?l)) with (y ← f a; k ← mapM f l; mret (y :: k)).
  cbv beta. by rewrite (number_lap _ Hr), IH.
Qed.

Lemma series_le_laps (rs : list row) x :
  Forall (λ r : row, is_number (r !! "LapNumber") = true) rs →
  series_le ((λ r : row, r !! "LapNumber") <$> rs) x
  = Ok ((λ r, num_le (lap_number r) x) <$> rs).
Proof.
  unfold series_le. induction 1 as [| r rs Hr _ IH]; [done |].
  rewrite fmap_cons.
  change (mapM ?f (?a :: ?l)) with (y ← f a; k ← mapM f l; mret (y :: k)).
  cbv beta. by rewrite (number_lap _ Hr), IH.
Qed.

Lemma stint_mask (rs : list row) start_lap end_lap :
  mask_and ((λ r, num_le (Some start_lap) (lap_number r)) <$> rs)
           ((λ r, num_le (lap_number r) (Some end_lap)) <$> rs)
  = in_stint start_lap end_lap <$> rs.
Proof. unfold mask_and. by rewrite zip_with_fmap_l, zip_with_fmap_r, zip_with_diag. Qed.

Lemma lap_number_insert c v (r : row) :
  c ≠ "LapNumber" → lap_number (<[c:=v]> r) = lap_number r.
Proof. intros Hc. unfold lap_number. by rewrite lookup_insert_ne. Qed.

Lemma assign_frame_rows stint_lengths :
  ∀ stint_number start_lap df,
    has_column df "LapNumber" = true →
    has_column df "Stint" = true →
    Forall (λ r : row, is_number (r !! "LapNumber") = true) (rows df) →
    assign_frame stint_number (Some start_lap) (int_series stint_lengths) df
    = Ok {| columns := columns df;
            rows := assign_row stint_number start_lap stint_lengths <$> rows df |}.
Proof.
  induction stint_lengths as [| L rest IH]; intros i s df Hlap Hstint Hnum.
  - simpl. rewrite list_fmap_id. by destruct df.
  - cbn [assign_frame int_series fmap list_fmap number num_add num_sub].
    unfold column. rewrite Hlap. unfold mbind, result_bind.
    rewrite series_ge_laps, series_le_laps by done.
    cbn [num_add num_sub]. rewrite stint_mask. unfold set_where. rewrite Hstint.
    rewrite zip_with_fmap_l, zip_with_diag.
    fold (int_series rest). rewrite IH; try done.
    + simpl. by rewrite <- list_fmap_compose.
    + simpl. apply Forall_fmap. eapply Forall_impl; [done |].
      intros r Hr. simpl. destruct (in_stint _ _ r); [| done].
      by rewrite lookup_insert_ne.
Qed.

Lemma has_column_add_label df c c' v :
  c' ≠ c → has_column (set_column df c v) c' = has_column df c'.
Proof.
  intros Hc. unfold has_column, set_column, add_label. simpl.
  destruct (bool_decide (c ∈ columns df)); [done |].
  apply bool_decide_ext. rewrite elem_of_app, list_elem_of_singleton. tauto.
Qed.

(** The stint loop on laps that satisfy [laps_ok]: also when it has to create
    the stint column. *)
Lemma assign_frame_laps_ok df stint_lengths :
  has_column df "LapNumber" = true →
  Forall (λ r : row, is_number (r !! "LapNumber") = true) (rows df) →
  has_column df "Stint" = true
  ∨ (rows df ≠ [] ∧ Forall (λ r : row, r !! "Stint" = None) (rows df)) →
  ∃ cols,
    assign_frame 1 (Some 1) (int_series stint_lengths) df
    = Ok {| columns := cols; rows := assign_row 1 1 stint_lengths <$> rows df |}.
Proof.
  intros Hlap Hnum [Hstint | [Hrows Hnone]].
  - eexists. by apply assign_frame_rows.
  - destruct (has_column df "Stint") eqn:Hstint.
    { eexists. by apply assign_frame_rows. }
    destruct stint_lengths as [| L rest].
    { exists (columns df). simpl. rewrite list_fmap_id. by destruct df. }
    cbn [assign_frame int_series fmap list_fmap number num_add num_sub].
    unfold column. rewrite Hlap. unfold mbind, result_bind.
    rewrite series_ge_laps, series_le_laps by done.
    cbn [num_add num_sub]. rewrite stint_mask. unfold set_where. rewrite Hstint.
    rewrite bool_decide_eq_false_2 by done.
    rewrite zip_with_fmap_l, zip_with_diag.
    fold (int_series rest). eexists. rewrite assign_frame_rows.
    + simpl. rewrite <- list_fmap_compose. do 2 f_equal.
      apply Forall_fmap_ext. eapply Forall_impl; [exact Hnone |].
      intros r Hr. simpl. destruct (in_stint 1 (1 + L - 1) r); [done |].
      by rewrite delete_id.
    + unfold has_column in *. simpl. apply bool_decide_eq_true.
      apply bool_decide_eq_true in Hlap. apply elem_of_app. by left.
    + unfold has_column. simpl. apply bool_decide_eq_true, elem_of_app.
      right. apply list_elem_of_singleton. done.
    + simpl. apply Forall_fmap. eapply Forall_impl; [exact Hnum |].
      intros r Hr. simpl. destruct (in_stint _ _ r).
      * by rewrite lookup_insert_ne.
      * by rewrite lookup_delete_ne.
Qed.

Lemma laps_ok_inv df :
  laps_ok df = true →
  has_column df "LapNumber" = true
  ∧ Forall (λ r : row, is_number (r !! "LapNumber") = true) (rows df)
  ∧ (has_column df "Stint" = true
     ∨ (rows df ≠ [] ∧ Forall (λ r : row, r !! "Stint" = None) (rows df))).
Proof.
  unfold laps_ok. rewrite !andb_true_iff, orb_true_iff, andb_true_iff, negb_true_iff.
  intros [[Hlap Hnum] Hstint]. split; [done |]. split.
  - apply Forall_forall. intros r Hr%list_elem_of_In.
    by eapply (proj1 (forallb_forall _ _)) in Hnum.
  - destruct Hstint as [? | [Hrows Hnone]]; [by left | right]. split.
    + by apply bool_decide_eq_false in Hrows.
    + apply Forall_forall. intros r Hr%list_elem_of_In.
      eapply (proj1 (forallb_forall _ _)) in Hnone; [| done].
      by apply bool_decide_eq_true in Hnone.
Qed.

(** On well-formed input a driver's frame holds the driver's laps, each
    [annotated]. *)
Lemma block_frame_ok session stints driver :
  driver_ok session stints driver = true →
  ∃ cols,
    block_frame session stints driver
    = Ok {| columns := cols;
            rows := annotated stints driver <$> rows (pick_quicklaps session driver) |}.
Proof.
  unfold driver_ok, block_frame, annotated, stint_lengths_of.
  destruct (driver_stint_lengths stints driver) as [s | e]; [| done].
  destruct (int_cells s) as [ls |] eqn:Hls; [| done]. apply int_cells_Some in Hls as ->.
  intros Hok. unfold mbind, result_bind. simpl.
  set (src := pick_quicklaps session driver) in *.
  destruct ls as [| L rest].
  { eexists. simpl. done. }
  apply laps_ok_inv in Hok as (Hlap & Hnum & Hstint).
  destruct (assign_frame_laps_ok (set_column src "Driver" (Str driver)) (L :: rest))
    as [cols Hrun].
  - by rewrite has_column_add_label.
  - simpl. apply Forall_fmap. eapply Forall_impl; [exact Hnum |].
    intros r Hr. simpl. by rewrite lookup_insert_ne.
  - rewrite has_column_add_label by done.
    destruct Hstint as [? | [Hrows Hnone]]; [by left | right]. simpl. split.
    + by destruct (rows src).
    + apply Forall_fmap. eapply Forall_impl; [exact Hnone |].
      intros r Hr. simpl. by rewrite lookup_insert_ne.
  - exists cols. rewrite Hrun. simpl. by rewrite <- list_fmap_compose.
Qed.

Lemma blocks_ok session stints drivers :
  input_ok session drivers stints = true →
  ∃ blocks,
    mapM (block_frame session stints) drivers = Ok blocks
    ∧ length blocks = length drivers
    ∧ blocks ≫= rows
      = drivers ≫= λ d, annotated stints d <$> rows (pick_quicklaps session d).
Proof.
  unfold input_ok. induction drivers as [| d rest IH]; simpl.
  - intros _. by exists [].
  - intros [Hd Hrest]%andb_true_iff.
    destruct (block_frame_ok _ _ _ Hd) as [cols Hblock].
    destruct (IH Hrest) as (blocks & Hblocks & Hlen & Hrows).
    eexists. unfold mbind at 1, result_bind at 1. rewrite Hblock.
    unfold mbind at 1, result_bind at 1. rewrite Hblocks.
    split; [reflexivity |]. split; [by simpl; rewrite Hlen |].
    by rewrite !bind_cons, Hrows.
Qed.

(** On well-formed input for at least one driver the call has a result: the
    laps of the source in order, each [annotated]. *)
Lemma combined_frame_ok session drivers stints :
  input_ok session drivers stints = true →
  drivers ≠ [] →
  ∃ df,
    combined_frame session drivers stints = Ok df
    ∧ rows df = (λ lap : string * row, annotated stints lap.1 lap.2)
                  <$> source_laps session drivers.
Proof.
  intros Hok Hne. destruct (blocks_ok _ _ _ Hok) as (blocks & Hblocks & Hlen & Hrows).
  unfold combined_frame. rewrite Hblocks. unfold mbind, result_bind.
  destruct blocks as [| b blocks]; [by destruct drivers |].
  eexists. split; [reflexivity |]. cbn [rows concat]. rewrite Hrows.
  unfold source_laps. clear. induction drivers as [| d rest IH]; [done |].
  rewrite !bind_cons, fmap_app, IH. f_equal. by rewrite <- list_fmap_compose.
Qed.

(** ** What the stint loop writes into a row *)

Lemma in_stint_lap s e (r : row) n :
  lap_number r = Some n → in_stint s e r = (s <=? n) && (n <=? e).
Proof. unfold in_stint. by intros ->. Qed.

Lemma in_stint_no_lap s e (r : row) : lap_number r = None → in_stint s e r = false.
Proof. unfold in_stint. by intros ->. Qed.

Lemma assign_row_stint stint_lengths :
  ∀ stint_number start_lap (r : row),
    assign_row stint_number start_lap stint_lengths r !! "Stint"
    = match lap_number r ≫= stint_at stint_number start_lap stint_lengths with
      | Some k => Some (Int k)
      | None => r !! "Stint"
      end.
Proof.
  induction stint_lengths as [| L rest IH]; intros i s r; simpl.
  - by destruct (lap_number r).
  - rewrite IH. destruct (lap_number r) as [n |] eqn:Hn.
    + rewrite (in_stint_lap _ _ _ _ Hn).
      destruct ((s <=? n) && (n <=? s + L - 1)) eqn:Hin.
      * rewrite lap_number_insert, Hn by done. simpl.
        destruct (stint_at (i + 1) (s + L - 1 + 1) rest n); [done |].
        rewrite Hin. apply lookup_insert_eq.
      * rewrite Hn. simpl.
        destruct (stint_at (i + 1) (s + L - 1 + 1) rest n); [done |]. by rewrite Hin.
    + rewrite (in_stint_no_lap _ _ _ Hn), Hn. done.
Qed.

(** ** Arithmetic of the stint ranges *)

Lemma total_cons L rest : total (L :: rest) = L + total rest.
Proof. reflexivity. Qed.

Lemma total_nonneg ls : Forall (λ L, 0 ≤ L) ls → 0 ≤ total ls.
Proof. induction 1; [done |]. rewrite total_cons. lia. Qed.

(** A lap beyond the laps the stints account for is in no stint. *)
Lemma stint_at_beyond stint_lengths :
  ∀ stint_number start_lap lap,
    Forall (λ L, 0 ≤ L) stint_lengths →
    start_lap + total stint_lengths ≤ lap →
    stint_at stint_number start_lap stint_lengths lap = None.
Proof.
  induction stint_lengths as [| L rest IH]; intros i s n Hpos Hn; simpl; [done |].
  inversion Hpos as [| ? ? HL Hrest]; subst. rewrite total_cons in Hn.
  pose proof (total_nonneg _ Hrest).
  rewrite IH by (done || lia).
  destruct (Z.leb_spec s n), (Z.leb_spec n (s + L - 1)); simpl; (done || lia).
Qed.

(** A lap within the laps the stints account for is in a stint. *)
Lemma stint_at_within stint_lengths :
  ∀ stint_number start_lap lap,
    start_lap ≤ lap < start_lap + total stint_lengths →
    is_Some (stint_at stint_number start_lap stint_lengths lap).
Proof.
  induction stint_lengths as [| L rest IH]; intros i s n Hn; simpl.
  - unfold total in Hn. simpl in Hn. lia.
  - rewrite total_cons in Hn.
    destruct (stint_at (i + 1) (s + L - 1 + 1) rest n) as [k |] eqn:E; [by eexists |].
    destruct (Z.leb_spec s n), (Z.leb_spec n (s + L - 1)); simpl;
      try (by eexists); try lia.
    specialize (IH (i + 1) (s + L - 1 + 1) n). rewrite E in IH.
    destruct IH as [? ?]; [lia | done].
Qed.

(** A stint written to a lap is the number of a range that holds the lap. *)
Lemma stint_at_range stint_lengths :
  ∀ stint_number start_lap lap k,
    stint_at stint_number start_lap stint_lengths lap = Some k →
    ∃ (j : nat) a b,
      k = stint_number + Z.of_nat j
      ∧ stint_ranges start_lap stint_lengths !! j = Some (a, b)
      ∧ a ≤ lap ≤ b.
Proof.
  induction stint_lengths as [| L rest IH]; intros i s n k; simpl; [done |].
  destruct (stint_at (i + 1) (s + L - 1 + 1) rest n) as [k' |] eqn:E.
  - intros [= <-]. destruct (IH _ _ _ _ E) as (j & a & b & -> & Hj & Hab).
    exists (S j), a, b. split; [lia | done].
  - destruct (Z.leb_spec s n), (Z.leb_spec n (s + L - 1)); simpl; try done.
    intros [= <-]. exists 0%nat, s, (s + L - 1). split; [lia |]. split; [done | lia].
Qed.

Lemma stint_ranges_lower stint_lengths :
  ∀ start_lap (j : nat) a b,
    Forall (λ L, 0 < L) stint_lengths →
    stint_ranges start_lap stint_lengths !! j = Some (a, b) →
    start_lap ≤ a ≤ b.
Proof.
  induction stint_lengths as [| L rest IH]; intros s j a b Hpos; simpl; [done |].
  inversion Hpos as [| ? ? HL Hrest]; subst. destruct j as [| j]; simpl.
  - intros [= <- <-]. lia.
  - intros Hj. specialize (IH _ _ _ _ Hrest Hj). lia.
Qed.

(** Positive stint lengths give ranges that follow one another without
    overlap. *)
Lemma stint_ranges_ordered stint_lengths :
  ∀ start_lap (j1 j2 : nat) a1 b1 a2 b2,
    Forall (λ L, 0 < L) stint_lengths →
    (j1 < j2)%nat →
    stint_ranges start_lap stint_lengths !! j1 = Some (a1, b1) →
    stint_ranges start_lap stint_lengths !! j2 = Some (a2, b2) →
    a1 ≤ b1 ∧ b1 < a2 ∧ a2 ≤ b2.
Proof.
  induction stint_lengths as [| L rest IH]; intros s j1 j2 a1 b1 a2 b2 Hpos Hlt; simpl;
    [done |].
  inversion Hpos as [| ? ? HL Hrest]; subst.
  destruct j2 as [| j2]; [lia |]. destruct j1 as [| j1]; simpl.
  - intros [= <- <-] H2. pose proof (stint_ranges_lower _ _ _ _ _ Hrest H2). lia.
  - intros H1 H2. eapply (IH _ j1 j2); [done | lia | done | done].
Qed.

(** With positive stint lengths the stint of a lap is the number of the one
    range that holds the lap. *)
Lemma stint_at_unique stint_lengths stint_number start_lap lap k (j : nat) a b :
  Forall (λ L, 0 < L) stint_lengths →
  stint_at stint_number start_lap stint_lengths lap = Some k →
  stint_ranges start_lap stint_lengths !! j = Some (a, b) →
  a ≤ lap ≤ b ↔ k = stint_number + Z.of_nat j.
Proof.
  intros Hpos Hk Hj. destruct (stint_at_range _ _ _ _ _ Hk) as (j0 & a0 & b0 & -> & Hj0 & Hin).
  split.
  - intros Hab. destruct (lt_eq_lt_dec j j0) as [[Hlt | ->] | Hlt]; [| done |].
    + pose proof (stint_ranges_ordered _ _ _ _ _ _ _ _ Hpos Hlt Hj Hj0). lia.
    + pose proof (stint_ranges_ordered _ _ _ _ _ _ _ _ Hpos Hlt Hj0 Hj). lia.
  - intros Heq. assert (j = j0) as -> by lia. rewrite Hj in Hj0. by injection Hj0 as -> ->.
Qed.

(** With positive stint lengths a later lap is in no earlier stint. *)
Lemma stint_at_mono stint_lengths stint_number start_lap lap1 lap2 k1 k2 :
  Forall (λ L, 0 < L) stint_lengths →
  stint_at stint_number start_lap stint_lengths lap1 = Some k1 →
  stint_at stint_number start_lap stint_lengths lap2 = Some k2 →
  lap1 ≤ lap2 → k1 ≤ k2.
Proof.
  intros Hpos H1 H2 Hle.
  destruct (stint_at_range _ _ _ _ _ H1) as (j1 & a1 & b1 & -> & Hj1 & Hin1).
  destruct (stint_at_range _ _ _ _ _ H2) as (j2 & a2 & b2 & -> & Hj2 & Hin2).
  destruct (le_lt_dec j1 j2) as [? | Hlt]; [lia |].
  pose proof (stint_ranges_ordered _ _ _ _ _ _ _ _ Hpos Hlt Hj2 Hj1). lia.
Qed.

(** * Properties of the specification *)

Lemma kept_lookup n w w' (l : nat) :
  kept n w w' → (l < n)%nat → heap w' !! l = heap w !! l.
Proof.
  intros [_ Htake] Hl.
  by rewrite <- (lookup_take_lt (heap w') n l), <- (lookup_take_lt (heap w) n l), Htake.
Qed.

(** On well-formed input for at least one driver, a call returns a frame. *)
Lemma prepare_driver_laps_returns session drivers stints w sdf :
  heap w !! stints = Some sdf →
  input_ok session drivers sdf = true →
  drivers ≠ [] →
  ∃ l w' df,
    prepare_driver_laps session drivers stints w = (Ok l, w')
    ∧ heap w' !! l = Some df
    ∧ rows df = (λ lap : string * row, annotated sdf lap.1 lap.2)
                  <$> source_laps session drivers.
Proof.
  intros Hs Hok Hne. destruct (combined_frame_ok _ _ _ Hok Hne) as (df & Hdf & Hrows).
  pose proof (prepare_driver_laps_run session drivers stints w sdf Hs) as Hrun.
  rewrite Hdf in Hrun. destruct Hrun as (l & w' & Hrun & Hl). by exists l, w', df.
Qed.

Lemma source_laps_elem session drivers (i : nat) d r :
  source_laps session drivers !! i = Some (d, r) →
  d ∈ drivers ∧ r ∈ rows (pick_quicklaps session d).
Proof.
  intros H%list_elem_of_lookup_2. unfold source_laps in H.
  apply list_elem_of_bind in H as (d' & Hd & Hin).
  apply list_elem_of_fmap in Hd as (r' & [= -> ->] & Hr). done.
Qed.

(** C2, as the spec states it, fails: with an empty sequence of drivers the
    call of the small race returns no frame. *)
Lemma C2_empty_drivers_counterexample :
  ¬ ∃ l, (prepare_driver_laps (scenario_session (λ _, 0)) [] 0%nat
            {| heap := [scenario_stints]; canvas := [] |}).1 = Ok l.
Proof. intros [l H]. discriminate H. Qed.

(** C2, amended: called with an empty sequence of drivers, prepare_driver_laps
    raises the ValueError of [pd.concat] on an empty list ("No objects to
    concatenate") and leaves the world as it was; it returns no frame. *)
Theorem C2_empty_drivers_raise session stints w :
  prepare_driver_laps session [] stints w
  = (Raise (ValueError "No objects to concatenate"), w).
Proof. reflexivity. Qed.

(** C3: in the small race (A: laps 1-5, stints of 3 and 2 laps; B: laps 1-3,
    one stint of 3 laps; any lap durations) the call returns 8 rows, the 5 of
    A then the 3 of B, each block by ascending lap, with A's laps 1-3 in
    stint 1, A's laps 4-5 in stint 2 and B's laps 1-3 in stint 1. *)
Theorem C3_concrete_scenario (duration : Z → Z) :
  let out := prepare_driver_laps (scenario_session duration) ["A"; "B"] 0%nat
               {| heap := [scenario_stints]; canvas := [] |} in
  ∃ l,
    out.1 = Ok l
    ∧ (length ∘ rows <$> heap out.2 !! l) = Some 8%nat
    ∧ (summary <$> heap out.2 !! l)
      = Some [ (Some (Str "A"), Some (Int 1), Some (Int 1));
               (Some (Str "A"), Some (Int 2), Some (Int 1));
               (Some (Str "A"), Some (Int 3), Some (Int 1));
               (Some (Str "A"), Some (Int 4), Some (Int 2));
               (Some (Str "A"), Some (Int 5), Some (Int 2));
               (Some (Str "B"), Some (Int 1), Some (Int 1));
               (Some (Str "B"), Some (Int 2), Some (Int 1));
               (Some (Str "B"), Some (Int 3), Some (Int 1)) ].
Proof. exists 3%nat. repeat split; vm_compute; reflexivity. Qed.

(** C4: the frame a call returns has as many rows as the lap source yields
    for the drivers together, one count per entry of [drivers]; no row is
    dropped or merged. *)
Theorem C4_cardinality session drivers stints w sdf l w' :
  heap w !! stints = Some sdf →
  prepare_driver_laps session drivers stints w = (Ok l, w') →
  ∃ df,
    heap w' !! l = Some df
    ∧ length (rows df)
      = sum_list ((λ d, length (rows (pick_quicklaps session d))) <$> drivers).
Proof.
  intros Hs Hrun. destruct (prepare_driver_laps_inv _ _ _ _ _ _ _ Hs Hrun) as (df & Hdf & Hl).
  exists df. split; [done |].
  pose proof (Forall2_length _ _ _ (combined_frame_shape _ _ _ _ Hdf)) as Hlen.
  rewrite <- Hlen. unfold source_laps. clear.
  induction drivers as [| d rest IH]; [done |].
  rewrite bind_cons, length_app, length_fmap, IH. done.
Qed.

(** C5: the frame a call returns lists the laps of the source driver after
    driver in the order of [drivers], and within a driver in the order the
    source yielded them: row by row it is the source lap, tagged with its
    driver. *)
Theorem C5_order_preserved session drivers stints w sdf l w' :
  heap w !! stints = Some sdf →
  prepare_driver_laps session drivers stints w = (Ok l, w') →
  ∃ df,
    heap w' !! l = Some df
    ∧ Forall2 (λ (lap : string * row) (r' : row), same_lap lap.1 lap.2 r')
        (source_laps session drivers) (rows df).
Proof.
  intros Hs Hrun. destruct (prepare_driver_laps_inv _ _ _ _ _ _ _ Hs Hrun) as (df & Hdf & Hl).
  exists df. split; [done |]. by eapply combined_frame_shape.
Qed.

(** C9: whatever the outcome of a call, the stints frame it was given is
    afterwards what it was before. *)
Theorem C9_stints_unchanged session drivers stints w :
  (stints < length (heap w))%nat →
  heap (prepare_driver_laps session drivers stints w).2 !! stints = heap w !! stints.
Proof.
  intros Hlt.
  destruct (keeps_prepare_driver_laps (length (heap w)) session drivers stints w)
    as [Hkept _]; [done |].
  by eapply kept_lookup.
Qed.

(** The row a well-formed call writes for a source lap. *)
Lemma annotated_stint stints driver ls (r : row) n :
  stint_lengths_of stints driver = Some ls →
  r !! "LapNumber" = Some (Int n) →
  annotated stints driver r !! "Stint"
  = match stint_at 1 1 ls n with
    | Some k => Some (Int k)
    | None => r !! "Stint"
    end.
Proof.
  intros Hls Hn. unfold annotated. rewrite Hls. simpl. rewrite assign_row_stint.
  unfold lap_number. rewrite lookup_insert_ne, Hn by done. simpl.
  destruct (stint_at 1 1 ls n); [done |]. by rewrite lookup_insert_ne.
Qed.

Lemma returned_row session drivers stints (df : DataFrame) (i : nat) d r :
  rows df = (λ lap : string * row, annotated stints lap.1 lap.2)
              <$> source_laps session drivers →
  source_laps session drivers !! i = Some (d, r) →
  rows df !! i = Some (annotated stints d r).
Proof. intros -> Hi. by rewrite list_lookup_fmap, Hi. Qed.

(** C1: on well-formed input, for a driver whose stint lengths are positive
    integers that sum to at least the driver's highest lap number [N], the call
    returns a frame in which every lap of the driver numbered 1..N carries
    one stint number, the number of the one stint range that holds the lap,
    and in which these stint numbers do not decrease as the lap number
    grows. *)
Theorem C1_coverage session drivers stints w sdf d ls N :
  heap w !! stints = Some sdf →
  input_ok session drivers sdf = true →
  d ∈ drivers →
  stint_lengths_of sdf d = Some ls →
  Forall (λ L, 0 < L) ls →
  (∀ (r : row) n, r ∈ rows (pick_quicklaps session d) →
                  r !! "LapNumber" = Some (Int n) → n ≤ N) →
  N ≤ total ls →
  ∃ l w' df,
    prepare_driver_laps session drivers stints w = (Ok l, w')
    ∧ heap w' !! l = Some df
    ∧ (∀ (i : nat) (r : row) n,
         source_laps session drivers !! i = Some (d, r) →
         r !! "LapNumber" = Some (Int n) → 1 ≤ n →
         ∃ (r' : row) k,
           rows df !! i = Some r' ∧ r' !! "Stint" = Some (Int k)
           ∧ ∀ (j : nat) a b,
               stint_ranges 1 ls !! j = Some (a, b) →
               a ≤ n ≤ b ↔ k = 1 + Z.of_nat j)
    ∧ (∀ (i1 i2 : nat) (r1 r2 r1' r2' : row) n1 n2 k1 k2,
         source_laps session drivers !! i1 = Some (d, r1) →
         source_laps session drivers !! i2 = Some (d, r2) →
         r1 !! "LapNumber" = Some (Int n1) → r2 !! "LapNumber" = Some (Int n2) →
         rows df !! i1 = Some r1' → rows df !! i2 = Some r2' →
         r1' !! "Stint" = Some (Int k1) → r2' !! "Stint" = Some (Int k2) →
         1 ≤ n1 ≤ n2 → k1 ≤ k2).
Proof.
  intros Hs Hok Hd Hls Hpos HN Hsum.
  destruct (prepare_driver_laps_returns session drivers stints w sdf Hs Hok)
    as (l & w' & df & Hrun & Hl & Hrows); [intros ->; by inversion Hd |].
  assert (Hstint : ∀ (i : nat) (r : row) n,
             source_laps session drivers !! i = Some (d, r) →
             r !! "LapNumber" = Some (Int n) → 1 ≤ n →
             ∃ k, stint_at 1 1 ls n = Some k
                  ∧ rows df !! i = Some (annotated sdf d r)
                  ∧ annotated sdf d r !! "Stint" = Some (Int k)).
  { intros i r n Hi Hn Hn1.
    destruct (source_laps_elem _ _ _ _ _ Hi) as [_ Hr].
    specialize (HN r n Hr Hn).
    destruct (stint_at_within ls 1 1 n) as [k Hk]; [lia |].
    exists k. split; [done |]. split; [by eapply returned_row |].
    by rewrite (annotated_stint _ _ _ _ _ Hls Hn), Hk. }
  exists l, w', df. split; [done |]. split; [done |]. split.
  - intros i r n Hi Hn Hn1. destruct (Hstint i r n Hi Hn Hn1) as (k & Hk & Hrow & Hcell).
    exists (annotated sdf d r), k. split; [done |]. split; [done |].
    intros j a b Hj. by eapply stint_at_unique.
  - intros i1 i2 r1 r2 r1' r2' n1 n2 k1 k2 Hi1 Hi2 Hn1 Hn2 Hr1 Hr2 Hk1 Hk2 Hle.
    destruct (Hstint i1 r1 n1 Hi1 Hn1) as (k1' & Hat1 & Hrow1 & Hcell1); [lia |].
    destruct (Hstint i2 r2 n2 Hi2 Hn2) as (k2' & Hat2 & Hrow2 & Hcell2); [lia |].
    rewrite Hr1 in Hrow1. rewrite Hr2 in Hrow2.
    injection Hrow1 as ->. injection Hrow2 as ->.
    rewrite Hk1 in Hcell1. rewrite Hk2 in Hcell2.
    injection Hcell1 as ->. injection Hcell2 as ->.
    eapply stint_at_mono; [done | done | done | lia].
Qed.

(** The stint loop is the sequence of its passes over [stint_ranges]. *)
Lemma assign_stints_passes driver_laps stint_lengths :
  ∀ stint_number start_lap w,
    assign_stints driver_laps stint_number (Some start_lap) (int_series stint_lengths) w
    = stint_passes driver_laps stint_number (stint_ranges start_lap stint_lengths) w.
Proof.
  induction stint_lengths as [| L rest IH]; intros i s w; [done |].
  cbn [assign_stints int_series fmap list_fmap stint_ranges stint_passes number].
  rewrite run_lift. cbn [num_add num_sub]. unfold stint_pass.
  rewrite !run_bind. cbn [fst snd].
  destruct (getitem driver_laps "LapNumber" w) as [[lap | e] w1]; [| done].
  rewrite !run_lift. destruct (series_ge lap (Some s)) as [ge | e]; [| done].
  rewrite !run_bind.
  destruct (getitem driver_laps "LapNumber" w1) as [[lap' | e] w2]; [| done].
  rewrite !run_lift. destruct (series_le lap' (Some (s + L - 1))) as [le | e]; [| done].
  rewrite !run_bind.
  destruct (loc_setitem driver_laps (mask_and ge le) "Stint" (Int i) w2) as [[[] | e] w3];
    [| done].
  apply IH.
Qed.

(** C6: for positive integer stint lengths, the stint loop works through the
    ranges [stint_ranges], and these are non-empty, pairwise disjoint and in
    strictly increasing order: each ends before the next begins. *)
Theorem C6_ranges_partition driver_laps stint_number start_lap ls :
  Forall (λ L, 0 < L) ls →
  (∀ w, assign_stints driver_laps stint_number (Some start_lap) (int_series ls) w
        = stint_passes driver_laps stint_number (stint_ranges start_lap ls) w)
  ∧ ∀ (j1 j2 : nat) a1 b1 a2 b2,
      (j1 < j2)%nat →
      stint_ranges start_lap ls !! j1 = Some (a1, b1) →
      stint_ranges start_lap ls !! j2 = Some (a2, b2) →
      (a1 ≤ b1 ∧ b1 < a2 ∧ a2 ≤ b2)
      ∧ ∀ lap, ¬ (a1 ≤ lap ≤ b1 ∧ a2 ≤ lap ≤ b2).
Proof.
  intros Hpos. split; [apply assign_stints_passes |].
  intros j1 j2 a1 b1 a2 b2 Hlt H1 H2.
  pose proof (stint_ranges_ordered _ _ _ _ _ _ _ _ Hpos Hlt H1 H2).
  split; [done | lia].
Qed.

(** C7, as the spec states it, fails: a lap above the sum of the stint
    lengths is not unset when the lap source gave it a stint.  With stint 7
    on every lap of the source and one stint of 3 laps for A, the input is
    well-formed and A's laps 4 and 5 are returned with stint 7. *)
Lemma C7_unset_tail_counterexample :
  input_ok stinted_session ["A"; "B"] short_stints = true
  ∧ stint_lengths_of short_stints "A" = Some [3]
  ∧ (prepare_driver_laps stinted_session ["A"; "B"] 0%nat short_world).1 = Ok 3%nat
  ∧ take 5 <$> (summary <$> heap (prepare_driver_laps stinted_session ["A"; "B"] 0%nat
                                    short_world).2 !! 3%nat)
    = Some [(Some (Str "A"), Some (Int 1), Some (Int 1));
            (Some (Str "A"), Some (Int 2), Some (Int 1));
            (Some (Str "A"), Some (Int 3), Some (Int 1));
            (Some (Str "A"), Some (Int 4), Some (Int 7));
            (Some (Str "A"), Some (Int 5), Some (Int 7))].
Proof. repeat split; vm_compute; reflexivity. Qed.

(** C7, amended: on well-formed input, for a driver whose stint lengths sum
    to [M], the call returns a frame, and in it a lap of the driver with a
    number above [M] has the stint cell the source gave it: no stint number
    only when the source gave none. *)
Theorem C7_unset_tail session drivers stints w sdf d ls :
  heap w !! stints = Some sdf →
  input_ok session drivers sdf = true →
  d ∈ drivers →
  stint_lengths_of sdf d = Some ls →
  Forall (λ L, 0 ≤ L) ls →
  ∃ l w' df,
    prepare_driver_laps session drivers stints w = (Ok l, w')
    ∧ heap w' !! l = Some df
    ∧ ∀ (i : nat) (r : row) n,
        source_laps session drivers !! i = Some (d, r) →
        r !! "LapNumber" = Some (Int n) → total ls < n →
        ∃ r' : row,
          rows df !! i = Some r'
          ∧ r' !! "Stint" = r !! "Stint"
          ∧ (r !! "Stint" = None → r' !! "Stint" = None).
Proof.
  intros Hs Hok Hd Hls Hpos.
  destruct (prepare_driver_laps_returns session drivers stints w sdf Hs Hok)
    as (l & w' & df & Hrun & Hl & Hrows); [intros ->; by inversion Hd |].
  exists l, w', df. split; [done |]. split; [done |].
  intros i r n Hi Hn Hlt. exists (annotated sdf d r).
  split; [by eapply returned_row |].
  rewrite (annotated_stint _ _ _ _ _ Hls Hn), stint_at_beyond by (done || lia).
  split; [done | by intros ->].
Qed.

(** C8, as the spec states it, fails: the laps of a driver without stint
    records are not unset when the lap source gave them a stint.  With stint
    7 on every lap of the source and no stint record for B, the input is
    well-formed and B's three laps, the rows after the five of A, are
    returned with stint 7. *)
Lemma C8_no_stints_counterexample :
  input_ok stinted_session ["A"; "B"] short_stints = true
  ∧ stint_lengths_of short_stints "B" = Some []
  ∧ (prepare_driver_laps stinted_session ["A"; "B"] 0%nat short_world).1 = Ok 3%nat
  ∧ drop 5 <$> (summary <$> heap (prepare_driver_laps stinted_session ["A"; "B"] 0%nat
                                    short_world).2 !! 3%nat)
    = Some [(Some (Str "B"), Some (Int 1), Some (Int 7));
            (Some (Str "B"), Some (Int 2), Some (Int 7));
            (Some (Str "B"), Some (Int 3), Some (Int 7))].
Proof. repeat split; vm_compute; reflexivity. Qed.

(** C8, amended: on well-formed input, for a driver without stint records,
    the call returns a frame, and in it every lap of the driver has the stint
    cell the source gave it: no stint number only when the source gave
    none. *)
Theorem C8_no_stints session drivers stints w sdf d :
  heap w !! stints = Some sdf →
  input_ok session drivers sdf = true →
  d ∈ drivers →
  stint_lengths_of sdf d = Some [] →
  ∃ l w' df,
    prepare_driver_laps session drivers stints w = (Ok l, w')
    ∧ heap w' !! l = Some df
    ∧ ∀ (i : nat) (r : row),
        source_laps session drivers !! i = Some (d, r) →
        ∃ r' : row,
          rows df !! i = Some r'
          ∧ r' !! "Stint" = r !! "Stint"
          ∧ (r !! "Stint" = None → r' !! "Stint" = None).
Proof.
  intros Hs Hok Hd Hls.
  destruct (prepare_driver_laps_returns session drivers stints w sdf Hs Hok)
    as (l & w' & df & Hrun & Hl & Hrows); [intros ->; by inversion Hd |].
  exists l, w', df. split; [done |]. split; [done |].
  intros i r Hi. exists (annotated sdf d r).
  split; [by eapply returned_row |].
  unfold annotated. rewrite Hls. simpl. rewrite lookup_insert_ne by done.
  split; [done | by intros ->].
Qed.

Ltac keeps_step :=
  first [ apply keeps_emit | apply keeps_load | apply keeps_lift | apply keeps_getitem
        | apply (keeps_ret _ _ (λ _, True) I) ].

Ltac solve_keeps :=
  repeat (eapply keeps_bind; [keeps_step | intros ? _]); keeps_step.

Lemma total_seconds_cells s secs :
  total_seconds s = Ok secs → mapM cell_seconds s = Ok secs.
Proof.
  unfold total_seconds. unfold mbind at 1, result_bind at 1.
  destruct (mapM cell_seconds s) as [k |]; [| done].
  destruct (forallb _ s); [done |]. by intros [= <-].
Qed.

Lemma total_seconds_length s secs : total_seconds s = Ok secs → length secs = length s.
Proof. intros H%total_seconds_cells. by eapply mapM_result_length. Qed.


(** * The properties at the small race *)

Lemma scenario_run_value session drivers stints w l :
  (prepare_driver_laps session drivers stints w).1 = Ok l →
  prepare_driver_laps session drivers stints w
  = (Ok l, (prepare_driver_laps session drivers stints w).2).
Proof. intros <-. apply surjective_pairing. Defined.

Lemma lap_in durations (numbers : list Z) (r : row) n :
  r ∈ rows (laps durations numbers) → r !! "LapNumber" = Some (Int n) → n ∈ numbers.
Proof.
  simpl. intros (m & -> & Hm)%list_elem_of_fmap. unfold lap.
  rewrite lookup_insert_eq. by intros [= <-].
Defined.

Lemma C1_coverage_witness :
  input_ok (scenario_session durations) ["A"; "B"] scenario_stints = true
  ∧ stint_lengths_of scenario_stints "A" = Some [3; 2]
  ∧ ∃ l w' df,
      prepare_driver_laps (scenario_session durations) ["A"; "B"] 0%nat scenario_world
      = (Ok l, w')
      ∧ heap w' !! l = Some df
      ∧ ∀ (i : nat) (r : row) n,
          source_laps (scenario_session durations) ["A"; "B"] !! i = Some ("A", r) →
          r !! "LapNumber" = Some (Int n) → 1 ≤ n →
          ∃ (r' : row) k, rows df !! i = Some r' ∧ r' !! "Stint" = Some (Int k).
Proof.
  split; [vm_compute; reflexivity |]. split; [vm_compute; reflexivity |].
  destruct (C1_coverage (scenario_session durations) ["A"; "B"] 0%nat scenario_world
              scenario_stints "A" [3; 2] 5)
    as (l & w' & df & Hrun & Hl & Hcover & _).
  - reflexivity.
  - vm_compute; reflexivity.
  - constructor.
  - vm_compute; reflexivity.
  - repeat constructor; lia.
  - intros r n Hr Hn. pose proof (lap_in _ _ _ _ Hr Hn) as Hin.
    repeat (apply elem_of_cons in Hin as [-> | Hin]; [lia |]).
    by apply elem_of_nil in Hin.
  - vm_compute. discriminate.
  - exists l, w', df. split; [exact Hrun |]. split; [exact Hl |].
    intros i r n Hi Hn Hn1. destruct (Hcover i r n Hi Hn Hn1) as (r' & k & Hr' & Hk & _).
    by exists r', k.
Defined.

Lemma C4_cardinality_witness :
  ∃ df,
    heap (prepare_driver_laps (scenario_session durations) ["A"; "B"] 0%nat
            scenario_world).2 !! 3%nat = Some df
    ∧ length (rows df) = 8%nat.
Proof.
  destruct (C4_cardinality (scenario_session durations) ["A"; "B"] 0%nat scenario_world
              scenario_stints 3%nat
              (prepare_driver_laps (scenario_session durations) ["A"; "B"] 0%nat
                 scenario_world).2)
    as (df & Hl & Hlen).
  - reflexivity.
  - apply scenario_run_value. vm_compute; reflexivity.
  - exists df. split; [exact Hl |]. rewrite Hlen. vm_compute; reflexivity.
Defined.

Lemma C5_order_preserved_witness :
  ∃ df,
    heap (prepare_driver_laps (scenario_session durations) ["A"; "B"] 0%nat
            scenario_world).2 !! 3%nat = Some df
    ∧ Forall2 (λ (lap : string * row) (r' : row), same_lap lap.1 lap.2 r')
        (source_laps (scenario_session durations) ["A"; "B"]) (rows df).
Proof.
  apply (C5_order_preserved (scenario_session durations) ["A"; "B"] 0%nat scenario_world
           scenario_stints 3%nat).
  - reflexivity.
  - apply scenario_run_value. vm_compute; reflexivity.
Defined.

Lemma C6_ranges_partition_witness :
  stint_ranges 1 [3; 2] = [(1, 3); (4, 5)]
  ∧ ∀ w, assign_stints 1%nat 1 (Some 1) (int_series [3; 2]) w
         = stint_passes 1%nat 1 (stint_ranges 1 [3; 2]) w.
Proof.
  split; [reflexivity |].
  apply (C6_ranges_partition 1%nat 1 1 [3; 2]). repeat constructor; lia.
Defined.

Lemma C7_unset_tail_witness :
  input_ok (scenario_session durations) ["A"; "B"] short_stints = true
  ∧ stint_lengths_of short_stints "A" = Some [3]
  ∧ ∃ l w' df,
      prepare_driver_laps (scenario_session durations) ["A"; "B"] 0%nat short_world
      = (Ok l, w')
      ∧ heap w' !! l = Some df
      ∧ ∀ (i : nat) (r : row) n,
          source_laps (scenario_session durations) ["A"; "B"] !! i = Some ("A", r) →
          r !! "LapNumber" = Some (Int n) → total [3] < n →
          ∃ r' : row,
            rows df !! i = Some r'
            ∧ r' !! "Stint" = r !! "Stint"
            ∧ (r !! "Stint" = None → r' !! "Stint" = None).
Proof.
  split; [vm_compute; reflexivity |]. split; [vm_compute; reflexivity |].
  apply (C7_unset_tail (scenario_session durations) ["A"; "B"] 0%nat short_world
           short_stints "A" [3]).
  - reflexivity.
  - vm_compute; reflexivity.
  - constructor.
  - vm_compute; reflexivity.
  - repeat constructor; lia.
Defined.

Lemma C8_no_stints_witness :
  stint_lengths_of short_stints "B" = Some []
  ∧ ∃ l w' df,
      prepare_driver_laps (scenario_session durations) ["A"; "B"] 0%nat short_world
      = (Ok l, w')
      ∧ heap w' !! l = Some df
      ∧ ∀ (i : nat) (r : row),
          source_laps (scenario_session durations) ["A"; "B"] !! i = Some ("B", r) →
          ∃ r' : row,
            rows df !! i = Some r'
            ∧ r' !! "Stint" = r !! "Stint"
            ∧ (r !! "Stint" = None → r' !! "Stint" = None).
Proof.
  split; [vm_compute; reflexivity |].
  apply (C8_no_stints (scenario_session durations) ["A"; "B"] 0%nat short_world
           short_stints "B").
  - reflexivity.
  - vm_compute; reflexivity.
  - repeat constructor.
  - vm_compute; reflexivity.
Defined.

Lemma C9_stints_unchanged_witness :
  heap (prepare_driver_laps (scenario_session durations) ["A"; "B"] 0%nat
          scenario_world).2 !! 0%nat
  = Some scenario_stints.
Proof.
  apply (C9_stints_unchanged (scenario_session durations) ["A"; "B"] 0%nat scenario_world).
  simpl. lia.
Defined.


(** * Further properties of prepare_driver_laps *)

(** X1: a call touches no frame that existed before it, whatever its
    outcome, and the reference it returns is a new one. *)
Theorem prepare_driver_laps_fresh session drivers stints w :
  let out := prepare_driver_laps session drivers stints w in
  (∀ l : nat, (l < length (heap w))%nat → heap out.2 !! l = heap w !! l)
  ∧ ∀ l : nat, out.1 = Ok l → (length (heap w) ≤ l)%nat.
Proof.
  destruct (keeps_prepare_driver_laps (length (heap w)) session drivers stints w)
    as [Hkept Hnew]; [done |].
  split; [| done]. intros l Hl. by eapply kept_lookup.
Qed.

Lemma has_column_select_rows df mask c :
  has_column (select_rows df mask) c = has_column df c.
Proof. reflexivity. Qed.

Lemma prepare_driver_laps_raises session drivers stints w sdf e :
  heap w !! stints = Some sdf →
  combined_frame session drivers sdf = Raise e →
  (prepare_driver_laps session drivers stints w).1 = Raise e.
Proof.
  intros Hs He. pose proof (prepare_driver_laps_run session drivers stints w sdf Hs) as H.
  rewrite He in H. destruct H as [w' ->]. done.
Qed.

(** X2: with at least one driver, a stints frame without the column "Driver"
    makes the call raise KeyError for "Driver", and one with "Driver" but
    without "StintLength" KeyError for "StintLength". *)
Theorem prepare_driver_laps_missing_column session d rest stints w sdf :
  heap w !! stints = Some sdf →
  (has_column sdf "Driver" = false →
   (prepare_driver_laps session (d :: rest) stints w).1 = Raise (KeyError "Driver"))
  ∧ (has_column sdf "Driver" = true → has_column sdf "StintLength" = false →
     (prepare_driver_laps session (d :: rest) stints w).1
     = Raise (KeyError "StintLength")).
Proof.
  intros Hs. split.
  - intros Hd. apply (prepare_driver_laps_raises _ _ _ _ sdf); [done |].
    unfold combined_frame. cbn [mapM]. unfold block_frame, driver_stint_lengths, column.
    by rewrite Hd.
  - intros Hd Hl. apply (prepare_driver_laps_raises _ _ _ _ sdf); [done |].
    unfold combined_frame. cbn [mapM]. unfold block_frame, driver_stint_lengths, column.
    rewrite Hd. simpl. unfold has_column in *. simpl. by rewrite Hl.
Qed.

Lemma prepare_driver_laps_missing_column_witness :
  (prepare_driver_laps (scenario_session durations) ["A"] 0%nat
     {| heap := [laps durations [1; 2]]; canvas := [] |}).1
  = Raise (KeyError "Driver")
  ∧ (prepare_driver_laps (scenario_session durations) ["A"] 0%nat
       {| heap := [race_positions]; canvas := [] |}).1
    = Raise (KeyError "StintLength").
Proof.
  split.
  - apply (prepare_driver_laps_missing_column (scenario_session durations) "A" [] 0%nat
             {| heap := [laps durations [1; 2]]; canvas := [] |} (laps durations [1; 2]));
      reflexivity.
  - apply (prepare_driver_laps_missing_column (scenario_session durations) "A" [] 0%nat
             {| heap := [race_positions]; canvas := [] |} race_positions);
      reflexivity.
Defined.

(** The stint loop on integer lengths followed by further lengths: the
    integer lengths first, the others from where these end. *)
Lemma assign_frame_app pre rest :
  ∀ stint_number start_lap df,
    assign_frame stint_number (Some start_lap) (int_series pre ++ rest) df
    = df' ← assign_frame stint_number (Some start_lap) (int_series pre) df;
      assign_frame (stint_number + Z.of_nat (length pre))
        (Some (start_lap + total pre)) rest df'.
Proof.
  induction pre as [| L pre IH]; intros i s df.
  - simpl. by rewrite !Z.add_0_r.
  - cbn [int_series fmap list_fmap app assign_frame number num_add num_sub].
    unfold mbind, result_bind. cbn [num_add num_sub].
    destruct (column df "LapNumber") as [lap | e]; [| done].
    destruct (series_ge lap (Some s)) as [ge | e]; [| done].
    destruct (series_le lap (Some (s + L - 1))) as [le | e]; [| done].
    destruct (set_where df (mask_and ge le) "Stint" (Int i)) as [df' | e]; [| done].
    fold (int_series pre).
    pose proof (IH (i + 1) (s + L - 1 + 1) df') as Hrest.
    unfold mbind, result_bind in Hrest. rewrite Hrest. rewrite total_cons.
    replace (i + 1 + Z.of_nat (length pre)) with (i + Z.of_nat (length (L :: pre)))
      by (simpl length; lia).
    by replace (s + L - 1 + 1 + total pre) with (s + (L + total pre)) by lia.
Qed.

(** The stint loop runs on the tagged frame of laps it can run on. *)
Lemma tagged_laps_run src driver ls :
  laps_ok src = true →
  ∃ df', assign_frame 1 (Some 1) (int_series ls) (set_column src "Driver" (Str driver))
         = Ok df'.
Proof.
  intros (Hlap & Hnum & Hstint)%laps_ok_inv.
  destruct (assign_frame_laps_ok (set_column src "Driver" (Str driver)) ls)
    as [cols Hrun].
  - by rewrite has_column_add_label.
  - simpl. apply Forall_fmap. eapply Forall_impl; [exact Hnum |].
    intros r Hr. simpl. by rewrite lookup_insert_ne.
  - rewrite has_column_add_label by done.
    destruct Hstint as [? | [Hrows Hnone]]; [by left | right]. simpl. split.
    + by destruct (rows src).
    + apply Forall_fmap. eapply Forall_impl; [exact Hnone |].
      intros r Hr. simpl. by rewrite lookup_insert_ne.
  - by eexists.
Qed.

(** X3: a stint length of the first driver that is a string, after integer
    lengths only, makes the call raise TypeError: the loop runs for the
    integer lengths (on laps it can run on, if there is such a length), and
    its arithmetic fails on the string. *)
Theorem prepare_driver_laps_string_length session d rest stints w sdf pre x tl :
  heap w !! stints = Some sdf →
  driver_stint_lengths sdf d = Ok (int_series pre ++ Some (Str x) :: tl) →
  (pre ≠ [] → laps_ok (pick_quicklaps session d) = true) →
  (prepare_driver_laps session (d :: rest) stints w).1 = Raise TypeError.
Proof.
  intros Hs Hls Hlaps. apply (prepare_driver_laps_raises _ _ _ _ sdf); [done |].
  unfold combined_frame. cbn [mapM]. unfold block_frame. rewrite Hls.
  unfold mbind, result_bind. rewrite assign_frame_app. unfold mbind, result_bind.
  destruct pre as [| L pre]; [done |].
  destruct (tagged_laps_run (pick_quicklaps session d) d (L :: pre)) as [df' ->];
    [by apply Hlaps |].
  done.
Qed.

Lemma prepare_driver_laps_string_length_witness :
  driver_stint_lengths text_stints "A" = Ok (int_series [3] ++ [Some (Str "2")])
  ∧ (prepare_driver_laps (scenario_session durations) ["A"] 0%nat
       {| heap := [text_stints]; canvas := [] |}).1
    = Raise TypeError.
Proof.
  split; [vm_compute; reflexivity |].
  apply (prepare_driver_laps_string_length (scenario_session durations) "A" [] 0%nat
           {| heap := [text_stints]; canvas := [] |} text_stints [3] "2" []).
  - reflexivity.
  - vm_compute; reflexivity.
  - intros _. vm_compute; reflexivity.
Defined.

Lemma stint_at_before stint_lengths :
  ∀ stint_number start_lap lap,
    Forall (λ L, 0 ≤ L) stint_lengths →
    lap < start_lap →
    stint_at stint_number start_lap stint_lengths lap = None.
Proof.
  induction stint_lengths as [| L rest IH]; intros i s n Hpos Hn; simpl; [done |].
  inversion Hpos as [| ? ? HL Hrest]; subst.
  rewrite IH by (done || lia).
  destruct (Z.leb_spec s n); simpl; (done || lia).
Qed.

Lemma stint_ranges_lookup stint_lengths :
  ∀ start_lap (j : nat) a b,
    stint_ranges start_lap stint_lengths !! j = Some (a, b) →
    ∃ L, stint_lengths !! j = Some L ∧ b = a + L - 1.
Proof.
  induction stint_lengths as [| L rest IH]; intros s j a b; simpl; [done |].
  destruct j as [| j]; simpl.
  - intros [= <- <-]. by exists L.
  - apply IH.
Qed.

(** X4: on well-formed input, for a driver with non-negative integer stint
    lengths of sum [M], the loop writes exactly the laps numbered 1..M: such
    a lap gets the number [k] of a stint of positive length (a stint of
    length zero gets no lap), a lap numbered below 1 or above [M] keeps the
    stint cell of the source. *)
Theorem stints_cover_exactly session drivers stints w sdf d ls :
  heap w !! stints = Some sdf →
  input_ok session drivers sdf = true →
  d ∈ drivers →
  stint_lengths_of sdf d = Some ls →
  Forall (λ L, 0 ≤ L) ls →
  ∃ l w' df,
    prepare_driver_laps session drivers stints w = (Ok l, w')
    ∧ heap w' !! l = Some df
    ∧ ∀ (i : nat) (r : row) n,
        source_laps session drivers !! i = Some (d, r) →
        r !! "LapNumber" = Some (Int n) →
        ∃ r' : row,
          rows df !! i = Some r'
          ∧ (1 ≤ n ≤ total ls →
             ∃ (j : nat) L,
               r' !! "Stint" = Some (Int (1 + Z.of_nat j))
               ∧ ls !! j = Some L ∧ 0 < L)
          ∧ (n < 1 ∨ total ls < n → r' !! "Stint" = r !! "Stint").
Proof.
  intros Hs Hok Hd Hls Hpos.
  destruct (prepare_driver_laps_returns session drivers stints w sdf Hs Hok)
    as (l & w' & df & Hrun & Hl & Hrows); [intros ->; by inversion Hd |].
  exists l, w', df. split; [done |]. split; [done |].
  intros i r n Hi Hn. exists (annotated sdf d r).
  split; [by eapply returned_row |].
  rewrite (annotated_stint _ _ _ _ _ Hls Hn). split.
  - intros Hin. destruct (stint_at_within ls 1 1 n) as [k Hk]; [lia |]. rewrite Hk.
    destruct (stint_at_range _ _ _ _ _ Hk) as (j & a & b & -> & Hj & Hab).
    destruct (stint_ranges_lookup _ _ _ _ _ Hj) as (L & HL & Hb).
    exists j, L. split; [done |]. split; [done | lia].
  - intros [Hlow | Hhigh].
    + by rewrite stint_at_before by (done || lia).
    + by rewrite stint_at_beyond by (done || lia).
Qed.

Lemma stints_cover_exactly_witness :
  stint_lengths_of scenario_stints "A" = Some [3; 2]
  ∧ ∃ l w' df,
      prepare_driver_laps (scenario_session durations) ["A"; "B"] 0%nat scenario_world
      = (Ok l, w')
      ∧ heap w' !! l = Some df
      ∧ ∀ (i : nat) (r : row) n,
          source_laps (scenario_session durations) ["A"; "B"] !! i = Some ("A", r) →
          r !! "LapNumber" = Some (Int n) →
          ∃ r' : row,
            rows df !! i = Some r'
            ∧ (1 ≤ n ≤ total [3; 2] →
               ∃ (j : nat) L,
                 r' !! "Stint" = Some (Int (1 + Z.of_nat j))
                 ∧ [3; 2] !! j = Some L ∧ 0 < L)
            ∧ (n < 1 ∨ total [3; 2] < n → r' !! "Stint" = r !! "Stint").
Proof.
  split; [vm_compute; reflexivity |].
  apply (stints_cover_exactly (scenario_session durations) ["A"; "B"] 0%nat scenario_world
           scenario_stints "A" [3; 2]).
  - reflexivity.
  - vm_compute; reflexivity.
  - constructor.
  - vm_compute; reflexivity.
  - repeat constructor; lia.
Defined.

(** X5: on well-formed input, a lap whose lap number is null is in no stint
    range, whatever the stint lengths: it keeps the stint cell of the
    source. *)
Theorem null_lap_number_keeps_stint session drivers stints w sdf :
  heap w !! stints = Some sdf →
  input_ok session drivers sdf = true →
  drivers ≠ [] →
  ∃ l w' df,
    prepare_driver_laps session drivers stints w = (Ok l, w')
    ∧ heap w' !! l = Some df
    ∧ ∀ (i : nat) d (r : row),
        source_laps session drivers !! i = Some (d, r) →
        r !! "LapNumber" = None →
        ∃ r' : row, rows df !! i = Some r' ∧ r' !! "Stint" = r !! "Stint".
Proof.
  intros Hs Hok Hne.
  destruct (prepare_driver_laps_returns session drivers stints w sdf Hs Hok Hne)
    as (l & w' & df & Hrun & Hl & Hrows).
  exists l, w', df. split; [done |]. split; [done |].
  intros i d r Hi Hn. exists (annotated sdf d r).
  split; [by eapply returned_row |].
  unfold annotated. rewrite assign_row_stint. unfold lap_number.
  rewrite lookup_insert_ne, Hn by done. simpl. by rewrite lookup_insert_ne.
Qed.

Lemma null_lap_number_keeps_stint_witness :
  source_laps patchy_session ["A"] !! 1%nat
  = Some ("A", delete "LapNumber" (stinted_lap 2))
  ∧ delete "LapNumber" (stinted_lap 2) !! "LapNumber" = None
  ∧ ∃ l w' df (r' : row),
      prepare_driver_laps patchy_session ["A"] 0%nat scenario_world = (Ok l, w')
      ∧ heap w' !! l = Some df
      ∧ rows df !! 1%nat = Some r'
      ∧ r' !! "Stint" = Some (Int 7).
Proof.
  split; [reflexivity |]. split; [vm_compute; reflexivity |].
  destruct (null_lap_number_keeps_stint patchy_session ["A"] 0%nat scenario_world
              scenario_stints)
    as (l & w' & df & Hrun & Hl & Hrows).
  - reflexivity.
  - vm_compute; reflexivity.
  - discriminate.
  - destruct (Hrows 1%nat "A" (delete "LapNumber" (stinted_lap 2)))
      as (r' & Hr' & Hstint).
    + reflexivity.
    + vm_compute; reflexivity.
    + exists l, w', df, r'. split; [exact Hrun |]. split; [exact Hl |].
      split; [exact Hr' |]. rewrite Hstint. vm_compute; reflexivity.
Defined.

(** * Further properties of plot_lap_time_distributions *)

Lemma cell_seconds_not_duration s c :
  Some c ∈ s → (∀ ns, c ≠ Timedelta ns) → mapM cell_seconds s = Raise AttributeError.
Proof.
  intros Hin Hc. induction s as [| x s IH]; [by apply elem_of_nil in Hin |].
  change (mapM ?f (?a :: ?l)) with (y ← f a; k ← mapM f l; mret (y :: k)). cbv beta.
  destruct (decide (Some c ∈ s)) as [Hs | Hs].
  - rewrite (IH Hs). by destruct x as [[] |].
  - apply elem_of_cons in Hin as [<- | Hin]; [| done].
    destruct c; simpl; try done. by destruct (Hc ns).
Qed.

Lemma total_seconds_not_duration s c :
  Some c ∈ s → (∀ ns, c ≠ Timedelta ns) → total_seconds s = Raise AttributeError.
Proof.
  intros Hin Hc. unfold total_seconds. by rewrite (cell_seconds_not_duration s c).
Qed.

Lemma total_seconds_lookup s secs (i : nat) c :
  total_seconds s = Ok secs → s !! i = Some c →
  secs !! i = Some (match c with Some (Timedelta ns) => Some (Seconds ns) | _ => None end)
  ∧ (c = None ∨ ∃ ns, c = Some (Timedelta ns)).
Proof.
  intros H%total_seconds_cells. revert secs i H.
  induction s as [| x s IH]; intros secs i; [done |].
  change (mapM ?f (?a :: ?l)) with (y ← f a; k ← mapM f l; mret (y :: k)). cbv beta.
  destruct x as [[] |]; simpl; try done;
    (destruct (mapM _ s) as [k |] eqn:Ek; simpl; [| done]; intros [= <-];
     destruct i as [| i]; simpl; [intros [= <-]; eauto | by apply IH]).
Qed.

Lemma with_seconds_present df : has_column df "LapTime (s)" = true → with_seconds df = df.
Proof. unfold with_seconds. by intros ->. Qed.

Lemma with_seconds_failed df e :
  has_column df "LapTime (s)" = false →
  column df "LapTime" ≫= total_seconds = Raise e →
  with_seconds df = df.
Proof. unfold with_seconds. by intros -> ->. Qed.

Lemma with_seconds_added df lap_time secs :
  has_column df "LapTime (s)" = false →
  column df "LapTime" = Ok lap_time →
  total_seconds lap_time = Ok secs →
  with_seconds df
  = {| columns := columns df ++ ["LapTime (s)"];
       rows := zip_with (set_cell "LapTime (s)") secs (rows df) |}.
Proof.
  unfold with_seconds. intros -> -> Hsecs. unfold mbind, result_bind. by rewrite Hsecs.
Qed.

(** What a call leaves behind the reference it was given, whatever its
    outcome; the other frames are left alone. *)
Lemma plot_lap_time_distributions_frame backend driver_laps finishing_order
    driver_colors compound_colors title marker_size figsize w df :
  heap w !! driver_laps = Some df →
  let w' := (plot_lap_time_distributions backend driver_laps finishing_order
               driver_colors compound_colors title marker_size figsize w).2 in
  heap w' !! driver_laps = Some (with_seconds df)
  ∧ ∀ l : nat, l ≠ driver_laps → (l < length (heap w))%nat →
      heap w' !! l = heap w !! l.
Proof.
  intros Hdf w'. subst w'. unfold plot_lap_time_distributions.
  rewrite (run_load _ _ _ _ Hdf). rewrite run_bind.
  pose proof (lookup_lt_Some _ _ _ Hdf) as Hlt.
  assert (Hrest : ∀ w1 (m : py unit),
             keeps (length (heap w1)) m (λ _, True) →
             ∀ l : nat, (l < length (heap w1))%nat → heap (m w1).2 !! l = heap w1 !! l).
  { intros w1 m Hkeeps l Hl. destruct (Hkeeps w1) as [Hkept _]; [done |].
    by eapply kept_lookup. }
  destruct (has_column df "LapTime (s)") eqn:Hcol; cbn [negb].
  - rewrite (with_seconds_present _ Hcol). unfold mret at 1, py_ret at 1.
    match goal with
    | |- heap (?m w).2 !! _ = _ ∧ _ =>
        assert (Hkeeps : keeps (length (heap w)) m (λ _, True))
    end.
    { destruct title as [t |]; [destruct (truthy t) |]; solve_keeps. }
    split; [by rewrite (Hrest w _ Hkeeps) | intros l _ Hl; by apply Hrest].
  - rewrite (run_getitem _ _ _ _ _ Hdf).
    destruct (column df "LapTime") as [lap_time | e] eqn:Hlap;
      [| by rewrite (with_seconds_failed _ e Hcol) by (by rewrite Hlap)].
    rewrite run_lift.
    destruct (total_seconds lap_time) as [secs | e] eqn:Hsecs;
      [| by rewrite (with_seconds_failed _ e Hcol) by (by rewrite Hlap)].
    rewrite (with_seconds_added _ _ _ Hcol Hlap Hsecs).
    unfold setitem_series. rewrite (run_load _ _ _ _ Hdf), run_lift.
    unfold set_series, add_label. unfold has_column in Hcol. rewrite Hcol.
    rewrite bool_decide_eq_true_2
      by (by rewrite (total_seconds_length _ _ Hsecs), (column_length _ _ _ Hlap)).
    set (df' := {| columns := _; rows := _ |}).
    set (w1 := (store driver_laps df' w).2). change (store driver_laps df' w) with (Ok (), w1).
    assert (H1 : heap w1 !! driver_laps = Some df') by (by eapply store_lookup).
    cbv beta iota.
    match goal with
    | |- heap (?m w1).2 !! _ = _ ∧ _ =>
        assert (Hkeeps : keeps (length (heap w1)) m (λ _, True))
    end.
    { destruct title as [t |]; [destruct (truthy t) |]; solve_keeps. }
    assert (Hlen : length (heap w1) = length (heap w)) by (simpl; apply length_insert).
    split; [by rewrite (Hrest w1 _ Hkeeps) by lia |].
    intros l Hne Hl. rewrite (Hrest w1 _ Hkeeps) by lia. simpl.
    by rewrite list_lookup_insert_ne.
Qed.

(** X6: when the frame has no column "LapTime (s)" and the seconds cannot be
    computed, the call raises before anything is drawn and leaves the world
    as it was: KeyError for a frame without "LapTime", AttributeError when a
    cell of "LapTime" is no duration. *)
Theorem lap_time_seconds_not_computable backend driver_laps finishing_order
    driver_colors compound_colors title marker_size figsize w df :
  heap w !! driver_laps = Some df →
  has_column df "LapTime (s)" = false →
  (has_column df "LapTime" = false →
   plot_lap_time_distributions backend driver_laps finishing_order driver_colors
     compound_colors title marker_size figsize w
   = (Raise (KeyError "LapTime"), w))
  ∧ (has_column df "LapTime" = true →
     ∀ (r : row) c, r ∈ rows df → r !! "LapTime" = Some c → (∀ ns, c ≠ Timedelta ns) →
     plot_lap_time_distributions backend driver_laps finishing_order driver_colors
       compound_colors title marker_size figsize w
     = (Raise AttributeError, w)).
Proof.
  intros Hdf Hcol. unfold plot_lap_time_distributions.
  rewrite (run_load _ _ _ _ Hdf), run_bind, Hcol. cbn [negb].
  rewrite (run_getitem _ _ _ _ _ Hdf). unfold column. split.
  - by intros ->.
  - intros -> r c Hr Hc Hno. rewrite run_lift.
    rewrite (total_seconds_not_duration _ c); [done | | done].
    apply list_elem_of_fmap. by exists r.
Qed.

Lemma lap_time_seconds_not_computable_witness :
  plot_lap_time_distributions accepting 0%nat ["A"] ∅ ∅ None 4 (10, 5) scenario_world
  = (Raise (KeyError "LapTime"), scenario_world)
  ∧ plot_lap_time_distributions accepting 0%nat ["A"] ∅ ∅ None 4 (10, 5)
      {| heap := [{| columns := ["LapTime"]; rows := [{[ "LapTime" := Int 90 ]}] |}];
         canvas := [] |}
    = (Raise AttributeError,
       {| heap := [{| columns := ["LapTime"]; rows := [{[ "LapTime" := Int 90 ]}] |}];
          canvas := [] |}).
Proof.
  split.
  - apply (lap_time_seconds_not_computable accepting 0%nat ["A"] ∅ ∅ None 4 (10, 5)
             scenario_world scenario_stints); reflexivity.
  - apply (proj2 (lap_time_seconds_not_computable accepting 0%nat ["A"] ∅ ∅ None 4 (10, 5)
                    {| heap := [{| columns := ["LapTime"];
                                   rows := [{[ "LapTime" := Int 90 ]}] |}];
                       canvas := [] |}
                    {| columns := ["LapTime"]; rows := [{[ "LapTime" := Int 90 ]}] |}
                    eq_refl eq_refl) eq_refl {[ "LapTime" := Int 90 ]} (Int 90)).
    + simpl. by left.
    + reflexivity.
    + discriminate.
Defined.

Lemma with_seconds_idempotent df : with_seconds (with_seconds df) = with_seconds df.
Proof.
  destruct (has_column df "LapTime (s)") eqn:Hcol.
  - by rewrite !(with_seconds_present _ Hcol).
  - destruct (column df "LapTime" ≫= total_seconds) as [secs | e] eqn:E.
    + unfold with_seconds at 2 3. rewrite Hcol, E. apply with_seconds_present.
      unfold has_column. simpl. apply bool_decide_eq_true, elem_of_app. right.
      by apply list_elem_of_singleton.
    + by rewrite !(with_seconds_failed _ e Hcol E).
Qed.

(** X7: a second call changes the frame no further: after one call, whatever
    its outcome, another call (with any arguments and any charting backend)
    leaves the frame behind the reference as the first call left it. *)
Theorem lap_time_distributions_twice backend backend' driver_laps
    finishing_order finishing_order' driver_colors driver_colors'
    compound_colors compound_colors' title title' marker_size marker_size'
    figsize figsize' w df :
  heap w !! driver_laps = Some df →
  let w1 := (plot_lap_time_distributions backend driver_laps finishing_order
               driver_colors compound_colors title marker_size figsize w).2 in
  let w2 := (plot_lap_time_distributions backend' driver_laps finishing_order'
               driver_colors' compound_colors' title' marker_size' figsize' w1).2 in
  heap w2 !! driver_laps = heap w1 !! driver_laps.
Proof.
  intros Hdf w1 w2.
  destruct (plot_lap_time_distributions_frame backend driver_laps finishing_order
              driver_colors compound_colors title marker_size figsize w df Hdf)
    as [H1 _].
  destruct (plot_lap_time_distributions_frame backend' driver_laps finishing_order'
              driver_colors' compound_colors' title' marker_size' figsize' w1
              (with_seconds df) H1) as [H2 _].
  subst w1 w2. by rewrite H2, H1, with_seconds_idempotent.
Qed.

Lemma lap_time_distributions_twice_witness :
  heap (plot_lap_time_distributions accepting 0%nat ["B"] ∅ ∅ (Some "again") 2 (8, 4)
          (plot_lap_time_distributions accepting 0%nat ["A"] ∅ ∅ None 4 (10, 5)
             {| heap := [laps durations [1; 2]]; canvas := [] |}).2).2 !! 0%nat
  = heap (plot_lap_time_distributions accepting 0%nat ["A"] ∅ ∅ None 4 (10, 5)
            {| heap := [laps durations [1; 2]]; canvas := [] |}).2 !! 0%nat.
Proof.
  apply (lap_time_distributions_twice accepting accepting 0%nat ["A"] ["B"] ∅ ∅ ∅ ∅ None
           (Some "again") 4 2 (10, 5) (8, 4)
           {| heap := [laps durations [1; 2]]; canvas := [] |} (laps durations [1; 2])).
  reflexivity.
Defined.

Lemma emit_accepted backend d {B : Type} (k : unit → py B) w :
  backend d = None →
  (emit backend d ≫= k) w = k () {| heap := heap w; canvas := canvas w ++ [d] |}.
Proof. intros H. rewrite run_bind. unfold emit. by rewrite H. Qed.

(** X8: with a charting backend that accepts every call, and a frame that has
    the seconds column or lets it be computed, the call returns, the violin
    and the swarm plot are drawn from the frame with the seconds column, and
    the calls made are, in this order, the figure, the two plots, the axis
    labels, the title if one is given, and the finishing calls. *)
Theorem lap_time_distributions_drawn backend driver_laps finishing_order
    driver_colors compound_colors title marker_size figsize w df :
  (∀ d, backend d = None) →
  heap w !! driver_laps = Some df →
  has_column (with_seconds df) "LapTime (s)" = true →
  plot_lap_time_distributions backend driver_laps finishing_order driver_colors
    compound_colors title marker_size figsize w
  = (Ok (),
     {| heap := <[driver_laps:=with_seconds df]> (heap w);
        canvas :=
          canvas w
          ++ [Subplots figsize;
              Violinplot (with_seconds df) "Driver" "LapTime (s)" "Driver"
                finishing_order driver_colors;
              Swarmplot (with_seconds df) "Driver" "LapTime (s)" finishing_order
                "Compound" compound_colors ["SOFT"; "MEDIUM"; "HARD"] marker_size;
              SetXLabel "Driver"; SetYLabel "Lap Time (s)"]
          ++ title_calls title ++ [Despine; TightLayout; ShowFigure] |}).
Proof.
  intros Hacc Hdf Hws. unfold plot_lap_time_distributions.
  rewrite (run_load _ _ _ _ Hdf), run_bind.
  assert (Hrest : ∀ w1 : world,
             heap w1 !! driver_laps = Some (with_seconds df) →
             (emit backend (Subplots figsize);;
              data ← load driver_laps;
              emit backend (Violinplot data "Driver" "LapTime (s)" "Driver"
                              finishing_order driver_colors);;
              data ← load driver_laps;
              emit backend (Swarmplot data "Driver" "LapTime (s)" finishing_order
                              "Compound" compound_colors ["SOFT"; "MEDIUM"; "HARD"]
                              marker_size);;
              emit backend (SetXLabel "Driver");;
              emit backend (SetYLabel "Lap Time (s)");;
              match title with
              | Some t => if truthy t then emit backend (Suptitle t) else mret ()
              | None => mret ()
              end;;
              emit backend Despine;;
              emit backend TightLayout;;
              emit backend ShowFigure) w1
             = (Ok (),
                {| heap := heap w1;
                   canvas :=
                     canvas w1
                     ++ [Subplots figsize;
                         Violinplot (with_seconds df) "Driver" "LapTime (s)" "Driver"
                           finishing_order driver_colors;
                         Swarmplot (with_seconds df) "Driver" "LapTime (s)"
                           finishing_order "Compound" compound_colors
                           ["SOFT"; "MEDIUM"; "HARD"] marker_size;
                         SetXLabel "Driver"; SetYLabel "Lap Time (s)"]
                     ++ title_calls title ++ [Despine; TightLayout; ShowFigure] |})).
  { intros w1 H1.
    rewrite emit_accepted by done. erewrite run_load by exact H1.
    rewrite emit_accepted by done. erewrite run_load by exact H1.
    rewrite !emit_accepted by done. rewrite run_bind. unfold title_calls.
    destruct title as [t |]; [destruct (truthy t) |].
    - unfold emit at 1. rewrite Hacc. rewrite !emit_accepted by done.
      unfold emit. rewrite Hacc. cbn [heap canvas]. by rewrite <- !app_assoc.
    - unfold mret at 1, py_ret at 1. rewrite !emit_accepted by done.
      unfold emit. rewrite Hacc. cbn [heap canvas]. by rewrite <- !app_assoc.
    - unfold mret at 1, py_ret at 1. rewrite !emit_accepted by done.
      unfold emit. rewrite Hacc. cbn [heap canvas]. by rewrite <- !app_assoc. }
  destruct (has_column df "LapTime (s)") eqn:Hcol; cbn [negb].
  - unfold mret at 1, py_ret at 1. rewrite (with_seconds_present _ Hcol) in *.
    rewrite Hrest by done. by rewrite list_insert_id.
  - rewrite (run_getitem _ _ _ _ _ Hdf).
    destruct (column df "LapTime") as [lap_time | e] eqn:Hlap;
      [| by rewrite (with_seconds_failed _ e Hcol) in Hws by (by rewrite Hlap);
            rewrite Hcol in Hws].
    rewrite run_lift.
    destruct (total_seconds lap_time) as [secs | e] eqn:Hsecs;
      [| by rewrite (with_seconds_failed _ e Hcol) in Hws by (by rewrite Hlap);
            rewrite Hcol in Hws].
    rewrite (with_seconds_added _ _ _ Hcol Hlap Hsecs) in *.
    unfold setitem_series. rewrite (run_load _ _ _ _ Hdf), run_lift.
    unfold set_series, add_label. unfold has_column in Hcol. rewrite Hcol.
    rewrite bool_decide_eq_true_2
      by (by rewrite (total_seconds_length _ _ Hsecs), (column_length _ _ _ Hlap)).
    set (df' := {| columns := _; rows := _ |}) in *.
    set (w1 := (store driver_laps df' w).2). change (store driver_laps df' w) with (Ok (), w1).
    cbv beta iota. rewrite Hrest; [done |]. by eapply store_lookup.
Qed.

Lemma lap_time_distributions_drawn_witness :
  has_column (with_seconds (laps durations [1; 2])) "LapTime (s)" = true
  ∧ plot_lap_time_distributions accepting 0%nat ["A"] ∅ ∅ (Some "Laps") 4 (10, 5)
      {| heap := [laps durations [1; 2]]; canvas := [] |}
    = (Ok (),
       {| heap := [with_seconds (laps durations [1; 2])];
          canvas :=
            [Subplots (10, 5);
             Violinplot (with_seconds (laps durations [1; 2])) "Driver" "LapTime (s)"
               "Driver" ["A"] ∅;
             Swarmplot (with_seconds (laps durations [1; 2])) "Driver" "LapTime (s)"
               ["A"] "Compound" ∅ ["SOFT"; "MEDIUM"; "HARD"] 4;
             SetXLabel "Driver"; SetYLabel "Lap Time (s)"; Suptitle "Laps";
             Despine; TightLayout; ShowFigure] |}).
Proof.
  split; [vm_compute; reflexivity |].
  apply (lap_time_distributions_drawn accepting 0%nat ["A"] ∅ ∅ (Some "Laps") 4 (10, 5)
           {| heap := [laps durations [1; 2]]; canvas := [] |} (laps durations [1; 2])).
  - reflexivity.
  - reflexivity.
  - vm_compute; reflexivity.
Defined.

(** X9: when the call adds the seconds column, the frame keeps its rows: row
    by row the new cell is the total seconds of the row's lap time, null for
    a null lap time, and every other cell is as it was. *)
Theorem lap_time_seconds_by_row backend driver_laps finishing_order driver_colors
    compound_colors title marker_size figsize w df lap_time secs :
  heap w !! driver_laps = Some df →
  has_column df "LapTime (s)" = false →
  column df "LapTime" = Ok lap_time →
  total_seconds lap_time = Ok secs →
  ∃ df',
    heap (plot_lap_time_distributions backend driver_laps finishing_order driver_colors
            compound_colors title marker_size figsize w).2 !! driver_laps = Some df'
    ∧ length (rows df') = length (rows df)
    ∧ ∀ (i : nat) (r : row),
        rows df !! i = Some r →
        ∃ r' : row,
          rows df' !! i = Some r'
          ∧ r' !! "LapTime (s)"
            = match r !! "LapTime" with
              | Some (Timedelta ns) => Some (Seconds ns)
              | _ => None
              end
          ∧ ∀ c : string, c ≠ "LapTime (s)" → r' !! c = r !! c.
Proof.
  intros Hdf Hcol Hlap Hsecs.
  destruct (plot_lap_time_distributions_frame backend driver_laps finishing_order
              driver_colors compound_colors title marker_size figsize w df Hdf)
    as [H1 _].
  rewrite (with_seconds_added _ _ _ Hcol Hlap Hsecs) in H1.
  eexists. split; [exact H1 |]. cbn [rows].
  pose proof (total_seconds_length _ _ Hsecs) as Hlen1.
  pose proof (column_length _ _ _ Hlap) as Hlen2.
  split; [rewrite length_zip_with; lia |].
  intros i r Hr.
  assert (Hcell : lap_time !! i = Some (r !! "LapTime")).
  { unfold column in Hlap. destruct (has_column df "LapTime"); [| done].
    injection Hlap as <-. by rewrite list_lookup_fmap, Hr. }
  destruct (total_seconds_lookup _ _ _ _ Hsecs Hcell) as [Hsec _].
  exists (set_cell "LapTime (s)"
            match r !! "LapTime" with
            | Some (Timedelta ns) => Some (Seconds ns)
            | _ => None
            end r).
  split; [by rewrite lookup_zip_with, Hsec, Hr |].
  split.
  - destruct (r !! "LapTime") as [[] |]; simpl;
      (apply lookup_insert_eq || apply lookup_delete_eq).
  - intros c Hc. destruct (r !! "LapTime") as [[] |]; simpl;
      (by rewrite lookup_insert_ne || by rewrite lookup_delete_ne).
Qed.

Lemma lap_time_seconds_by_row_witness :
  ∃ df',
    heap (plot_lap_time_distributions accepting 0%nat ["A"] ∅ ∅ None 4 (10, 5)
            {| heap := [laps durations [1; 2]]; canvas := [] |}).2 !! 0%nat = Some df'
    ∧ length (rows df') = length (rows (laps durations [1; 2]))
    ∧ ∀ (i : nat) (r : row),
        rows (laps durations [1; 2]) !! i = Some r →
        ∃ r' : row,
          rows df' !! i = Some r'
          ∧ r' !! "LapTime (s)"
            = match r !! "LapTime" with
              | Some (Timedelta ns) => Some (Seconds ns)
              | _ => None
              end
          ∧ ∀ c : string, c ≠ "LapTime (s)" → r' !! c = r !! c.
Proof.
  apply (lap_time_seconds_by_row accepting 0%nat ["A"] ∅ ∅ None 4 (10, 5)
           {| heap := [laps durations [1; 2]]; canvas := [] |} (laps durations [1; 2])
           [Some (Timedelta (durations 1)); Some (Timedelta (durations 2))]
           [Some (Seconds (durations 1)); Some (Seconds (durations 2))]).
  - reflexivity.
  - reflexivity.
  - vm_compute; reflexivity.
  - vm_compute; reflexivity.
Defined.

(** * The other charts *)

(** ** Running a chart computation *)

Lemma plt_run_bind {A B : Type} (m : plt A) (k : A → plt B) s :
  (m ≫= k) s = match m s with
               | (Ok a, s') => k a s'
               | (Raise e, s') => (Raise e, s')
               end.
Proof. reflexivity. Qed.

Lemma call_accepted renderer c {B : Type} (k : unit → plt B) w cs :
  renderer c = None →
  (call renderer c ≫= k) {| stage := w; charts := cs |}
  = k () {| stage := w; charts := cs ++ [c] |}.
Proof. intros H. rewrite plt_run_bind. unfold call. by rewrite H. Qed.

Lemma call_accepted_last renderer c w cs :
  renderer c = None →
  call renderer c {| stage := w; charts := cs |}
  = (Ok (), {| stage := w; charts := cs ++ [c] |}).
Proof. intros H. unfold call. by rewrite H. Qed.

Lemma value_run {A B : Type} (r : result A) (k : A → plt B) s :
  (value r ≫= k) s = match r with
                     | Ok a => k a s
                     | Raise e => (Raise e, s)
                     end.
Proof. rewrite plt_run_bind. unfold value. by destruct r. Qed.

Lemma on_stage_load {B : Type} l (k : DataFrame → plt B) w cs df :
  heap w !! l = Some df →
  (on_stage (load l) ≫= k) {| stage := w; charts := cs |}
  = k df {| stage := w; charts := cs |}.
Proof. intros H. rewrite plt_run_bind. unfold on_stage, load. simpl. by rewrite H. Qed.

Lemma on_stage_getitem {B : Type} l c (k : series → plt B) w cs df :
  heap w !! l = Some df →
  (on_stage (getitem l c) ≫= k) {| stage := w; charts := cs |}
  = match column df c with
    | Ok s => k s {| stage := w; charts := cs |}
    | Raise e => (Raise e, {| stage := w; charts := cs |})
    end.
Proof.
  intros H. rewrite plt_run_bind. unfold on_stage, getitem. simpl.
  rewrite run_bind. unfold load. rewrite H. unfold lift. by destruct (column df c).
Qed.

(** ** Computations that leave the frames alone *)

Lemma quiet_ret {A : Type} (a : A) : quiet (mret a).
Proof. by intros s. Qed.

Lemma quiet_bind {A B : Type} (m : plt A) (k : A → plt B) :
  quiet m → (∀ a, quiet (k a)) → quiet (m ≫= k).
Proof.
  intros Hm Hk s. rewrite plt_run_bind. specialize (Hm s).
  destruct (m s) as [[a | e] s']; simpl in *; [| done]. by rewrite Hk.
Qed.

Lemma quiet_call renderer c : quiet (call renderer c).
Proof. intros s. unfold call. by destruct (renderer c). Qed.

Lemma quiet_value {A : Type} (r : result A) : quiet (value r).
Proof. by intros s. Qed.

Lemma quiet_legend legend_entries : quiet (get_legend_labels legend_entries).
Proof. by intros s. Qed.

Lemma quiet_load l : quiet (on_stage (load l)).
Proof. intros s. unfold on_stage, load. by destruct (heap (stage s) !! l). Qed.

Lemma quiet_getitem l c : quiet (on_stage (getitem l c)).
Proof.
  intros s. unfold on_stage, getitem. rewrite run_bind. unfold load.
  destruct (heap (stage s) !! l) as [df |]; [| done]. unfold lift.
  by destruct (column df c).
Qed.

Lemma quiet_mapM {A B : Type} (f : A → plt B) (l : list A) :
  (∀ x, quiet (f x)) → quiet (mapM f l).
Proof.
  intros Hf. induction l as [| x l IH]; [apply quiet_ret |].
  change (mapM f (x :: l)) with (y ← f x; k ← mapM f l; mret (y :: k)).
  apply quiet_bind; [done |]. intros y. apply quiet_bind; [done |].
  intros k. apply quiet_ret.
Qed.

Ltac quiet_step :=
  first [ apply quiet_call | apply quiet_value | apply quiet_load | apply quiet_getitem
        | apply quiet_legend | apply quiet_ret ].

Ltac solve_quiet := repeat (apply quiet_bind; [quiet_step | intros ?]); quiet_step.

(** ** plot_driver_laps *)

(** X10: an exception of prepare_driver_laps is the exception of
    plot_driver_laps, and no chart call has been made when it is raised; in
    particular an empty list of drivers raises before a figure exists. *)
Theorem plot_driver_laps_raises_first renderer legend_entries session drivers stints
    title w cs e :
  (prepare_driver_laps session drivers stints w).1 = Raise e →
  plot_driver_laps renderer legend_entries session drivers stints title
    {| stage := w; charts := cs |}
  = (Raise e,
     {| stage := (prepare_driver_laps session drivers stints w).2; charts := cs |}).
Proof.
  intros H. unfold plot_driver_laps. rewrite plt_run_bind. unfold on_stage. simpl.
  destruct (prepare_driver_laps session drivers stints w) as [r w']. simpl in *.
  by rewrite H.
Qed.

Lemma plot_driver_laps_raises_first_witness :
  plot_driver_laps approving line_labels (scenario_session durations) [] 0%nat "Laps"
    {| stage := scenario_world; charts := [] |}
  = (Raise (ValueError "No objects to concatenate"),
     {| stage := scenario_world; charts := [] |}).
Proof.
  apply (plot_driver_laps_raises_first approving line_labels (scenario_session durations)
           [] 0%nat "Laps" scenario_world [] (ValueError "No objects to concatenate")).
  reflexivity.
Defined.

(** X11: on well-formed input for at least one driver, with charting
    libraries that accept every call, plot_driver_laps returns; the line plot
    is drawn from the frame prepare_driver_laps returns, which holds the laps
    of the source in order, and the calls made are the figure, the line plot,
    the title, the axis label, the inverted axis, the legend and the
    display. *)
Theorem plot_driver_laps_draws renderer legend_entries session drivers stints title
    w cs sdf :
  (∀ c, renderer c = None) →
  heap w !! stints = Some sdf →
  input_ok session drivers sdf = true →
  drivers ≠ [] →
  ∃ l w' df,
    prepare_driver_laps session drivers stints w = (Ok l, w')
    ∧ heap w' !! l = Some df
    ∧ Forall2 (λ (lap : string * row) (r' : row), same_lap lap.1 lap.2 r')
        (source_laps session drivers) (rows df)
    ∧ let drawn :=
        cs ++ [NewFigure 1 1 (Decimal 14 0, Decimal 10 0) false;
               LinePlot df "LapNumber" "LapTime" "Driver" "Stint" "tab10" 2;
               SetLabel 0 "title" (Some title);
               SetLabel 0 "ylabel" (Some "Lap Time (s)");
               InvertY] in
      plot_driver_laps renderer legend_entries session drivers stints title
        {| stage := w; charts := cs |}
      = (Ok (),
         {| stage := w';
            charts :=
              drawn ++ [AddLegend 0 (Some (legend_entries drawn))
                          (Some "Driver and Stint") (Some "upper right") None;
                        Display] |}).
Proof.
  intros Hacc Hs Hok Hne.
  destruct (prepare_driver_laps_returns session drivers stints w sdf Hs Hok Hne)
    as (l & w' & df & Hrun & Hl & Hrows).
  exists l, w', df. split; [done |]. split; [done |]. split.
  { destruct (prepare_driver_laps_inv _ _ _ _ _ _ _ Hs Hrun) as (df0 & Hdf0 & Hl0).
    rewrite Hl in Hl0. injection Hl0 as <-. by eapply combined_frame_shape. }
  intros drawn. subst drawn. unfold plot_driver_laps.
  rewrite plt_run_bind. unfold on_stage at 1. cbn [stage charts]. rewrite Hrun.
  rewrite call_accepted by done. rewrite (on_stage_load _ _ _ _ _ Hl).
  rewrite !call_accepted by done. rewrite plt_run_bind.
  unfold get_legend_labels at 1. cbn [charts].
  rewrite call_accepted by done. rewrite call_accepted_last by done.
  by rewrite <- !app_assoc.
Qed.

Lemma plot_driver_laps_draws_witness :
  ∃ l w' df,
    prepare_driver_laps (scenario_session durations) ["A"; "B"] 0%nat scenario_world
    = (Ok l, w')
    ∧ heap w' !! l = Some df
    ∧ Forall2 (λ (lap : string * row) (r' : row), same_lap lap.1 lap.2 r')
        (source_laps (scenario_session durations) ["A"; "B"]) (rows df)
    ∧ let drawn :=
        [] ++ [NewFigure 1 1 (Decimal 14 0, Decimal 10 0) false;
               LinePlot df "LapNumber" "LapTime" "Driver" "Stint" "tab10" 2;
               SetLabel 0 "title" (Some "Laps");
               SetLabel 0 "ylabel" (Some "Lap Time (s)");
               InvertY] in
      plot_driver_laps approving line_labels (scenario_session durations) ["A"; "B"]
        0%nat "Laps" {| stage := scenario_world; charts := [] |}
      = (Ok (),
         {| stage := w';
            charts :=
              drawn ++ [AddLegend 0 (Some (line_labels drawn))
                          (Some "Driver and Stint") (Some "upper right") None;
                        Display] |}).
Proof.
  apply (plot_driver_laps_draws approving line_labels (scenario_session durations)
           ["A"; "B"] 0%nat "Laps" scenario_world [] scenario_stints).
  - reflexivity.
  - reflexivity.
  - vm_compute; reflexivity.
  - discriminate.
Defined.

(** X12: whatever its outcome, plot_driver_laps touches no frame that existed
    before the call: the stints frame and every other frame of the caller
    are as they were. *)
Theorem plot_driver_laps_keeps_frames renderer legend_entries session drivers stints
    title w cs (l : nat) :
  (l < length (heap w))%nat →
  heap (stage (plot_driver_laps renderer legend_entries session drivers stints title
                 {| stage := w; charts := cs |}).2) !! l
  = heap w !! l.
Proof.
  intros Hl. unfold plot_driver_laps. rewrite plt_run_bind. unfold on_stage at 1.
  cbn [stage charts].
  destruct (keeps_prepare_driver_laps (length (heap w)) session drivers stints w)
    as [Hkept _]; [done |].
  destruct (prepare_driver_laps session drivers stints w) as [[l' | e] w'];
    cbn [fst snd] in *; [| by eapply kept_lookup].
  match goal with
  | |- heap (stage (?m ?s).2) !! _ = _ => assert (Hq : quiet m) by solve_quiet;
                                          rewrite (Hq s)
  end.
  by eapply kept_lookup.
Qed.

Lemma plot_driver_laps_keeps_frames_witness :
  heap (stage (plot_driver_laps approving line_labels (scenario_session durations)
                 ["A"; "B"] 0%nat "Laps"
                 {| stage := scenario_world; charts := [] |}).2) !! 0%nat
  = Some scenario_stints.
Proof.
  apply (plot_driver_laps_keeps_frames approving line_labels (scenario_session durations)
           ["A"; "B"] 0%nat "Laps" scenario_world [] 0%nat).
  simpl. lia.
Defined.

(** ** plot_tyre_strategy *)

Lemma select_mask_filter (key : row → option cell) (c : cell) (rs : list row) :
  snd <$> filter (λ mr : bool * row, mr.1 = true)
            (zip ((λ r, bool_decide (key r = Some c)) <$> rs) rs)
  = filter (λ r, key r = Some c) rs.
Proof.
  induction rs as [| r rs IH]; [done |]. cbn [fmap list_fmap zip zip_with].
  rewrite !filter_cons. cbn [fst]. case_bool_decide as Hk.
  - rewrite decide_True by done. rewrite decide_True by done.
    cbn [fmap list_fmap snd]. f_equal. exact IH.
  - rewrite decide_False by done. rewrite decide_False by done. exact IH.
Qed.

Lemma selected_driver_rows df c :
  snd <$> filter (λ mr : bool * row, mr.1 = true)
            (zip (series_eq ((λ r : row, r !! "Driver") <$> rows df) c) (rows df))
  = driver_rows df c.
Proof.
  unfold series_eq, driver_rows.
  rewrite <- list_fmap_compose. apply (select_mask_filter (λ r, r !! "Driver")).
Qed.

Lemma select_rows_driver df c :
  rows (select_rows df (series_eq ((λ r : row, r !! "Driver") <$> rows df) c))
  = driver_rows df c.
Proof. apply selected_driver_rows. Qed.

(** The stint lengths of a driver are the lengths of the driver's rows. *)
Lemma stint_lengths_rows stints driver ls :
  stint_lengths_of stints driver = Some ls →
  has_column stints "Driver" = true
  ∧ has_column stints "StintLength" = true
  ∧ Forall2 (λ (r : row) L, r !! "StintLength" = Some (Int L))
      (driver_rows stints (Str driver)) ls.
Proof.
  unfold stint_lengths_of.
  destruct (driver_stint_lengths stints driver) as [s | e] eqn:E; [| done].
  unfold driver_stint_lengths, column in E.
  destruct (has_column stints "Driver") eqn:Hd; [| done].
  unfold mbind, result_bind in E. cbv beta iota zeta in E.
  rewrite has_column_select_rows in E.
  destruct (has_column stints "StintLength") eqn:Hl; [| done].
  injection E as <-. rewrite selected_driver_rows.
  intros Hint%int_cells_Some. split; [done |]. split; [done |].
  unfold int_series in Hint.
  apply list_eq_Forall2 in Hint. by rewrite Forall2_fmap in Hint.
Qed.

Lemma stint_bars_run renderer driver compound_colors driver_stints w (rs : list row) ls :
  (∀ c, renderer c = None) →
  has_column driver_stints "StintLength" = true →
  has_column driver_stints "Compound" = true →
  Forall2 (λ (r : row) L, r !! "StintLength" = Some (Int L)) rs ls →
  ∀ previous_stint_end cs,
    stint_bars renderer driver compound_colors driver_stints (Some previous_stint_end) rs
      {| stage := w; charts := cs |}
    = (Ok (),
       {| stage := w;
          charts :=
            cs ++ zip_with
                    (λ (range : Z * Z) (r : row),
                       BarH driver (Some (Int (range.2 - range.1 + 1)))
                         (Some (range.1 - 1))
                         (dict_get compound_colors (r !! "Compound") "gray"))
                    (stint_ranges (previous_stint_end + 1) ls) rs |}).
Proof.
  intros Hacc Hlen Hcomp. induction 1 as [| r L rs ls Hr _ IH]; intros left cs.
  - simpl. unfold mret, plt_ret. by rewrite app_nil_r.
  - cbn [stint_bars stint_ranges zip_with]. unfold item. rewrite Hlen, Hcomp.
    rewrite !value_run. rewrite call_accepted by done. rewrite !value_run.
    rewrite Hr. cbn [number num_add]. rewrite IH.
    replace (left + 1 + L - 1 + 1) with (left + L + 1) by lia.
    cbn [fst snd].
    replace (left + 1 + L - 1 - (left + 1) + 1) with L by lia.
    replace (left + 1 - 1) with left by lia.
    by rewrite <- app_assoc.
Qed.

Lemma strategy_bars_run renderer stints compound_colors w sdf drivers :
  (∀ c, renderer c = None) →
  heap w !! stints = Some sdf →
  has_column sdf "Compound" = true →
  Forall (λ d, is_Some (stint_lengths_of sdf d)) drivers →
  ∀ cs,
    strategy_bars renderer stints compound_colors drivers {| stage := w; charts := cs |}
    = (Ok (),
       {| stage := w; charts := cs ++ (drivers ≫= tyre_bars sdf compound_colors) |}).
Proof.
  intros Hacc Hs Hcomp. induction 1 as [| d rest [ls Hls] _ IH]; intros cs.
  - simpl. unfold mret, plt_ret. by rewrite app_nil_r.
  - destruct (stint_lengths_rows _ _ _ Hls) as (Hd & Hl & Hrows).
    cbn [strategy_bars]. rewrite (on_stage_getitem _ _ _ _ _ _ Hs). unfold column.
    rewrite Hd. rewrite (on_stage_load _ _ _ _ _ Hs). rewrite plt_run_bind.
    rewrite select_rows_driver.
    rewrite (stint_bars_run renderer d compound_colors _ w _ ls Hacc); try done.
    rewrite IH. rewrite bind_cons, app_assoc. unfold tyre_bars. by rewrite Hls.
Qed.

(** X13: with charting libraries that accept every call, a stints frame with
    a compound column and integer stint lengths for the drivers asked for,
    plot_tyre_strategy returns, leaves the frames alone and draws, driver by
    driver and stint by stint, one bar per stint record: the bar of the stint
    that the stint loop of prepare_driver_laps gives the laps [a..b] starts
    at [a - 1] and is [b - a + 1] wide, in the colour of the stint's compound
    or gray. *)
Theorem tyre_strategy_bars renderer drivers stints driver_colors compound_colors title
    figsize w cs sdf :
  (∀ c, renderer c = None) →
  heap w !! stints = Some sdf →
  has_column sdf "Compound" = true →
  Forall (λ d, is_Some (stint_lengths_of sdf d)) drivers →
  plot_tyre_strategy renderer drivers stints driver_colors compound_colors title figsize
    {| stage := w; charts := cs |}
  = (Ok (),
     {| stage := w;
        charts :=
          cs ++ NewFigure 1 1 figsize false
                :: (drivers ≫= tyre_bars sdf compound_colors) ++ tyre_finish title |}).
Proof.
  intros Hacc Hs Hcomp Hls. unfold plot_tyre_strategy.
  rewrite call_accepted by done. rewrite plt_run_bind.
  rewrite (strategy_bars_run _ _ _ _ sdf) by done.
  rewrite !call_accepted by done. rewrite call_accepted_last by done.
  unfold tyre_finish. rewrite <- !app_assoc. reflexivity.
Qed.

Lemma tyre_strategy_bars_witness :
  plot_tyre_strategy approving ["A"; "B"] 0%nat ∅ {[ "SOFT" := "red"; "HARD" := "white" ]}
    "Tyre Strategy" (Decimal 10 0, Decimal 5 0)
    {| stage := {| heap := [compound_stints]; canvas := [] |}; charts := [] |}
  = (Ok (),
     {| stage := {| heap := [compound_stints]; canvas := [] |};
        charts :=
          [NewFigure 1 1 (Decimal 10 0, Decimal 5 0) false;
           BarH "A" (Some (Int 3)) (Some 0) "red";
           BarH "A" (Some (Int 2)) (Some 3) "white";
           BarH "B" (Some (Int 3)) (Some 0) "gray"]
          ++ tyre_finish "Tyre Strategy" |}).
Proof.
  etrans.
  - apply (tyre_strategy_bars approving ["A"; "B"] 0%nat ∅
             {[ "SOFT" := "red"; "HARD" := "white" ]} "Tyre Strategy"
             (Decimal 10 0, Decimal 5 0) {| heap := [compound_stints]; canvas := [] |} []
             compound_stints).
    + reflexivity.
    + reflexivity.
    + reflexivity.
    + repeat constructor; vm_compute; eexists; reflexivity.
  - vm_compute; reflexivity.
Defined.

(** X14: with charting libraries that accept every call, plot_tyre_strategy
    with no drivers never looks at the stints: it returns and draws an empty
    chart; with a driver and a stints frame without the column "Driver" it
    raises KeyError once the figure exists. *)
Theorem tyre_strategy_edges renderer stints driver_colors compound_colors title
    figsize w cs :
  (∀ c, renderer c = None) →
  plot_tyre_strategy renderer [] stints driver_colors compound_colors title figsize
    {| stage := w; charts := cs |}
  = (Ok (),
     {| stage := w; charts := cs ++ NewFigure 1 1 figsize false :: tyre_finish title |})
  ∧ ∀ d rest sdf,
      heap w !! stints = Some sdf →
      has_column sdf "Driver" = false →
      plot_tyre_strategy renderer (d :: rest) stints driver_colors compound_colors title
        figsize {| stage := w; charts := cs |}
      = (Raise (KeyError "Driver"),
         {| stage := w; charts := cs ++ [NewFigure 1 1 figsize false] |}).
Proof.
  intros Hacc. split.
  - unfold plot_tyre_strategy. rewrite call_accepted by done. rewrite plt_run_bind.
    cbn [strategy_bars]. unfold mret at 1, plt_ret at 1.
    rewrite !call_accepted by done. rewrite call_accepted_last by done.
    unfold tyre_finish. rewrite <- !app_assoc. reflexivity.
  - intros d rest sdf Hs Hd. unfold plot_tyre_strategy.
    rewrite call_accepted by done. rewrite plt_run_bind. cbn [strategy_bars].
    rewrite (on_stage_getitem _ _ _ _ _ _ Hs). unfold column. by rewrite Hd.
Qed.

Lemma tyre_strategy_edges_witness :
  plot_tyre_strategy approving [] 0%nat ∅ ∅ "Tyre Strategy" (Decimal 10 0, Decimal 5 0)
    {| stage := {| heap := [race_positions]; canvas := [] |}; charts := [] |}
  = (Ok (),
     {| stage := {| heap := [race_positions]; canvas := [] |};
        charts := NewFigure 1 1 (Decimal 10 0, Decimal 5 0) false
                  :: tyre_finish "Tyre Strategy" |})
  ∧ plot_tyre_strategy approving ["A"] 0%nat ∅ ∅ "Tyre Strategy"
      (Decimal 10 0, Decimal 5 0)
      {| stage := {| heap := [laps durations [1; 2]]; canvas := [] |}; charts := [] |}
    = (Raise (KeyError "Driver"),
       {| stage := {| heap := [laps durations [1; 2]]; canvas := [] |};
          charts := [NewFigure 1 1 (Decimal 10 0, Decimal 5 0) false] |}).
Proof.
  split.
  - apply (proj1 (tyre_strategy_edges approving 0%nat ∅ ∅ "Tyre Strategy"
                    (Decimal 10 0, Decimal 5 0)
                    {| heap := [race_positions]; canvas := [] |} [] (λ _, eq_refl))).
  - apply (proj2 (tyre_strategy_edges approving 0%nat ∅ ∅ "Tyre Strategy"
                    (Decimal 10 0, Decimal 5 0)
                    {| heap := [laps durations [1; 2]]; canvas := [] |} []
                    (λ _, eq_refl)) "A" [] (laps durations [1; 2]));
      reflexivity.
Defined.

(** ** plot_driver_positions *)

Ltac flatten := repeat (rewrite <- app_assoc || rewrite <- app_comm_cons || cbn [app]).

Lemma ret_run {A B : Type} (a : A) (k : A → plt B) s : (mret a ≫= k) s = k a s.
Proof. reflexivity. Qed.

Lemma unique_from_elem seen s x : x ∈ unique_from seen s ↔ x ∈ s ∧ x ∉ seen.
Proof.
  revert seen. induction s as [| v s IH]; intros seen; simpl.
  - split; [by intros ?%elem_of_nil | by intros [?%elem_of_nil _]].
  - case_bool_decide as Hv.
    + rewrite IH, elem_of_cons. split; [tauto |]. intros [[-> | ?] ?]; tauto.
    + rewrite !elem_of_cons, IH, elem_of_cons. split.
      * intros [-> | [? ?]]; tauto.
      * intros [[-> | ?] ?]; [tauto |]. destruct (decide (x = v)); tauto.
Qed.

Lemma unique_from_NoDup seen s : NoDup (unique_from seen s).
Proof.
  revert seen. induction s as [| v s IH]; intros seen; simpl; [constructor |].
  case_bool_decide as Hv; [done |]. constructor; [| done].
  rewrite unique_from_elem, elem_of_cons. tauto.
Qed.

Lemma named_drivers_elem df c :
  c ∈ named_drivers df ↔ ∃ r : row, r ∈ rows df ∧ r !! "Driver" = Some c.
Proof.
  unfold named_drivers, unique. rewrite list_elem_of_omap. split.
  - intros (v & Hv & Hc). simpl in Hc. subst v.
    apply unique_from_elem in Hv as [Hv _].
    apply list_elem_of_fmap in Hv as (r & Hr & Hin). by exists r.
  - intros (r & Hr & Hc). exists (Some c). split; [| done].
    apply unique_from_elem. split; [| by intros ?%elem_of_nil].
    apply list_elem_of_fmap. by exists r.
Qed.

Lemma NoDup_omap_id (l : list (option cell)) : NoDup l → NoDup (omap id l).
Proof.
  induction 1 as [| v l Hv _ IH]; [constructor |]. destruct v as [c |]; simpl; [| done].
  constructor; [| done]. rewrite list_elem_of_omap. intros (v & Hin & Hc).
  simpl in Hc. by subst v.
Qed.

Lemma named_drivers_NoDup df : NoDup (named_drivers df).
Proof. apply NoDup_omap_id, unique_from_NoDup. Qed.

Lemma driver_rows_named df c : c ∈ named_drivers df → driver_rows df c ≠ [].
Proof.
  intros (r & Hr & Hc)%named_drivers_elem Hnil.
  assert (r ∈ driver_rows df c) as Hin by (by apply list_elem_of_filter).
  rewrite Hnil in Hin. by apply elem_of_nil in Hin.
Qed.

Lemma select_none (rs : list row) (s : series) :
  snd <$> filter (λ mr : bool * row, mr.1 = true) (zip ((λ _, false) <$> s) rs) = [].
Proof.
  revert rs. induction s as [| v s IH]; intros [| r rs]; try done.
  cbn [fmap list_fmap zip zip_with]. rewrite filter_cons_False by done. apply IH.
Qed.

Lemma position_lines_run renderer lap_data driver_colors w df :
  (∀ c, renderer c = None) →
  heap w !! lap_data = Some df →
  has_column df "Driver" = true →
  has_column df "LapNumber" = true →
  has_column df "Position" = true →
  ∀ (drivers : series) cs,
    (∀ c, Some c ∈ drivers → driver_rows df c ≠ []) →
    position_lines renderer lap_data driver_colors drivers {| stage := w; charts := cs |}
    = (Ok (),
       {| stage := w;
          charts := cs ++ (position_line df driver_colors <$> omap id drivers) |}).
Proof.
  intros Hacc Hdf Hd Hlap Hpos drivers.
  induction drivers as [| v rest IH]; intros cs Hrows.
  - simpl. unfold mret, plt_ret. by rewrite app_nil_r.
  - cbn [position_lines]. rewrite (on_stage_getitem _ _ _ _ _ _ Hdf). unfold column at 1.
    rewrite Hd. rewrite (on_stage_load _ _ _ _ _ Hdf). rewrite plt_run_bind.
    assert (Hrest : ∀ c, Some c ∈ rest → driver_rows df c ≠ [])
      by (intros c Hc; apply Hrows; by right).
    destruct v as [c |].
    + unfold empty, select_rows, series_is. cbn [rows columns].
      rewrite selected_driver_rows.
      rewrite (bool_decide_eq_false_2 (driver_rows df c = [])) by (apply Hrows; by left).
      rewrite (bool_decide_eq_false_2 (columns df = [])).
      2:{ intros Hnil. unfold has_column in Hd. rewrite Hnil in Hd.
          apply bool_decide_eq_true in Hd. by apply elem_of_nil in Hd. }
      cbn [orb]. unfold column, has_column. cbn [rows columns].
      unfold has_column in Hlap, Hpos. rewrite Hlap, Hpos.
      rewrite !value_run. rewrite call_accepted_last by done.
      rewrite IH by done. cbn [omap list_omap fmap list_fmap id].
      by rewrite <- app_assoc.
    + unfold empty, select_rows, series_is. cbn [rows columns].
      rewrite select_none. rewrite bool_decide_eq_true_2 by done. cbn [orb].
      unfold mret at 1, plt_ret at 1. rewrite IH by done. done.
Qed.

(** One run of plot_driver_positions on a frame with its three columns. *)
Lemma plot_driver_positions_run renderer legend_entries lap_data driver_colors title
    figsize w cs df :
  (∀ c, renderer c = None) →
  heap w !! lap_data = Some df →
  has_column df "Driver" = true →
  has_column df "LapNumber" = true →
  has_column df "Position" = true →
  plot_driver_positions renderer legend_entries lap_data driver_colors title figsize
    {| stage := w; charts := cs |}
  = (Ok (),
     {| stage := w;
        charts :=
          positions_finish legend_entries title
            (cs ++ NewFigure 1 1 figsize false
                   :: (position_line df driver_colors <$> named_drivers df)) |}).
Proof.
  intros Hacc Hdf Hd Hlap Hpos. unfold plot_driver_positions.
  rewrite call_accepted by done. rewrite (on_stage_getitem _ _ _ _ _ _ Hdf).
  unfold column at 1. rewrite Hd. rewrite plt_run_bind.
  rewrite (position_lines_run renderer lap_data driver_colors w df) by
    (try done; intros c Hc; apply driver_rows_named; unfold named_drivers;
     apply list_elem_of_omap; by exists (Some c)).
  rewrite !call_accepted by done. rewrite plt_run_bind.
  unfold get_legend_labels at 1. cbn [charts]. unfold positions_finish.
  fold (named_drivers df). rewrite <- !app_assoc. cbn [app].
  case_bool_decide as Hlabels.
  - rewrite ret_run. rewrite !call_accepted by done.
    rewrite call_accepted_last by done. by flatten.
  - rewrite !call_accepted by done. rewrite call_accepted_last by done.
    by flatten.
Qed.

(** X15: with charting libraries that accept every call and a frame with the
    columns "Driver", "LapNumber" and "Position", plot_driver_positions
    returns, leaves the frames alone and draws one line per driver named in
    the frame, in order of first appearance: the lap numbers and positions of
    that driver's rows in row order, labelled with the driver, in the
    driver's colour or black.  Rows without a driver are on no line. *)
Theorem driver_positions_lines renderer legend_entries lap_data driver_colors title
    figsize w cs df :
  (∀ c, renderer c = None) →
  heap w !! lap_data = Some df →
  has_column df "Driver" = true →
  has_column df "LapNumber" = true →
  has_column df "Position" = true →
  plot_driver_positions renderer legend_entries lap_data driver_colors title figsize
    {| stage := w; charts := cs |}
  = (Ok (),
     {| stage := w;
        charts :=
          positions_finish legend_entries title
            (cs ++ NewFigure 1 1 figsize false
                   :: (position_line df driver_colors <$> named_drivers df)) |}).
Proof. apply plot_driver_positions_run. Qed.

Lemma driver_positions_lines_witness :
  plot_driver_positions approving line_labels 0%nat {[ "A" := "red" ]}
    "Race Position Changes" (Decimal 80 1, Decimal 49 1)
    {| stage := {| heap := [race_positions]; canvas := [] |}; charts := [] |}
  = (Ok (),
     {| stage := {| heap := [race_positions]; canvas := [] |};
        charts :=
          positions_finish line_labels "Race Position Changes"
            [NewFigure 1 1 (Decimal 80 1, Decimal 49 1) false;
             PlotLine 0 [Some (Int 1); Some (Int 2)] [Some (Int 1); Some (Int 2)]
               (Some (Str "A")) "red";
             PlotLine 0 [Some (Int 1); Some (Int 2)] [Some (Int 2); Some (Int 1)]
               (Some (Str "B")) "black"] |}).
Proof.
  etrans.
  - apply (driver_positions_lines approving line_labels 0%nat {[ "A" := "red" ]}
             "Race Position Changes" (Decimal 80 1, Decimal 49 1)
             {| heap := [race_positions]; canvas := [] |} [] race_positions);
      reflexivity.
  - vm_compute; reflexivity.
Defined.

Lemma count_by_driver (rs : list row) (ds : list cell) :
  NoDup ds →
  (∀ (r : row) c, r ∈ rs → r !! "Driver" = Some c → c ∈ ds) →
  sum_list ((λ d, length (filter (λ r : row, r !! "Driver" = Some d) rs)) <$> ds)
  = length (filter (λ r : row, is_Some (r !! "Driver")) rs).
Proof.
  intros Hnd. induction rs as [| r rs IH]; intros Hcover.
  - clear. induction ds as [| d ds IHd]; [done |]. exact IHd.
  - assert (Hrs : ∀ (r0 : row) c, r0 ∈ rs → r0 !! "Driver" = Some c → c ∈ ds)
      by (intros r0 c ?; apply Hcover; by right).
    specialize (IH Hrs). destruct (r !! "Driver") as [c |] eqn:Hc.
    + rewrite (filter_cons_True (λ r : row, is_Some (r !! "Driver"))) by (by rewrite Hc).
      simpl. rewrite <- IH.
      assert (Hin : c ∈ ds) by (eapply Hcover; [by left | done]).
      clear IH Hcover Hrs. induction ds as [| d ds IHd]; [by apply elem_of_nil in Hin |].
      apply NoDup_cons in Hnd as [Hd Hnd]. cbn [fmap list_fmap sum_list sum_list_with].
      destruct (decide (d = c)) as [-> | Hne].
      * rewrite (filter_cons_True (λ r0 : row, r0 !! "Driver" = Some c)) by done.
        simpl. do 3 f_equal. apply list_fmap_ext. intros i d Hi.
        rewrite filter_cons_False; [done |]. rewrite Hc. intros [= ->].
        by apply list_elem_of_lookup_2 in Hi.
      * rewrite (filter_cons_False (λ r0 : row, r0 !! "Driver" = Some d))
          by (rewrite Hc; by intros [= ->]).
        rewrite IHd; [lia | done |].
        apply elem_of_cons in Hin as [-> | ?]; done.
    + rewrite (filter_cons_False (λ r : row, is_Some (r !! "Driver")))
        by (rewrite Hc; by intros [? ?]).
      rewrite <- IH. f_equal. apply list_fmap_ext. intros i d Hi.
      rewrite filter_cons_False; [done |]. by rewrite Hc.
Qed.

(** X16: in the same setting, no line is empty, and the lines together have
    as many points as the frame has rows with a driver: each lap with a
    driver is on exactly one line. *)
Theorem driver_positions_partition renderer legend_entries lap_data driver_colors title
    figsize w cs df :
  (∀ c, renderer c = None) →
  heap w !! lap_data = Some df →
  has_column df "Driver" = true →
  has_column df "LapNumber" = true →
  has_column df "Position" = true →
  ∃ lines,
    (plot_driver_positions renderer legend_entries lap_data driver_colors title figsize
       {| stage := w; charts := cs |}).2
    = {| stage := w;
         charts :=
           positions_finish legend_entries title
             (cs ++ NewFigure 1 1 figsize false :: lines) |}
    ∧ Forall (λ c, (0 < points c)%nat) lines
    ∧ sum_list (points <$> lines)
      = length (filter (λ r : row, is_Some (r !! "Driver")) (rows df)).
Proof.
  intros Hacc Hdf Hd Hlap Hpos. exists (position_line df driver_colors <$> named_drivers df).
  split; [by erewrite plot_driver_positions_run |]. split.
  - apply Forall_fmap, Forall_forall. intros c Hc. apply (driver_rows_named df) in Hc.
    simpl. rewrite length_fmap. destruct (driver_rows df c); [done | simpl; lia].
  - rewrite <- list_fmap_compose.
    rewrite <- (count_by_driver (rows df) (named_drivers df)).
    + f_equal. apply list_fmap_ext. intros i c _. simpl. by rewrite length_fmap.
    + apply named_drivers_NoDup.
    + intros r c Hr Hc. apply named_drivers_elem. by exists r.
Qed.

Lemma driver_positions_partition_witness :
  ∃ lines,
    (plot_driver_positions approving line_labels 0%nat {[ "A" := "red" ]}
       "Race Position Changes" (Decimal 80 1, Decimal 49 1)
       {| stage := {| heap := [race_positions]; canvas := [] |}; charts := [] |}).2
    = {| stage := {| heap := [race_positions]; canvas := [] |};
         charts :=
           positions_finish line_labels "Race Position Changes"
             ([] ++ NewFigure 1 1 (Decimal 80 1, Decimal 49 1) false :: lines) |}
    ∧ Forall (λ c, (0 < points c)%nat) lines
    ∧ sum_list (points <$> lines) = 4%nat.
Proof.
  destruct (driver_positions_partition approving line_labels 0%nat {[ "A" := "red" ]}
              "Race Position Changes" (Decimal 80 1, Decimal 49 1)
              {| heap := [race_positions]; canvas := [] |} [] race_positions)
    as (lines & Hrun & Hpoints & Hsum); [reflexivity .. |].
  exists lines. split; [exact Hrun |]. split; [exact Hpoints |].
  rewrite Hsum. vm_compute; reflexivity.
Defined.

(** X17: with charting libraries that accept every call, a frame in which no
    row has a driver (an empty frame, for one) gives a chart without a line,
    and no exception even when the columns "LapNumber" and "Position" are
    missing; a frame without the column "Driver" raises KeyError once the
    figure exists. *)
Theorem driver_positions_edges renderer legend_entries lap_data driver_colors title
    figsize w cs df :
  (∀ c, renderer c = None) →
  heap w !! lap_data = Some df →
  (has_column df "Driver" = true →
   Forall (λ r : row, r !! "Driver" = None) (rows df) →
   plot_driver_positions renderer legend_entries lap_data driver_colors title figsize
     {| stage := w; charts := cs |}
   = (Ok (),
      {| stage := w;
         charts := positions_finish legend_entries title
                     (cs ++ [NewFigure 1 1 figsize false]) |}))
  ∧ (has_column df "Driver" = false →
     plot_driver_positions renderer legend_entries lap_data driver_colors title figsize
       {| stage := w; charts := cs |}
     = (Raise (KeyError "Driver"),
        {| stage := w; charts := cs ++ [NewFigure 1 1 figsize false] |})).
Proof.
  intros Hacc Hdf. split.
  - intros Hd Hnone. unfold plot_driver_positions.
    rewrite call_accepted by done. rewrite (on_stage_getitem _ _ _ _ _ _ Hdf).
    unfold column at 1. rewrite Hd. rewrite plt_run_bind.
    assert (Hu : unique ((λ r : row, r !! "Driver") <$> rows df) = []
                 ∨ unique ((λ r : row, r !! "Driver") <$> rows df) = [None]).
    { unfold unique. destruct Hnone as [| r rs Hr Hrs]; [by left |].
      right. cbn [fmap list_fmap unique_from]. rewrite Hr.
      rewrite bool_decide_eq_false_2 by (by intros ?%elem_of_nil).
      f_equal. induction Hrs as [| r' rs' Hr' _ IH']; [done |].
      cbn [fmap list_fmap unique_from].
      rewrite Hr'. rewrite bool_decide_eq_true_2 by (by left). exact IH'. }
    assert (Hlines : position_lines renderer lap_data driver_colors
                       (unique ((λ r : row, r !! "Driver") <$> rows df))
                       {| stage := w; charts := cs ++ [NewFigure 1 1 figsize false] |}
                     = (Ok (), {| stage := w;
                                  charts := cs ++ [NewFigure 1 1 figsize false] |})).
    { destruct Hu as [-> | ->]; [done |]. cbn [position_lines].
      rewrite (on_stage_getitem _ _ _ _ _ _ Hdf). unfold column at 1. rewrite Hd.
      rewrite (on_stage_load _ _ _ _ _ Hdf). rewrite plt_run_bind.
      unfold empty, select_rows, series_is. cbn [rows columns].
      rewrite select_none. by rewrite bool_decide_eq_true_2 by done. }
    rewrite Hlines. rewrite !call_accepted by done. rewrite plt_run_bind.
    unfold get_legend_labels at 1. cbn [charts]. unfold positions_finish.
    rewrite <- !app_assoc. cbn [app]. case_bool_decide as Hlabels.
    + rewrite ret_run. rewrite !call_accepted by done.
      rewrite call_accepted_last by done. by flatten.
    + rewrite !call_accepted by done. rewrite call_accepted_last by done.
      by flatten.
  - intros Hd. unfold plot_driver_positions.
    rewrite call_accepted by done. rewrite (on_stage_getitem _ _ _ _ _ _ Hdf).
    unfold column at 1. by rewrite Hd.
Qed.

Lemma driver_positions_edges_witness :
  plot_driver_positions approving line_labels 0%nat ∅ "Race Position Changes"
    (Decimal 80 1, Decimal 49 1)
    {| stage := {| heap := [{| columns := ["Driver"]; rows := [∅; ∅] |}]; canvas := [] |};
       charts := [] |}
  = (Ok (),
     {| stage := {| heap := [{| columns := ["Driver"]; rows := [∅; ∅] |}];
                    canvas := [] |};
        charts :=
          [NewFigure 1 1 (Decimal 80 1, Decimal 49 1) false;
           SetYLim (Decimal 205 1) (Decimal 5 1); SetYTicks [1; 5; 10; 15; 20];
           SetLabel 0 "xlabel" (Some "Lap"); SetLabel 0 "ylabel" (Some "Position");
           SetLabel 0 "title" (Some "Race Position Changes"); Tighten; Display] |})
  ∧ plot_driver_positions approving line_labels 0%nat ∅ "Race Position Changes"
      (Decimal 80 1, Decimal 49 1)
      {| stage := {| heap := [laps durations [1; 2]]; canvas := [] |}; charts := [] |}
    = (Raise (KeyError "Driver"),
       {| stage := {| heap := [laps durations [1; 2]]; canvas := [] |};
          charts := [NewFigure 1 1 (Decimal 80 1, Decimal 49 1) false] |}).
Proof.
  split.
  - etrans.
    + apply (proj1 (driver_positions_edges approving line_labels 0%nat ∅
                      "Race Position Changes" (Decimal 80 1, Decimal 49 1)
                      {| heap := [{| columns := ["Driver"]; rows := [∅; ∅] |}];
                         canvas := [] |} []
                      {| columns := ["Driver"]; rows := [∅; ∅] |}
                      (λ _, eq_refl) eq_refl)).
      * reflexivity.
      * repeat constructor.
    + vm_compute; reflexivity.
  - apply (proj2 (driver_positions_edges approving line_labels 0%nat ∅
                    "Race Position Changes" (Decimal 80 1, Decimal 49 1)
                    {| heap := [laps durations [1; 2]]; canvas := [] |} []
                    (laps durations [1; 2]) (λ _, eq_refl) eq_refl)).
    reflexivity.
Defined.

(** ** plot_telemetry *)

Lemma color_dict_notin i (ds : list string) (m : gmap string string) d :
  d ∉ ds → color_dict i ds m !! d = m !! d.
Proof.
  revert i m. induction ds as [| x ds IH]; intros i m Hd; [done |].
  apply not_elem_of_cons in Hd as [Hne Hd]. cbn [color_dict].
  rewrite IH by done. by rewrite lookup_insert_ne.
Qed.

Lemma color_dict_last i (ds : list string) (m : gmap string string) j d :
  ds !! j = Some d →
  (∀ k, (j < k)%nat → ds !! k ≠ Some d) →
  color_dict i ds m !! d
  = Some (default_colors !!! ((i + j) `mod` length default_colors)%nat).
Proof.
  revert i m j. induction ds as [| x ds IH]; intros i m j Hj Hlast; [done |].
  cbn [color_dict]. destruct j as [| j].
  - injection Hj as ->. rewrite color_dict_notin.
    + rewrite lookup_insert_eq. by rewrite Nat.add_0_r.
    + intros (k & Hk)%list_elem_of_lookup_1. apply (Hlast (S k)); [lia | done].
  - rewrite (IH (S i) _ j); [| done |].
    + by replace (S i + j)%nat with (i + S j)%nat by lia.
    + intros k Hk. apply (Hlast (S k)). lia.
Qed.

Lemma color_dict_in i (ds : list string) (m : gmap string string) d :
  d ∈ ds → is_Some (color_dict i ds m !! d).
Proof.
  revert i m. induction ds as [| x ds IH]; intros i m Hd; [by apply elem_of_nil in Hd |].
  cbn [color_dict]. destruct (decide (d ∈ ds)) as [Hin | Hout]; [by apply IH |].
  apply elem_of_cons in Hd as [-> | ?]; [| done].
  rewrite color_dict_notin by done. rewrite lookup_insert_eq. by eexists.
Qed.

Lemma fetch_telemetry_all session (driver_abbrs : list string) (frames acc : list DataFrame) :
  Forall2 (λ d df, fastest_lap_telemetry session d = Ok df) driver_abbrs frames →
  fetch_telemetry session driver_abbrs acc = Ok (acc ++ frames).
Proof.
  intros H. revert acc. induction H as [| d df ds fs Hd _ IH]; intros acc.
  - simpl. by rewrite app_nil_r.
  - cbn [fetch_telemetry]. rewrite Hd. simpl. rewrite IH. by rewrite <- app_assoc.
Qed.

Lemma fetch_telemetry_fails session (driver_abbrs : list string) acc j d e :
  driver_abbrs !! j = Some d →
  fastest_lap_telemetry session d = Raise e →
  (∀ k d', (k < j)%nat → driver_abbrs !! k = Some d' →
           ∃ df, fastest_lap_telemetry session d' = Ok df) →
  fetch_telemetry session driver_abbrs acc = Raise e.
Proof.
  revert acc j. induction driver_abbrs as [| x ds IH]; intros acc j Hj He Hbefore; [done |].
  cbn [fetch_telemetry]. destruct j as [| j].
  - injection Hj as ->. by rewrite He.
  - destruct (Hbefore 0%nat x) as [df Hdf]; [lia | done |]. rewrite Hdf. simpl.
    apply (IH _ j); [done | done |]. intros k d' Hk Hd'. apply (Hbefore (S k)); [lia | done].
Qed.

Lemma bind_singleton {A B : Type} (g : A → B) (l : list A) :
  l ≫= (λ x, [g x]) = g <$> l.
Proof. induction l as [| x l IH]; [done |]. cbn [mbind list_bind]. rewrite IH. done. Qed.

Lemma plt_bind_assoc {A B C : Type} (m : plt A) (g : A → plt B) (k : B → plt C) s :
  ((m ≫= g) ≫= k) s = (m ≫= λ a, g a ≫= k) s.
Proof. rewrite !plt_run_bind. by destruct (m s) as [[a | e] s']. Qed.

Lemma mapM_run {A C : Type} (f : A → plt unit) (out : A → list chart) (l : list A) w :
  (∀ x cs, x ∈ l →
     f x {| stage := w; charts := cs |}
     = (Ok (), {| stage := w; charts := cs ++ out x |})) →
  ∀ (k : list unit → plt C) cs,
    (mapM f l ≫= k) {| stage := w; charts := cs |}
    = k ((λ _, ()) <$> l) {| stage := w; charts := cs ++ (l ≫= out) |}.
Proof.
  induction l as [| x l IH]; intros Hf k cs.
  - rewrite plt_run_bind. simpl. by rewrite app_nil_r.
  - change (mapM f (x :: l)) with (y ← f x; ys ← mapM f l; mret (y :: ys)).
    assert (Hf' : ∀ x' cs', x' ∈ l →
              f x' {| stage := w; charts := cs' |}
              = (Ok (), {| stage := w; charts := cs' ++ out x' |}))
      by (intros x' cs' Hx'; apply Hf; by right).
    rewrite plt_bind_assoc. rewrite plt_run_bind. rewrite Hf by (by left).
    cbv beta iota. rewrite plt_bind_assoc. rewrite (IH Hf').
    rewrite ret_run. cbn [fmap list_fmap mbind list_bind].
    by rewrite <- app_assoc.
Qed.

Lemma trace_run renderer driver_data driver_name (driver_colors : gmap string string)
    color w :
  (∀ c, renderer c = None) →
  Forall (λ c, has_column driver_data c = true) telemetry_columns →
  driver_colors !! driver_name = Some color →
  ∀ cs (k : list unit → plt unit),
    (mapM (trace renderer driver_data driver_name driver_colors) channels ≫= k)
      {| stage := w; charts := cs |}
    = k ((λ _, ()) <$> channels)
        {| stage := w;
           charts := cs ++ telemetry_lines driver_data driver_name color |}.
Proof.
  intros Hacc Hcols Hcolor cs k. unfold telemetry_lines.
  rewrite (mapM_run _ (λ channel : nat * string * string * string,
             [PlotLine channel.1.1.1 ((λ r : row, r !! "Distance") <$> rows driver_data)
                ((λ r : row, r !! channel.1.1.2) <$> rows driver_data)
                (Some (Str (driver_name +:+ channel.1.2))) color]));
    [by rewrite bind_singleton |].
  intros ch cs' Hch.
  unfold telemetry_columns in Hcols.
  repeat match goal with
         | H : Forall _ (_ :: _) |- _ => apply Forall_cons in H as [? H]
         end.
  unfold channels in Hch.
  repeat match goal with
         | H : _ ∈ _ :: _ |- _ => apply elem_of_cons in H as [-> | H]
         end;
    try (by apply elem_of_nil in Hch);
    unfold trace; cbn [fst snd]; unfold column, dict_item;
    repeat match goal with
           | H : has_column _ _ = true |- _ => first [rewrite !H | idtac]; clear H
           end;
    rewrite Hcolor, !value_run; by rewrite call_accepted_last.
Qed.

Lemma traces_run renderer (driver_colors : gmap string string) w
    (pairs : list (DataFrame * string)) :
  (∀ c, renderer c = None) →
  Forall (λ p, Forall (λ c, has_column p.1 c = true) telemetry_columns
               ∧ is_Some (driver_colors !! p.2)) pairs →
  ∀ cs,
    traces renderer driver_colors pairs {| stage := w; charts := cs |}
    = (Ok (),
       {| stage := w;
          charts := cs ++ (pairs ≫= λ p, telemetry_lines p.1 p.2
                                           (default "" (driver_colors !! p.2))) |}).
Proof.
  intros Hacc H. induction H as [| [df d] pairs [Hcols [color Hcolor]] _ IH]; intros cs.
  - simpl. unfold mret, plt_ret. by rewrite app_nil_r.
  - cbn [traces]. simpl in Hcols, Hcolor.
    rewrite (trace_run renderer df d driver_colors color) by done.
    rewrite IH. cbn [mbind list_bind fst snd]. rewrite Hcolor. simpl.
    by rewrite <- app_assoc.
Qed.

(** X18: the colour plot_telemetry gives a driver is the entry of the default
    palette at the driver's last place in the list, counted modulo the six
    colours of the palette. *)
Theorem telemetry_color_last (driver_abbrs : list string) j d :
  driver_abbrs !! j = Some d →
  (∀ k, (j < k)%nat → driver_abbrs !! k ≠ Some d) →
  color_dict 0 driver_abbrs ∅ !! d = Some (default_colors !!! (j `mod` 6)%nat).
Proof. intros Hj Hlast. by rewrite (color_dict_last 0 driver_abbrs ∅ j d). Qed.

Lemma telemetry_color_last_witness :
  color_dict 0 ["NOR"; "PIA"; "NOR"] ∅ !! "NOR" = Some "blue".
Proof.
  apply (telemetry_color_last ["NOR"; "PIA"; "NOR"] 2 "NOR").
  - reflexivity.
  - intros k Hk. destruct k as [| [| [| k]]]; [lia | lia | lia | discriminate].
Defined.

(** X19: in a list without repetition the drivers six places apart share a
    colour: the palette has six colours and is used cyclically. *)
Theorem telemetry_colors_repeat (driver_abbrs : list string) i a b :
  NoDup driver_abbrs →
  driver_abbrs !! i = Some a →
  driver_abbrs !! (i + 6)%nat = Some b →
  a ≠ b
  ∧ color_dict 0 driver_abbrs ∅ !! a = color_dict 0 driver_abbrs ∅ !! b
  ∧ is_Some (color_dict 0 driver_abbrs ∅ !! a).
Proof.
  intros Hnd Ha Hb.
  assert (Hlast : ∀ j d, driver_abbrs !! j = Some d →
                         ∀ k, (j < k)%nat → driver_abbrs !! k ≠ Some d).
  { intros j d Hj k Hk Hd. pose proof (NoDup_lookup _ _ _ _ Hnd Hj Hd). lia. }
  split; [| split].
  - intros ->. pose proof (NoDup_lookup _ _ _ _ Hnd Ha Hb). lia.
  - rewrite (color_dict_last 0 driver_abbrs ∅ i a) by eauto.
    rewrite (color_dict_last 0 driver_abbrs ∅ (i + 6) b) by eauto.
    do 2 f_equal. change (length default_colors) with 6%nat.
    replace (0 + (i + 6))%nat with (0 + i + 1 * 6)%nat by lia.
    by rewrite Nat.Div0.mod_add.
  - rewrite (color_dict_last 0 driver_abbrs ∅ i a) by eauto. by eexists.
Qed.

Lemma telemetry_colors_repeat_witness :
  "NOR" ≠ "SAI"
  ∧ color_dict 0 ["NOR"; "PIA"; "VER"; "RUS"; "LEC"; "HAM"; "SAI"] ∅ !! "NOR"
    = color_dict 0 ["NOR"; "PIA"; "VER"; "RUS"; "LEC"; "HAM"; "SAI"] ∅ !! "SAI"
  ∧ is_Some (color_dict 0 ["NOR"; "PIA"; "VER"; "RUS"; "LEC"; "HAM"; "SAI"] ∅ !! "NOR").
Proof.
  apply (telemetry_colors_repeat ["NOR"; "PIA"; "VER"; "RUS"; "LEC"; "HAM"; "SAI"] 0).
  - refine (bool_decide_unpack _ _). vm_compute. exact I.
  - reflexivity.
  - reflexivity.
Defined.

(** X20: the telemetry of every driver is fetched before the figure is
    created: when the fetch fails for a driver, and succeeds for the drivers
    before, plot_telemetry raises that exception and has drawn nothing. *)
Theorem telemetry_fetch_failure renderer session (driver_abbrs : list string) s j d e :
  driver_abbrs !! j = Some d →
  fastest_lap_telemetry session d = Raise e →
  (∀ k d', (k < j)%nat → driver_abbrs !! k = Some d' →
           ∃ df, fastest_lap_telemetry session d' = Ok df) →
  plot_telemetry renderer session driver_abbrs s = (Raise e, s).
Proof.
  intros Hj He Hbefore. unfold plot_telemetry. rewrite value_run.
  by rewrite (fetch_telemetry_fails session driver_abbrs [] j d e).
Qed.

Lemma telemetry_fetch_failure_witness :
  plot_telemetry approving qualifying ["NOR"; "VER"; "PIA"]
    {| stage := {| heap := []; canvas := [] |}; charts := [] |}
  = (Raise AttributeError, {| stage := {| heap := []; canvas := [] |}; charts := [] |}).
Proof.
  apply (telemetry_fetch_failure approving qualifying ["NOR"; "VER"; "PIA"]
           {| stage := {| heap := []; canvas := [] |}; charts := [] |} 1 "VER"
           AttributeError).
  - reflexivity.
  - reflexivity.
  - intros k d' Hk Hd'. destruct k as [| k]; [| lia].
    injection Hd' as <-. by exists (telemetry_of 300).
Defined.

(** X21: when every driver's telemetry is fetched and has the seven columns
    read, and the charting library accepts every call, plot_telemetry
    returns, leaves the frames alone and draws, after the figure of six axes
    sharing x, six lines per driver in the order of the list (also for a
    driver listed twice), then a legend and a grid on every axis, the axis
    labels, the title and the display.  The look-up of a driver's colour
    never raises. *)
Theorem telemetry_drawn renderer session (driver_abbrs : list string)
    (frames : list DataFrame) w cs :
  (∀ c, renderer c = None) →
  Forall2 (λ d df, fastest_lap_telemetry session d = Ok df
                   ∧ Forall (λ c, has_column df c = true) telemetry_columns)
    driver_abbrs frames →
  plot_telemetry renderer session driver_abbrs {| stage := w; charts := cs |}
  = (Ok (),
     {| stage := w;
        charts :=
          cs ++ NewFigure 6 1 (Decimal 12 0, Decimal 12 0) true
             :: (zip frames driver_abbrs
                   ≫= λ p, telemetry_lines p.1 p.2 (telemetry_color driver_abbrs p.2))
             ++ telemetry_finish session |}).
Proof.
  intros Hacc Hall. unfold plot_telemetry. rewrite value_run.
  rewrite (fetch_telemetry_all session driver_abbrs frames [])
    by (eapply Forall2_impl; [exact Hall | by intros ? ? [? _]]).
  cbn [app]. rewrite call_accepted by done. rewrite plt_run_bind.
  rewrite traces_run; [| done |].
  2:{ apply Forall_forall. intros [df d] Hin. simpl.
      apply list_elem_of_lookup_1 in Hin as [i Hi].
      apply lookup_zip_with_Some in Hi as (df' & d' & [= <- <-] & Hdf & Hd).
      split.
      - by destruct (Forall2_lookup_lr _ _ _ _ _ _ Hall Hd Hdf) as [_ ?].
      - apply color_dict_in. by eapply list_elem_of_lookup_2. }
  rewrite (mapM_run _ (λ channel : nat * string * string * string,
             [AddLegend channel.1.1.1 None None None None;
              SetGrid channel.1.1.1 "both" None])).
  2:{ intros ch cs' _. rewrite call_accepted by done.
      rewrite call_accepted_last by done. by rewrite <- app_assoc. }
  rewrite (mapM_run _ (λ channel : nat * string * string * string,
             [SetLabel channel.1.1.1 "ylabel" (Some channel.2)])).
  2:{ intros ch cs' _. by rewrite call_accepted_last by done. }
  rewrite !call_accepted by done. rewrite call_accepted_last by done.
  rewrite bind_singleton. unfold telemetry_finish, telemetry_color.
  by flatten.
Qed.

Lemma telemetry_drawn_witness :
  plot_telemetry approving qualifying ["NOR"; "PIA"]
    {| stage := {| heap := []; canvas := [] |}; charts := [] |}
  = (Ok (),
     {| stage := {| heap := []; canvas := [] |};
        charts :=
          NewFigure 6 1 (Decimal 12 0, Decimal 12 0) true
          :: telemetry_lines (telemetry_of 300) "NOR" "orange"
          ++ telemetry_lines (telemetry_of 299) "PIA" "red"
          ++ telemetry_finish qualifying |}).
Proof.
  etrans.
  - apply (telemetry_drawn approving qualifying ["NOR"; "PIA"]
             [telemetry_of 300; telemetry_of 299] {| heap := []; canvas := [] |} []).
    + reflexivity.
    + repeat constructor.
  - vm_compute; reflexivity.
Defined.

(** ** The charts that only read their frames *)

Lemma quiet_position_lines renderer lap_data driver_colors drivers :
  quiet (position_lines renderer lap_data driver_colors drivers).
Proof.
  induction drivers as [| driver rest IH]; [apply quiet_ret |]. cbn [position_lines].
  apply quiet_bind; [quiet_step | intros by_driver].
  apply quiet_bind; [quiet_step | intros df].
  apply quiet_bind; [| by intros _].
  destruct (empty _); solve_quiet.
Qed.

Lemma quiet_stint_bars renderer driver compound_colors driver_stints previous todo :
  quiet (stint_bars renderer driver compound_colors driver_stints previous todo).
Proof.
  revert previous. induction todo as [| r rest IH]; intros previous; [apply quiet_ret |].
  cbn [stint_bars]. repeat (apply quiet_bind; [quiet_step | intros ?]). apply IH.
Qed.

Lemma quiet_strategy_bars renderer stints compound_colors drivers :
  quiet (strategy_bars renderer stints compound_colors drivers).
Proof.
  induction drivers as [| driver rest IH]; [apply quiet_ret |]. cbn [strategy_bars].
  apply quiet_bind; [quiet_step | intros by_driver].
  apply quiet_bind; [quiet_step | intros df].
  apply quiet_bind; [apply quiet_stint_bars | by intros _].
Qed.

Lemma quiet_traces renderer driver_colors pairs :
  quiet (traces renderer driver_colors pairs).
Proof.
  induction pairs as [| [driver_data driver_name] rest IH]; [apply quiet_ret |].
  cbn [traces]. apply quiet_bind; [| by intros _].
  apply quiet_mapM. intros [[[axis column_name] suffix] label]. unfold trace. solve_quiet.
Qed.

(** X22: plot_laptimes_boxplot, plot_driver_positions, plot_tyre_strategy and
    plot_telemetry only read: whatever their outcome, returned or raised, and
    whatever the charting library does, every frame is afterwards as it was
    before the call. *)
Theorem charts_only_read renderer legend_entries :
  (∀ data x y hue order palette figsize xlabel title,
     quiet (plot_laptimes_boxplot renderer data x y hue order palette figsize xlabel title))
  ∧ (∀ lap_data driver_colors title figsize,
       quiet (plot_driver_positions renderer legend_entries lap_data driver_colors title
                figsize))
  ∧ (∀ drivers stints driver_colors compound_colors title figsize,
       quiet (plot_tyre_strategy renderer drivers stints driver_colors compound_colors
                title figsize))
  ∧ (∀ session driver_abbrs, quiet (plot_telemetry renderer session driver_abbrs)).
Proof.
  repeat split.
  - intros. unfold plot_laptimes_boxplot.
    do 4 (apply quiet_bind; [quiet_step | intros ?]).
    apply quiet_bind; [| intros ?].
    { destruct xlabel as [l |]; [destruct (truthy l) |]; quiet_step. }
    apply quiet_bind; [| intros ?].
    { destruct title as [t |]; [destruct (truthy t) |]; quiet_step. }
    solve_quiet.
  - intros. unfold plot_driver_positions.
    do 2 (apply quiet_bind; [quiet_step | intros ?]).
    apply quiet_bind; [apply quiet_position_lines | intros ?].
    do 5 (apply quiet_bind; [quiet_step | intros ?]).
    apply quiet_bind; [| intros ?].
    { case_bool_decide; quiet_step. }
    solve_quiet.
  - intros. unfold plot_tyre_strategy.
    apply quiet_bind; [quiet_step | intros ?].
    apply quiet_bind; [apply quiet_strategy_bars | intros ?].
    solve_quiet.
  - intros. unfold plot_telemetry.
    do 2 (apply quiet_bind; [quiet_step | intros ?]).
    apply quiet_bind; [apply quiet_traces | intros ?].
    apply quiet_bind; [apply quiet_mapM; intros ?; solve_quiet | intros ?].
    apply quiet_bind; [apply quiet_mapM; intros ?; solve_quiet | intros ?].
    solve_quiet.
Qed.
